(** * AgriSense: synthetic sensor simulators and agronomic scoring rules

    A shallow embedding of the hand-written rules of the repository:
    the water-quality rubric and the soil / water generators of
    [data/generate_synthetic_data.py], the soil health score of
    [models/utils/preprocessing.py], the deficiency diagnosis of
    [models/soil_health/nutrient_deficiency.py], the irrigation need of
    [models/water_management/irrigation_optimizer.py] and the irrigation
    suitability check of [models/water_management/water_quality.py].

    Numbers.  A finite Python float is a rational number, so measured
    quantities are values of [Q] and arithmetic is exact; every threshold
    of the source is a rational written as in the source.  The one
    function that needs a square root, [estimate_eto], is stated over the
    real numbers.  Python [int] values ([score] of the water rubric) are
    values of [Z]. *)

From Stdlib Require Import ZArith QArith Qround Qabs Qminmax Reals Lia Psatz List String Sorted.
From stdpp Require Import gmap strings.

Local Open Scope Z_scope.
Local Open Scope Q_scope.
Local Open Scope string_scope.

(** Order on [Q] is decidable. *)
#[global] Instance Qle_decision (a b : Q) : Decision (a <= b) :=
  match Qlt_le_dec b a with
  | left H => right (Qlt_not_le _ _ H)
  | right H => left H
  end.

#[global] Instance Qlt_decision (a b : Q) : Decision (a < b) :=
  match Qlt_le_dec a b with
  | left H => left H
  | right H => right (Qle_not_lt _ _ H)
  end.

(** ** Python and numpy primitives on numbers *)

Module Py.

(** [a <= b] and [a < b] on floats. *)
Definition le (a b : Q) : bool := Qle_bool a b.
Definition lt (a b : Q) : bool := negb (Qle_bool b a).
Definition ge (a b : Q) : bool := le b a.
Definition gt (a b : Q) : bool := lt b a.

(** [max(a, b)]: the first argument unless the second is strictly larger. *)
Definition max (a b : Q) : Q := if lt a b then b else a.

(** [np.clip(x, lo, hi)] is [minimum(maximum(x, lo), hi)]. *)
Definition clip (x lo hi : Q) : Q := Qmin (Qmax x lo) hi.

(** Rounding to a nearest integer, as [round] and [np.round] do.  The
    numbers of the program are binary floats and those of this file are
    exact rationals: on an exact tie the float that the program holds
    lies on one side or the other, and the program returns either
    neighbour.  Here a tie goes to the even neighbour; the properties of
    rounded values below state nearness, bounds and monotonicity, which
    hold for both neighbours, and never the direction of a tie. *)
Definition rint (x : Q) : Z :=
  let f := Qfloor x in
  let r := x - inject_Z f in
  if lt r (1#2) then f
  else if lt (1#2) r then (f + 1)%Z
  else if Z.even f then f else (f + 1)%Z.

(** [round(x, ndigits)] for a non-negative number of digits. *)
Definition round (x : Q) (ndigits : nat) : Q :=
  let scale := inject_Z (10 ^ Z.of_nat ndigits) in
  inject_Z (rint (x * scale)) / scale.

End Py.

(** ** [models/utils/preprocessing.py]: category of a health score *)

Definition categorize_health_score (score : Q) : string :=
  if Py.ge score 80 then "Excellent"
  else if Py.ge score 60 then "Good"
  else if Py.ge score 40 then "Fair"
  else "Poor".

(** ** [models/utils/preprocessing.py]: soil health score

    [row["key"]] raises [KeyError] on a missing field: the score is
    [None] then.  [score += e] is a rebinding of [score]. *)

Definition generate_soil_health_score (row : gmap string Q) : option Q :=
  let score := 0 in
  n ← row !! "nitrogen_mg_kg";
  p ← row !! "phosphorus_mg_kg";
  k ← row !! "potassium_mg_kg";
  let n_score := Py.max 0 (10 - Qabs (n - 80) / 8) in
  let p_score := Py.max 0 (10 - Qabs (p - 45) / 5) in
  let k_score := Py.max 0 (10 - Qabs (k - 60) / 6) in
  let score := score + (n_score + p_score + k_score) in
  ph ← row !! "ph";
  let score :=
    if Py.le 6.0 ph && Py.le ph 7.5 then score + 20
    else if Py.le 5.5 ph && Py.le ph 8.0 then score + 12
    else if Py.le 5.0 ph && Py.le ph 8.5 then score + 5
    else score in
  om ← row !! "organic_matter_pct";
  let score :=
    if Py.le 3.0 om && Py.le om 6.0 then score + 20
    else if Py.le 2.0 om && Py.le om 8.0 then score + 12
    else score + 5 in
  m ← row !! "moisture_pct";
  let score :=
    if Py.le 20 m && Py.le m 45 then score + 15
    else if Py.le 10 m && Py.le m 60 then score + 8
    else score + 3 in
  ec ← row !! "ec_mscm";
  let score :=
    if Py.le 0.5 ec && Py.le ec 2.5 then score + 15
    else if Py.le 0.2 ec && Py.le ec 4.0 then score + 8
    else score + 2 in
  Some (Py.clip (Py.round score 1) 0 100).

(** The components of the score as the specification words them. *)
Module SoilScoreSpec.

Definition nutrient (value ideal sensitivity : Q) : Q :=
  Qmax 0 (10 - Qabs (value - ideal) / sensitivity).

Definition npk (n p k : Q) : Q :=
  nutrient n 80 8 + nutrient p 45 5 + nutrient k 60 6.

Definition ph_points (ph : Q) : Q :=
  if decide (6.0 <= ph /\ ph <= 7.5) then 20
  else if decide (5.5 <= ph /\ ph <= 8.0) then 12
  else if decide (5.0 <= ph /\ ph <= 8.5) then 5
  else 0.

Definition organic_matter_points (om : Q) : Q :=
  if decide (3.0 <= om /\ om <= 6.0) then 20
  else if decide (2.0 <= om /\ om <= 8.0) then 12
  else 5.

Definition moisture_points (m : Q) : Q :=
  if decide (20 <= m /\ m <= 45) then 15
  else if decide (10 <= m /\ m <= 60) then 8
  else 3.

Definition ec_points (ec : Q) : Q :=
  if decide (0.5 <= ec /\ ec <= 2.5) then 15
  else if decide (0.2 <= ec /\ ec <= 4.0) then 8
  else 2.

Definition total (n p k ph om m ec : Q) : Q :=
  npk n p k + ph_points ph + organic_matter_points om
  + moisture_points m + ec_points ec.

(** The score as claimed: the total clamped to [0, 100]. *)
Definition claimed (n p k ph om m ec : Q) : Q :=
  Qmin (Qmax (total n p k ph om m ec) 0) 100.

(** The score as [generate_soil_health_score] computes it here: the
    total rounded to one decimal with [Py.round], then the clamp. *)
Definition rounded (n p k ph om m ec : Q) : Q :=
  Qmin (Qmax (Py.round (total n p k ph om m ec) 1) 0) 100.

End SoilScoreSpec.

(** ** [data/generate_synthetic_data.py]: the water quality rubric

    The body of the loop of [generate_water_data] between the comment
    "Derive quality grade" and [records.append]: [score] starts at 0 and
    each of the five [if]/[elif] statements adds to it. *)

Definition water_quality_score (ph tds turbidity dissolved_o2 nitrate : Q) : Z :=
  let score := 0%Z in
  let score := if Py.le 6.5 ph && Py.le ph 8.5 then (score + 20)%Z
               else if Py.le 6.0 ph && Py.le ph 9.0 then (score + 10)%Z
               else score in
  let score := if Py.lt tds 500 then (score + 20)%Z
               else if Py.lt tds 1000 then (score + 10)%Z
               else score in
  let score := if Py.lt turbidity 5 then (score + 20)%Z
               else if Py.lt turbidity 10 then (score + 10)%Z
               else score in
  let score := if Py.gt dissolved_o2 6 then (score + 20)%Z
               else if Py.gt dissolved_o2 4 then (score + 10)%Z
               else score in
  let score := if Py.lt nitrate 10 then (score + 20)%Z
               else if Py.lt nitrate 45 then (score + 10)%Z
               else score in
  score.

Definition water_quality_grade (score : Z) : string :=
  if (score >=? 80)%Z then "A"
  else if (score >=? 60)%Z then "B"
  else if (score >=? 40)%Z then "C"
  else if (score >=? 20)%Z then "D"
  else "F".

(** The rubric as the specification words it: a table of tiers, each
    parameter worth 20, 10 or 0 points. *)
Module Rubric.

Inductive tier (full partial : Prop) : Z -> Prop :=
| tier_full : full -> tier full partial 20
| tier_partial : ~ full -> partial -> tier full partial 10
| tier_none : ~ full -> ~ partial -> tier full partial 0.

Definition ph_points (ph : Q) : Z -> Prop :=
  tier (6.5 <= ph /\ ph <= 8.5) (6.0 <= ph /\ ph <= 9.0).


End Rubric.

(** ** [models/soil_health/nutrient_deficiency.py]: deficiency diagnosis *)

Record thresholds := { low : Q; moderate : Q; adequate : Q }.

Module DEFICIENCY_THRESHOLDS.
Definition nitrogen := {| low := 40; moderate := 60; adequate := 80 |}.
Definition phosphorus := {| low := 15; moderate := 25; adequate := 40 |}.
Definition potassium := {| low := 25; moderate := 35; adequate := 50 |}.
Definition ph_low : Q := 5.5.
Definition ph_high : Q := 8.0.
End DEFICIENCY_THRESHOLDS.

Record amendment_rec := { amendment : string; dosage : string; timing : string }.

Inductive amendment_key := N_deficient | P_deficient | K_deficient | pH_low | pH_high.

Definition AMENDMENT_RECOMMENDATIONS (key : amendment_key) : list amendment_rec :=
  match key with
  | N_deficient =>
      [ {| amendment := "Urea (46-0-0)"; dosage := "60-100 kg/ha";
           timing := "Split application: 50% at sowing, 50% at 30 days" |};
        {| amendment := "Ammonium Sulfate (21-0-0-24S)"; dosage := "120-180 kg/ha";
           timing := "Pre-sowing or side-dress" |};
        {| amendment := "Neem-coated Urea"; dosage := "60-100 kg/ha";
           timing := "Slow release, apply at sowing" |} ]
  | P_deficient =>
      [ {| amendment := "DAP (18-46-0)"; dosage := "50-80 kg/ha";
           timing := "Apply at sowing as basal dose" |};
        {| amendment := "SSP (0-16-0)"; dosage := "150-250 kg/ha";
           timing := "Basal application" |};
        {| amendment := "Rock Phosphate"; dosage := "200-400 kg/ha";
           timing := "Pre-sowing, works best in acidic soils" |} ]
  | K_deficient =>
      [ {| amendment := "MOP - Muriate of Potash (0-0-60)"; dosage := "40-80 kg/ha";
           timing := "Basal or split application" |};
        {| amendment := "SOP - Sulfate of Potash (0-0-50)"; dosage := "50-100 kg/ha";
           timing := "For chloride-sensitive crops" |};
        {| amendment := "Wood Ash"; dosage := "500-1000 kg/ha";
           timing := "Pre-sowing, also raises pH" |} ]
  | pH_low =>
      [ {| amendment := "Agricultural Lime (CaCO₃)"; dosage := "2-4 tons/ha";
           timing := "Apply 2-3 months before sowing" |};
        {| amendment := "Dolomite Lime"; dosage := "1.5-3 tons/ha";
           timing := "Also supplies Mg, apply before plowing" |} ]
  | pH_high =>
      [ {| amendment := "Gypsum (CaSO₄)"; dosage := "2-5 tons/ha";
           timing := "Apply before plowing season" |};
        {| amendment := "Sulfur (Eleite)"; dosage := "200-500 kg/ha";
           timing := "Apply and incorporate into soil" |};
        {| amendment := "Organic Matter / Compost"; dosage := "10-20 tons/ha";
           timing := "Regular annual application" |} ]
  end.

(** A sensor reading is a dict from field names to measured numbers;
    [reading.get(key, d)] is [get reading key d]. *)
Definition get (reading : gmap string Q) (key : string) (d : Q) : Q :=
  default d (reading !! key).

Record deficiency := { nutrient : string; value : Q; d_severity : string }.

Record diagnosis := {
  deficiencies : list deficiency;
  recommendations : list amendment_rec;
  severity : string
}.

(** [result["deficiencies"].append(d)] and
    [result["recommendations"].extend(l)]. *)
Definition append_deficiency (d : deficiency) (result : diagnosis) : diagnosis :=
  {| deficiencies := deficiencies result ++ [d];
     recommendations := recommendations result;
     severity := severity result |}.

Definition extend_recommendations (l : list amendment_rec) (result : diagnosis) : diagnosis :=
  {| deficiencies := deficiencies result;
     recommendations := recommendations result ++ l;
     severity := severity result |}.

Definition set_severity (s : string) (result : diagnosis) : diagnosis :=
  {| deficiencies := deficiencies result;
     recommendations := recommendations result;
     severity := s |}.

(** ["Critical" in severities] *)
Definition str_in (s : string) (l : list string) : bool :=
  existsb (String.eqb s) l.

Definition diagnose (sensor_reading : gmap string Q) : diagnosis :=
  let result := {| deficiencies := []; recommendations := []; severity := "none" |} in
  let n := get sensor_reading "nitrogen_mg_kg" 0 in
  let p := get sensor_reading "phosphorus_mg_kg" 0 in
  let k := get sensor_reading "potassium_mg_kg" 0 in
  let ph := get sensor_reading "ph" 7.0 in
  let result :=
    if Py.lt n (moderate DEFICIENCY_THRESHOLDS.nitrogen) then
      let severity := if Py.lt n (low DEFICIENCY_THRESHOLDS.nitrogen)
                      then "Critical" else "Low" in
      extend_recommendations (AMENDMENT_RECOMMENDATIONS N_deficient)
        (append_deficiency
           {| nutrient := "Nitrogen"; value := n; d_severity := severity |} result)
    else result in
  let result :=
    if Py.lt p (moderate DEFICIENCY_THRESHOLDS.phosphorus) then
      let severity := if Py.lt p (low DEFICIENCY_THRESHOLDS.phosphorus)
                      then "Critical" else "Low" in
      extend_recommendations (AMENDMENT_RECOMMENDATIONS P_deficient)
        (append_deficiency
           {| nutrient := "Phosphorus"; value := p; d_severity := severity |} result)
    else result in
  let result :=
    if Py.lt k (moderate DEFICIENCY_THRESHOLDS.potassium) then
      let severity := if Py.lt k (low DEFICIENCY_THRESHOLDS.potassium)
                      then "Critical" else "Low" in
      extend_recommendations (AMENDMENT_RECOMMENDATIONS K_deficient)
        (append_deficiency
           {| nutrient := "Potassium"; value := k; d_severity := severity |} result)
    else result in
  let result :=
    if Py.lt ph DEFICIENCY_THRESHOLDS.ph_low then
      extend_recommendations (AMENDMENT_RECOMMENDATIONS pH_low)
        (append_deficiency
           {| nutrient := "pH (Acidic)"; value := ph; d_severity := "Imbalanced" |} result)
    else if Py.gt ph DEFICIENCY_THRESHOLDS.ph_high then
      extend_recommendations (AMENDMENT_RECOMMENDATIONS pH_high)
        (append_deficiency
           {| nutrient := "pH (Alkaline)"; value := ph; d_severity := "Imbalanced" |} result)
    else result in
  match deficiencies result with
  | [] => result
  | _ :: _ =>
      let severities := map d_severity (deficiencies result) in
      if str_in "Critical" severities
      then set_severity "critical" result
      else set_severity "moderate" result
  end.

(** The diagnosis as the specification words it: one optional flag per
    nutrient, one for pH, and the overall severity as a union. *)
Module DiagnosisSpec.

Definition nutrient_flag (name : string) (v lo md : Q) : list deficiency :=
  if decide (v < md)
  then [ {| nutrient := name; value := v;
            d_severity := if decide (v < lo) then "Critical" else "Low" |} ]
  else [].

Definition ph_flag (ph : Q) : list deficiency :=
  if decide (ph < 5.5)
  then [ {| nutrient := "pH (Acidic)"; value := ph; d_severity := "Imbalanced" |} ]
  else if decide (8.0 < ph)
  then [ {| nutrient := "pH (Alkaline)"; value := ph; d_severity := "Imbalanced" |} ]
  else [].

Definition overall (n p k ph : Q) : string :=
  if decide (n < 40 \/ p < 15 \/ k < 25) then "critical"
  else if decide (n < 60 \/ p < 25 \/ k < 35 \/ ph < 5.5 \/ 8.0 < ph) then "moderate"
  else "none".

End DiagnosisSpec.

(** ** [models/water_management/water_quality.py]: irrigation suitability *)

Record limits := { l_min : option Q; l_max : option Q; l_unit : string }.

(** The dict [IRRIGATION_LIMITS], in its insertion order; a key absent
    from an entry ("min" for all but pH) is [None]. *)
Definition IRRIGATION_LIMITS : list (string * limits) :=
  [ ("ph", {| l_min := Some 6.0; l_max := Some 8.5; l_unit := "" |});
    ("tds_ppm", {| l_min := None; l_max := Some 2000; l_unit := "ppm" |});
    ("chloride_mg_l", {| l_min := None; l_max := Some 350; l_unit := "mg/L" |});
    ("sulfate_mg_l", {| l_min := None; l_max := Some 400; l_unit := "mg/L" |});
    ("hardness_mg_l", {| l_min := None; l_max := Some 500; l_unit := "mg/L" |}) ].

Record assessment := {
  suitable : bool;
  issues : list string;
  recommendation : string
}.

Section Suitability.

(** The text that an f-string puts for a number.  Python prints a
    float reading and an integer limit of the same value differently
    ("500.0", "500"); the properties below concern which messages are
    issued, not their digits. *)
Variable format_number : Q -> string.

Definition exceeds_message (param : string) (value : Q) (lim : limits) (mx : Q) : string :=
  param ++ " (" ++ format_number value ++ l_unit lim ++ ") exceeds limit ("
        ++ format_number mx ++ l_unit lim ++ ")".

Definition below_message (param : string) (value : Q) (lim : limits) (mn : Q) : string :=
  param ++ " (" ++ format_number value ++ l_unit lim ++ ") below minimum ("
        ++ format_number mn ++ l_unit lim ++ ")".

(** One iteration of the loop over [IRRIGATION_LIMITS.items()], on the
    pair of local variables [(issues, suitable)]. *)
Definition assess_step (reading : gmap string Q)
    (st : list string * bool) (item : string * limits) : list string * bool :=
  let '(issues, suitable) := st in
  let '(param, lim) := item in
  match reading !! param with
  | None => (issues, suitable)
  | Some value =>
      let '(issues, suitable) :=
        match l_max lim with
        | Some mx =>
            if Py.gt value mx
            then ((issues ++ [exceeds_message param value lim mx])%list, false)
            else (issues, suitable)
        | None => (issues, suitable)
        end in
      match l_min lim with
      | Some mn =>
          if Py.lt value mn
          then ((issues ++ [below_message param value lim mn])%list, false)
          else (issues, suitable)
      | None => (issues, suitable)
      end
  end.

Definition assess_irrigation_suitability (reading : gmap string Q) : assessment :=
  let '(issues, suitable) :=
    fold_left (assess_step reading) IRRIGATION_LIMITS ([], true) in
  {| suitable := suitable;
     issues := issues;
     recommendation := if suitable then "Suitable for irrigation"
                       else "Treatment needed before irrigation" |}.

(** The messages one parameter contributes. *)
Definition item_issues (reading : gmap string Q) (item : string * limits) : list string :=
  let '(param, lim) := item in
  match reading !! param with
  | None => []
  | Some value =>
      (match l_max lim with
       | Some mx => if decide (mx < value)
                    then [exceeds_message param value lim mx] else []
       | None => []
       end ++
       match l_min lim with
       | Some mn => if decide (value < mn)
                    then [below_message param value lim mn] else []
       | None => []
       end)%list
  end.

End Suitability.

(** A parameter of the reading is out of bounds. *)
Definition out_of_bounds (reading : gmap string Q) : Prop :=
  (exists v, reading !! "ph" = Some v /\ (v < 6.0 \/ 8.5 < v)) \/
  (exists v, reading !! "tds_ppm" = Some v /\ 2000 < v) \/
  (exists v, reading !! "chloride_mg_l" = Some v /\ 350 < v) \/
  (exists v, reading !! "sulfate_mg_l" = Some v /\ 400 < v) \/
  (exists v, reading !! "hardness_mg_l" = Some v /\ 500 < v).

(** ** [models/water_management/irrigation_optimizer.py]: irrigation need

    The last block of [create_irrigation_dataset] adds three columns to
    the joined frame [merged]; the column operations act row by row. *)

Record merged_row := {
  soil_type : string;
  moisture_pct : Q;
  evapotranspiration_est : Q;
  rainfall_mm : Q
}.

Record irrigation_row := {
  joined : merged_row;
  field_capacity_col : Q;
  moisture_deficit : Q;
  irrigation_need_mm : Q
}.

Definition field_capacity : gmap string Q :=
  {[ "Loamy" := 40; "Clay" := 50; "Sandy" := 20; "Silt" := 45;
     "Clay Loam" := 48; "Sandy Loam" := 28; "Peaty" := 60 ]}.

(** [merged["soil_type"].map(field_capacity).fillna(35)], one cell: a
    soil type that is not a key maps to NaN, which [fillna] replaces. *)
Definition map_fillna (table : gmap string Q) (fill : Q) (key : string) : Q :=
  default fill (table !! key).

Definition irrigation_columns (row : merged_row) : irrigation_row :=
  let fc := map_fillna field_capacity 35 (soil_type row) in
  let deficit := fc * 0.5 - moisture_pct row in
  {| joined := row;
     field_capacity_col := fc;
     moisture_deficit := deficit;
     irrigation_need_mm :=
       Py.clip (deficit + evapotranspiration_est row * 5 - rainfall_mm row * 0.8)
               0 50 |}.

Definition create_irrigation_columns (merged : list merged_row) : list irrigation_row :=
  map irrigation_columns merged.

(** The irrigation need as the specification words it. *)
Module IrrigationSpec.

Definition field_capacity_of (soil : string) : Q :=
  if decide (soil = "Loamy") then 40
  else if decide (soil = "Clay") then 50
  else if decide (soil = "Sandy") then 20
  else if decide (soil = "Silt") then 45
  else if decide (soil = "Clay Loam") then 48
  else if decide (soil = "Sandy Loam") then 28
  else if decide (soil = "Peaty") then 60
  else 35.

Definition clamp (x lo hi : Q) : Q :=
  if decide (x < lo) then lo else if decide (hi < x) then hi else x.

Definition need (soil : string) (moisture eto rainfall : Q) : Q :=
  let deficit := field_capacity_of soil * 0.5 - moisture in
  clamp (deficit + eto * 5 - rainfall * 0.8) 0 50.

End IrrigationSpec.

(** ** [models/utils/preprocessing.py]: evapotranspiration estimate

    [np.sqrt] needs the real numbers: in this module a float is a real
    number and arithmetic is exact. *)

Module Eto.

Local Open Scope R_scope.

(** [np.clip(x, lo, hi)]. *)
Definition clip (x lo hi : R) : R := Rmin (Rmax x lo) hi.

(** Rounding to a nearest integer; as for [Py.rint], an exact tie goes
    to the even neighbour here and to either neighbour in the program. *)
Definition rint (x : R) : Z :=
  let f := Int_part x in
  let r := x - IZR f in
  if Rlt_dec r (1/2) then f
  else if Rlt_dec (1/2) r then (f + 1)%Z
  else if Z.even f then f else (f + 1)%Z.

(** [np.round(x, decimals)]. *)
Definition round (x : R) (decimals : nat) : R :=
  IZR (rint (x * 10 ^ decimals)) / 10 ^ decimals.

Definition estimate_eto (temp_c humidity_pct solar_rad wind_speed : R) : R :=
  let eto := 0.0023 * (temp_c + 17.8) * sqrt (Rabs (solar_rad + 1)) *
             (1 - humidity_pct / 100) * (1 + 0.01 * wind_speed) in
  round (clip eto 0 15) 2.

(** The estimate as the claim words it: [|S| + 1] under the root, the
    clamp, no rounding. *)
Definition claimed (T H S W : R) : R :=
  let x := 0.0023 * (T + 17.8) * sqrt (Rabs S + 1) * (1 - H / 100) *
           (1 + 0.01 * W) in
  if Rlt_dec x 0 then 0 else if Rlt_dec 15 x then 15 else x.

(** The quantity that the code clamps and rounds: [|S + 1|] under the
    root. *)
Definition clamped (T H S W : R) : R :=
  let x := 0.0023 * (T + 17.8) * sqrt (Rabs (S + 1)) * (1 - H / 100) *
           (1 + 0.01 * W) in
  if Rlt_dec x 0 then 0 else if Rlt_dec 15 x then 15 else x.

(** [y] is [x] rounded to two decimals: a hundredth nearest to [x],
    either of the two at an exact tie. *)
Definition rounded_to_hundredths (x y : R) : Prop :=
  exists k : Z,
    y = IZR k / 100 /\
    Rabs (IZR k - 100 * x) <= 1 / 2.

End Eto.

(** ** [data/generate_synthetic_data.py]: the soil and water simulators

    A table cell is a string, a number or the missing-value marker
    [np.nan]; a record is a dict from column names to cells; a
    [DataFrame] is its column index and its rows. *)

Inductive cell := Str (s : string) | Num (q : Q) | NaN.

Record DataFrame := {
  columns : list string;
  rows : list (gmap string cell)
}.

(** A Python call returns a value or raises. *)
Inductive result (A : Type) :=
| Ok (a : A)
| Raise (exc : string).
Arguments Ok {A} a.
Arguments Raise {A} exc.

(** [pd.DataFrame(records)] for a list of dicts that all have the keys
    [keys]: the columns are the keys of the records, so an empty list
    gives a frame without columns. *)
Definition pd_DataFrame (keys : list string) (records : list (gmap string cell)) : DataFrame :=
  {| columns := match records with [] => [] | _ :: _ => keys end;
     rows := records |}.

Definition no_index_error : string :=
  "ValueError: cannot set a frame with no defined index and a scalar".

(** [df.loc[mask, col] = np.nan] for a boolean [mask] as long as the
    frame.  An existing column is overwritten where the mask holds.  A
    missing column is created (all NaN), unless the frame has no row:
    pandas then raises "cannot set a frame with no defined index and a
    scalar". *)
Definition loc_set_nan (mask : list bool) (col : string) (df : DataFrame) : result DataFrame :=
  if bool_decide (col ∈ columns df) then
    Ok {| columns := columns df;
          rows := zip_with (fun (b : bool) r => if b then <[col := NaN]> r else r)
                           mask (rows df) |}
  else
    match rows df with
    | [] => Raise no_index_error
    | _ :: _ =>
        Ok {| columns := (columns df ++ [col])%list;
              rows := map (fun r => <[col := NaN]> r) (rows df) |}
    end.

(** The random generator of numpy, its [sin] and [pi], and [strftime]
    are library code: they are the fields of an environment, and the
    state [G] of the generator is passed explicitly.  Every property
    below holds for every environment. *)
Class Numpy (G : Type) := {
  np_pi : Q;
  np_sin : Q -> Q;
  (** [(start_date + timedelta(hours=h)).strftime("%Y-%m-%d %H:%M:%S")] *)
  strftime : Z -> string;
  (** [np.random.randint(low, high)] *)
  np_randint : Z -> Z -> G -> Z * G;
  (** [np.random.choice(a, size, p=p)] *)
  np_choice : list string -> option (list Q) -> nat -> G -> list string * G;
  (** [np.random.normal(loc, scale)] *)
  np_normal : Q -> Q -> G -> Q * G;
  (** [np.random.random(size)] and [np.random.random()] *)
  np_random : nat -> G -> list Q * G;
  np_random1 : G -> Q * G;
  (** [np.exp], [np.random.exponential(scale)], [np.random.weibull(a)],
      [np.random.uniform(low, high)] *)
  np_exp : Q -> Q;
  np_exponential : Q -> G -> Q * G;
  np_weibull : Q -> G -> Q * G;
  np_uniform : Q -> Q -> G -> Q * G;
  np_choice_length : forall a p size g,
      a <> [] -> length (np_choice a p size g).1 = size;
  np_choice_elem : forall a p size g x, In x (np_choice a p size g).1 -> In x a;
  np_random_length : forall size g, length (np_random size g).1 = size
}.

(** State and exception monad of the generators. *)
Definition M (G A : Type) : Type := G -> result (A * G).

#[global] Instance M_ret G : MRet (M G) :=
  fun A (a : A) g => Ok (a, g).

#[global] Instance M_bind G : MBind (M G) :=
  fun A B (f : A -> M G B) (m : M G A) g =>
    match m g with
    | Ok (a, g') => f a g'
    | Raise exc => Raise exc
    end.

Definition raise {G A} (exc : string) : M G A := fun _ => Raise exc.

(** A call that cannot raise. *)
Definition call {G A} (f : G -> A * G) : M G A := fun g => Ok (f g).

Definition lift {G A} (r : result A) : M G A :=
  fun g => match r with Ok a => Ok (a, g) | Raise exc => Raise exc end.

(** [[c for _ in range(n)]] *)
Fixpoint repeatM {G A} (n : nat) (c : M G A) : M G (list A) :=
  match n with
  | O => mret []
  | S n' => a ← c; l ← repeatM n' c; mret (a :: l)
  end.

(** [for x in l: records.append(f(x))] *)
Fixpoint mapM {G A B} (f : A -> M G B) (l : list A) : M G (list B) :=
  match l with
  | [] => mret []
  | x :: l' => b ← f x; bs ← mapM f l'; mret (b :: bs)
  end.

(** [for x in l: acc = f(acc, x)] *)
Fixpoint foldM {G A B} (f : B -> A -> M G B) (l : list A) (acc : B) : M G B :=
  match l with
  | [] => mret acc
  | x :: l' => acc' ← f acc x; foldM f l' acc'
  end.

(** [list.sort()] on hour offsets. *)
Fixpoint insert_sorted (x : Z) (l : list Z) : list Z :=
  match l with
  | [] => [x]
  | y :: l' => if (x <=? y)%Z then x :: l else y :: insert_sorted x l'
  end.

Definition sort (l : list Z) : list Z := fold_right insert_sorted [] l.

(** [ts.timetuple().tm_yday] for [ts] at [h] hours after 2024-01-01
    00:00, within the two years 2024 (366 days) and 2025. *)
Definition tm_yday (h : Z) : Z :=
  let d := (h / 24)%Z in
  if (d <? 366)%Z then (d + 1)%Z else (d - 366 + 1)%Z.

Record profile := {
  p_soil_type : string;
  base_pH : Q;
  base_N : Q;
  base_P : Q;
  base_K : Q;
  base_moisture : Q
}.

Definition ZONE_PROFILES : list (string * profile) :=
  [ ("Zone_1", {| p_soil_type := "Loamy"; base_pH := 6.5; base_N := 80;
                  base_P := 45; base_K := 60; base_moisture := 35 |});
    ("Zone_2", {| p_soil_type := "Clay"; base_pH := 7.2; base_N := 60;
                  base_P := 35; base_K := 50; base_moisture := 45 |});
    ("Zone_3", {| p_soil_type := "Sandy"; base_pH := 5.8; base_N := 40;
                  base_P := 20; base_K := 35; base_moisture := 15 |});
    ("Zone_4", {| p_soil_type := "Silt"; base_pH := 6.8; base_N := 70;
                  base_P := 40; base_K := 55; base_moisture := 40 |});
    ("Zone_5", {| p_soil_type := "Loamy"; base_pH := 6.2; base_N := 90;
                  base_P := 50; base_K := 70; base_moisture := 32 |});
    ("Zone_6", {| p_soil_type := "Clay Loam"; base_pH := 7.0; base_N := 55;
                  base_P := 30; base_K := 45; base_moisture := 42 |});
    ("Zone_7", {| p_soil_type := "Sandy Loam"; base_pH := 6.0; base_N := 50;
                  base_P := 25; base_K := 40; base_moisture := 22 |});
    ("Zone_8", {| p_soil_type := "Peaty"; base_pH := 5.5; base_N := 100;
                  base_P := 55; base_K := 75; base_moisture := 55 |}) ].

(** [d[key]] on a dict literal: [KeyError] on a missing key. *)
Fixpoint getitem {A} (d : list (string * A)) (key : string) : result A :=
  match d with
  | [] => Raise "KeyError"
  | (k, v) :: d' => if String.eqb k key then Ok v else getitem d' key
  end.

Definition SOIL_COLUMNS : list string :=
  [ "timestamp"; "zone_id"; "soil_type"; "nitrogen_mg_kg"; "phosphorus_mg_kg";
    "potassium_mg_kg"; "ph"; "organic_matter_pct"; "moisture_pct";
    "soil_temperature_c"; "ec_mscm" ].

Record factors := {
  f_ph : Q; f_tds : Q; f_turb : Q; f_do : Q;
  f_hard : Q; f_cl : Q; f_so4 : Q; f_no3 : Q
}.

Definition source_factors : list (string * factors) :=
  [ ("Borewell", {| f_ph := 7.5; f_tds := 600; f_turb := 2; f_do := 5;
                    f_hard := 250; f_cl := 100; f_so4 := 80; f_no3 := 15 |});
    ("River", {| f_ph := 7.0; f_tds := 350; f_turb := 15; f_do := 7;
                 f_hard := 150; f_cl := 50; f_so4 := 40; f_no3 := 25 |});
    ("Canal", {| f_ph := 7.2; f_tds := 450; f_turb := 20; f_do := 6;
                 f_hard := 180; f_cl := 70; f_so4 := 55; f_no3 := 30 |});
    ("Rainwater", {| f_ph := 6.5; f_tds := 50; f_turb := 3; f_do := 8;
                     f_hard := 30; f_cl := 10; f_so4 := 10; f_no3 := 5 |}) ].

Definition WATER_COLUMNS : list string :=
  [ "timestamp"; "source_type"; "ph"; "tds_ppm"; "turbidity_ntu";
    "dissolved_oxygen_mg_l"; "hardness_mg_l"; "chloride_mg_l"; "sulfate_mg_l";
    "nitrate_mg_l"; "water_temperature_c"; "quality_grade" ].

Definition WEATHER_COLUMNS : list string :=
  [ "timestamp"; "temperature_c"; "humidity_pct"; "rainfall_mm";
    "wind_speed_kmh"; "solar_radiation_wm2"; "pressure_hpa"; "uv_index" ].

Section Simulators.

Context {G : Type} `{Numpy G}.

(** One iteration of the loop of [generate_soil_data]: the draws are
    made in the order of the entries of the dict literal. *)
Definition generate_soil_record (ts_zone : Z * string) : M G (gmap string cell) :=
  let '(ts, zone) := ts_zone in
  profile ← lift (getitem ZONE_PROFILES zone);
  let day_of_year := tm_yday ts in
  let seasonal :=
    0.5 + 0.5 * np_sin (2 * np_pi * (inject_Z day_of_year - 80) / 365) in
  let moisture_seasonal :=
    0.3 + 0.7 * np_sin (2 * np_pi * (inject_Z day_of_year - 150) / 365) in
  let moisture_seasonal := Py.max 0.1 moisture_seasonal in
  e_n ← call (np_normal 0 12);
  e_p ← call (np_normal 0 8);
  e_k ← call (np_normal 0 10);
  e_ph ← call (np_normal 0 0.3);
  e_om ← call (np_normal 3.5 1.2);
  e_m ← call (np_normal 0 5);
  e_t ← call (np_normal 0 3);
  e_ec ← call (np_normal 1.5 0.6);
  mret (
    <["timestamp" := Str (strftime ts)]> (
    <["zone_id" := Str zone]> (
    <["soil_type" := Str (p_soil_type profile)]> (
    <["nitrogen_mg_kg" :=
        Num (Py.max 5 (base_N profile * (0.7 + 0.6 * seasonal) + e_n))]> (
    <["phosphorus_mg_kg" :=
        Num (Py.max 2 (base_P profile * (0.8 + 0.4 * seasonal) + e_p))]> (
    <["potassium_mg_kg" :=
        Num (Py.max 5 (base_K profile * (0.75 + 0.5 * seasonal) + e_k))]> (
    <["ph" := Num (Py.clip (base_pH profile + e_ph) 4.0 9.0)]> (
    <["organic_matter_pct" :=
        Num (Py.clip (e_om + (if String.eqb (p_soil_type profile) "Peaty"
                              then 1 else 0)) 0.5 12.0)]> (
    <["moisture_pct" :=
        Num (Py.clip (base_moisture profile * moisture_seasonal + e_m) 2 80)]> (
    <["soil_temperature_c" := Num (Py.clip (15 + 15 * seasonal + e_t) 5 45)]> (
    <["ec_mscm" := Num (Py.clip e_ec 0.1 5.0)]> ∅))))))))))).

(** The loop that injects missing values: one mask per column. *)
Definition inject_missing (n_records : nat) (rate : Q)
    (df : DataFrame) (col : string) : M G DataFrame :=
  u ← call (np_random n_records);
  let mask := map (fun x => Py.lt x rate) u in
  lift (loc_set_nan mask col df).

Definition generate_soil_data (n_records : nat) : M G DataFrame :=
  timestamps ← repeatM n_records (call (np_randint 0 (365 * 2 * 24)));
  let timestamps := sort timestamps in
  zones ← call (np_choice (map fst ZONE_PROFILES) None n_records);
  records ← mapM generate_soil_record (zip timestamps zones);
  let df := pd_DataFrame SOIL_COLUMNS records in
  foldM (inject_missing n_records 0.03)
        ["nitrogen_mg_kg"; "phosphorus_mg_kg"; "ec_mscm"] df.

(** *** Water *)

Definition generate_water_record (ts_source : Z * string) : M G (gmap string cell) :=
  let '(ts, source) := ts_source in
  let day_of_year := tm_yday ts in
  let seasonal :=
    0.5 + 0.5 * np_sin (2 * np_pi * (inject_Z day_of_year - 80) / 365) in
  f ← lift (getitem source_factors source);
  e ← call (np_normal 0 0.4);
  let ph := Py.clip (f_ph f + e) 4.5 9.5 in
  e ← call (np_normal 0 (f_tds f * 0.2));
  let tds := Py.max 10 (f_tds f + e) in
  e ← call (np_normal 0 (f_turb f * 0.3));
  let turbidity := Py.max 0.1 (f_turb f * (1 + 0.5 * seasonal) + e) in
  e ← call (np_normal 0 1.2);
  let dissolved_o2 := Py.clip (f_do f + e) 1 14 in
  e ← call (np_normal 0 (f_hard f * 0.15));
  let hardness := Py.max 10 (f_hard f + e) in
  e ← call (np_normal 0 (f_cl f * 0.2));
  let chloride := Py.max 1 (f_cl f + e) in
  e ← call (np_normal 0 (f_so4 f * 0.2));
  let sulfate := Py.max 1 (f_so4 f + e) in
  e ← call (np_normal 0 (f_no3 f * 0.25));
  let nitrate := Py.max 0.5 (f_no3 f * (1 + 0.3 * seasonal) + e) in
  e ← call (np_normal 0 3);
  let temp := Py.clip (20 + 10 * seasonal + e) 8 38 in
  let score := water_quality_score ph tds turbidity dissolved_o2 nitrate in
  let grade := water_quality_grade score in
  mret (
    <["timestamp" := Str (strftime ts)]> (
    <["source_type" := Str source]> (
    <["ph" := Num (Py.round ph 2)]> (
    <["tds_ppm" := Num (Py.round tds 1)]> (
    <["turbidity_ntu" := Num (Py.round turbidity 2)]> (
    <["dissolved_oxygen_mg_l" := Num (Py.round dissolved_o2 2)]> (
    <["hardness_mg_l" := Num (Py.round hardness 1)]> (
    <["chloride_mg_l" := Num (Py.round chloride 1)]> (
    <["sulfate_mg_l" := Num (Py.round sulfate 1)]> (
    <["nitrate_mg_l" := Num (Py.round nitrate 2)]> (
    <["water_temperature_c" := Num (Py.round temp 1)]> (
    <["quality_grade" := Str grade]> ∅)))))))))))).

Definition generate_water_data (n_records : nat) : M G DataFrame :=
  timestamps ← repeatM n_records (call (np_randint 0 (365 * 2 * 24)));
  let timestamps := sort timestamps in
  sources ← call (np_choice ["Borewell"; "River"; "Canal"; "Rainwater"]
                            (Some [0.35; 0.25; 0.25; 0.15]) n_records);
  records ← mapM generate_water_record (zip timestamps sources);
  let df := pd_DataFrame WATER_COLUMNS records in
  foldM (inject_missing n_records 0.02)
        ["turbidity_ntu"; "dissolved_oxygen_mg_l"] df.

(** *** Weather *)

Definition generate_weather_record (ts : Z) : M G (gmap string cell) :=
  let day_of_year := tm_yday ts in
  let hour := (ts mod 24)%Z in
  let seasonal :=
    0.5 + 0.5 * np_sin (2 * np_pi * (inject_Z day_of_year - 80) / 365) in
  let diurnal :=
    0.5 + 0.5 * np_sin (2 * np_pi * (inject_Z hour - 6) / 24) in
  e ← call (np_normal 0 2);
  let temp := 15 + 20 * seasonal + 5 * diurnal + e in
  e ← call (np_normal 0 8);
  let humidity :=
    Py.clip (60 + 25 * (1 - seasonal) * (1 - 0.3 * diurnal) + e) 15 100 in
  let monsoon_factor :=
    np_exp (-0.5 * ((inject_Z day_of_year - 210) / 40) ^ 2) in
  x ← call (np_exponential (5 * monsoon_factor + 0.5));
  let rainfall := Py.max 0 x in
  u ← call np_random1;
  let rainfall := if Py.gt u (0.3 + 0.4 * monsoon_factor) then 0 else rainfall in
  w ← call (np_weibull 2);
  let wind_speed := Py.max 0 (w * 8 + 3) in
  u ← call (np_uniform 0.5 1.2);
  let solar_radiation :=
    Py.max 0 (300 * diurnal * (0.7 + 0.3 * seasonal) * u) in
  pressure ← call (np_normal 1013 5);
  e ← call (np_normal 0 1);
  let uv_index := Z.max 0 (Py.rint (8 * diurnal * seasonal + e)) in
  mret (
    <["timestamp" := Str (strftime ts)]> (
    <["temperature_c" := Num (Py.round temp 1)]> (
    <["humidity_pct" := Num (Py.round humidity 1)]> (
    <["rainfall_mm" := Num (Py.round rainfall 1)]> (
    <["wind_speed_kmh" := Num (Py.round wind_speed 1)]> (
    <["solar_radiation_wm2" := Num (Py.round solar_radiation 1)]> (
    <["pressure_hpa" := Num (Py.round pressure 1)]> (
    <["uv_index" := Num (inject_Z (Z.min (Z.max uv_index 0) 12))]> ∅)))))))).

Definition generate_weather_data (n_records : nat) : M G DataFrame :=
  let timestamps :=
    map (fun i => (Z.of_nat i * (365 * 2 * 24 / Z.of_nat n_records))%Z)
        (seq 0 n_records) in
  records ← mapM generate_weather_record timestamps;
  mret (pd_DataFrame WEATHER_COLUMNS records).

End Simulators.

(** What the claims say of a cell: a number within bounds, or the
    missing-value marker. *)
Definition cell_within (r : gmap string cell) (key : string) (lo hi : Q) : Prop :=
  exists q, r !! key = Some (Num q) /\ lo <= q <= hi.

Definition cell_missing (r : gmap string cell) (key : string) : Prop :=
  r !! key = Some NaN.

Definition soil_row_bounded (r : gmap string cell) : Prop :=
  cell_within r "ph" 4.0 9.0 /\
  cell_within r "organic_matter_pct" 0.5 12.0 /\
  cell_within r "moisture_pct" 2 80 /\
  cell_within r "soil_temperature_c" 5 45 /\
  (cell_missing r "ec_mscm" \/ cell_within r "ec_mscm" 0.1 5.0).

Definition water_row_bounded (r : gmap string cell) : Prop :=
  cell_within r "ph" 4.5 9.5 /\
  cell_within r "water_temperature_c" 8 38 /\
  (cell_missing r "dissolved_oxygen_mg_l"
   \/ cell_within r "dissolved_oxygen_mg_l" 1 14).

(** ** Sample inputs *)

Definition reading_n30 : gmap string Q :=
  {[ "nitrogen_mg_kg" := 30; "phosphorus_mg_kg" := 45;
     "potassium_mg_kg" := 60; "ph" := 6.8 ]}.

Definition reading_n50 : gmap string Q :=
  {[ "nitrogen_mg_kg" := 50; "phosphorus_mg_kg" := 45;
     "potassium_mg_kg" := 60; "ph" := 6.8 ]}.

Definition reading_no_nutrients : gmap string Q :=
  {[ "ph" := 6.8; "moisture_pct" := 30 ]}.

Definition reading_no_ph : gmap string Q :=
  {[ "nitrogen_mg_kg" := 80; "phosphorus_mg_kg" := 45; "potassium_mg_kg" := 60 ]}.

(** A water reading whose TDS is over the limit, and the text of the
    two numbers that its issue message shows. *)
Definition reading_salty : gmap string Q :=
  {[ "ph" := 7.2; "tds_ppm" := 2500; "chloride_mg_l" := 120;
     "sulfate_mg_l" := 90; "hardness_mg_l" := 300 ]}.

Definition format_sample (q : Q) : string :=
  if Qeq_bool q 2500 then "2500.0"
  else if Qeq_bool q 2000 then "2000"
  else "?".

(** A soil row whose nitrogen is one unit off the ideal. *)
Definition row_n81 : gmap string Q :=
  {[ "nitrogen_mg_kg" := 81; "phosphorus_mg_kg" := 45; "potassium_mg_kg" := 60;
     "ph" := 6.5; "organic_matter_pct" := 4; "moisture_pct" := 30;
     "ec_mscm" := 1.5 ]}.

(** A generator without noise: every normal draw is its mean, every
    integer draw its lower bound, every choice the first element, and
    every uniform draw is [u].  The seasonal curve is flattened
    ([np_sin] is 0); the clamped fields [ph], [organic_matter_pct],
    [ec_mscm] and [dissolved_oxygen_mg_l] do not read it. *)
#[local] Program Instance flat_numpy (u : Q) : Numpy unit := {|
  np_pi := 355 # 113;
  np_sin := fun _ => 0;
  strftime := fun _ => "2024-01-01 00:00:00";
  np_randint := fun lo _ g => (lo, g);
  np_choice := fun a _ size g =>
    (match a with [] => [] | x :: _ => repeat x size end, g);
  np_normal := fun loc _ g => (loc, g);
  np_random := fun size g => (repeat u size, g);
  np_random1 := fun g => (u, g);
  np_exp := fun _ => 1;
  np_exponential := fun scale g => (scale, g);
  np_weibull := fun _ g => (1, g);
  np_uniform := fun lo _ g => (lo, g)
|}.
Next Obligation.
  intros u a p size g Ha. destruct a as [| x a]; [congruence |].
  cbn. apply repeat_length.
Qed.
Next Obligation.
  intros u a p size g x Hx. destruct a as [| y a]; [destruct Hx |].
  cbn in Hx. apply repeat_spec in Hx. subst x. now left.
Qed.
Next Obligation.
  intros u size g. cbn. apply repeat_length.
Qed.

(** ** [models/utils/preprocessing.py]: season and heat index *)

Definition get_season (month : Z) : string :=
  if existsb (Z.eqb month) [6; 7; 8; 9]%Z then "Kharif"
  else if existsb (Z.eqb month) [10; 11; 12; 1; 2]%Z then "Rabi"
  else "Zaid".

Definition compute_heat_index (temp_c humidity_pct : Q) : Q :=
  let hi := 0.5 * (temp_c + 61.0 + ((temp_c - 68.0) * 1.2) + (humidity_pct * 0.094)) in
  Py.round hi 1.

(** ** [models/soil_health/nutrient_deficiency.py]: training labels

    [create_deficiency_labels] adds seven columns to the cleaned soil
    frame, row by row.  The numeric columns of the cleaned frame hold
    numbers (missing values were imputed). *)

(** [pd.cut(x, bins, labels)] for one value: the label of the interval
    [(bins[i], bins[i+1]]] that holds [x], NaN ([None]) outside of all. *)
Fixpoint pd_cut (x : Q) (bins : list Q) (labels : list string) : option string :=
  match bins, labels with
  | lo :: ((hi :: _) as rest), lab :: labs =>
      if Py.lt lo x && Py.le x hi then Some lab else pd_cut x rest labs
  | _, _ => None
  end.

Module Labels.

Record soil_values := {
  nitrogen_mg_kg : Q;
  phosphorus_mg_kg : Q;
  potassium_mg_kg : Q;
  ph : Q
}.

Record labelled := {
  soil : soil_values;
  N_deficient : Z;
  P_deficient : Z;
  K_deficient : Z;
  pH_imbalanced : Z;
  N_severity : option string;
  P_severity : option string;
  K_severity : option string
}.

(** [.astype(int)] of a boolean. *)
Definition astype_int (b : bool) : Z := if b then 1%Z else 0%Z.

Definition severity_labels : list string :=
  ["Critical"; "Low"; "Moderate"; "Adequate"].

Definition label_row (row : soil_values) : labelled :=
  let t_n := DEFICIENCY_THRESHOLDS.nitrogen in
  let t_p := DEFICIENCY_THRESHOLDS.phosphorus in
  let t_k := DEFICIENCY_THRESHOLDS.potassium in
  {| soil := row;
     N_deficient := astype_int (Py.lt (nitrogen_mg_kg row) (moderate t_n));
     P_deficient := astype_int (Py.lt (phosphorus_mg_kg row) (moderate t_p));
     K_deficient := astype_int (Py.lt (potassium_mg_kg row) (moderate t_k));
     pH_imbalanced :=
       astype_int (Py.lt (ph row) DEFICIENCY_THRESHOLDS.ph_low
                   || Py.gt (ph row) DEFICIENCY_THRESHOLDS.ph_high);
     N_severity :=
       pd_cut (nitrogen_mg_kg row)
         [0; low t_n; moderate t_n; adequate t_n; 999] severity_labels;
     P_severity :=
       pd_cut (phosphorus_mg_kg row)
         [0; low t_p; moderate t_p; adequate t_p; 999] severity_labels;
     K_severity :=
       pd_cut (potassium_mg_kg row)
         [0; low t_k; moderate t_k; adequate t_k; 999] severity_labels |}.

Definition create_deficiency_labels (df : list soil_values) : list labelled :=
  map label_row df.

(** The same four values as a sensor reading for [diagnose]. *)
Definition as_reading (row : soil_values) : gmap string Q :=
  {[ "nitrogen_mg_kg" := nitrogen_mg_kg row;
     "phosphorus_mg_kg" := phosphorus_mg_kg row;
     "potassium_mg_kg" := potassium_mg_kg row;
     "ph" := ph row ]}.

End Labels.

(** ** [models/soil_health/soil_analyzer.py]: prediction for one reading

    The saved scaler and ensemble are a parameter: [saved_model] maps the
    feature vector of one reading to the predicted score. *)

Module SoilAnalyzer.

Definition FEATURE_COLS : list string :=
  [ "nitrogen_mg_kg"; "phosphorus_mg_kg"; "potassium_mg_kg";
    "ph"; "organic_matter_pct"; "moisture_pct";
    "soil_temperature_c"; "ec_mscm"; "npk_ratio"; "nutrient_total" ].

Record prediction := {
  score : Q;
  category : string;
  recommendations : list string
}.

Definition low_nitrogen : string :=
  "⚠️ Low Nitrogen: Apply nitrogen-rich fertilizer (Urea) at 50-80 kg/ha".
Definition low_phosphorus : string :=
  "⚠️ Low Phosphorus: Apply DAP or SSP at 40-60 kg/ha".
Definition low_potassium : string :=
  "⚠️ Low Potassium: Apply MOP (Muriate of Potash) at 30-50 kg/ha".
Definition acidic_soil : string :=
  "⚠️ Acidic Soil: Apply agricultural lime at 2-4 tons/ha".
Definition alkaline_soil : string :=
  "⚠️ Alkaline Soil: Apply gypsum at 2-3 tons/ha".
Definition low_organic_matter : string :=
  "⚠️ Low Organic Matter: Add compost/FYM at 10-15 tons/ha".
Definition all_good : string :=
  "✅ Soil health is good. Maintain current practices.".

Definition predict (saved_model : list Q -> Q) (sensor_reading : gmap string Q) : prediction :=
  let X := map (fun f => get sensor_reading f 0) FEATURE_COLS in
  let score := saved_model X in
  let category := categorize_health_score score in
  let recommendations : list string := [] in
  let recommendations :=
    if Py.lt (get sensor_reading "nitrogen_mg_kg" 0) 40
    then (recommendations ++ [low_nitrogen])%list else recommendations in
  let recommendations :=
    if Py.lt (get sensor_reading "phosphorus_mg_kg" 0) 20
    then (recommendations ++ [low_phosphorus])%list else recommendations in
  let recommendations :=
    if Py.lt (get sensor_reading "potassium_mg_kg" 0) 30
    then (recommendations ++ [low_potassium])%list else recommendations in
  let recommendations :=
    if Py.lt (get sensor_reading "ph" 7) 5.5
    then (recommendations ++ [acidic_soil])%list
    else if Py.gt (get sensor_reading "ph" 7) 8.0
    then (recommendations ++ [alkaline_soil])%list
    else recommendations in
  let recommendations :=
    if Py.lt (get sensor_reading "organic_matter_pct" 3) 2.0
    then (recommendations ++ [low_organic_matter])%list else recommendations in
  let recommendations :=
    match recommendations with
    | [] => [all_good]
    | _ :: _ => recommendations
    end in
  {| score := Py.round score 1;
     category := category;
     recommendations := recommendations |}.

End SoilAnalyzer.

(** ** [data/generate_synthetic_data.py]: the crop reference table *)

Record crop_row := {
  crop_name : string;
  nitrogen_min_mg_kg : Q;
  nitrogen_max_mg_kg : Q;
  phosphorus_min_mg_kg : Q;
  phosphorus_max_mg_kg : Q;
  potassium_min_mg_kg : Q;
  potassium_max_mg_kg : Q;
  ph_min : Q;
  ph_max : Q;
  water_requirement_mm : Q;
  temperature_min_c : Q;
  temperature_max_c : Q;
  growing_season : string;
  expected_yield_tons_per_ha : Q
}.

(** The tuples of [crops], each unpacked into a record in the order
    (name, N_min, N_max, P_min, P_max, K_min, K_max, pH_min, pH_max,
    water_need_mm, temp_min, temp_max, season, yield_tons_ha). *)
Definition generate_crop_database : list crop_row :=
  let mk := Build_crop_row in
  [
    mk "Rice" 80 120 40 60 40 80 5.5 7.0 1200 20 35 "Kharif" 4.5;
    mk "Wheat" 60 100 30 50 30 60 6.0 7.5 450 15 25 "Rabi" 3.5;
    mk "Maize" 70 120 35 55 35 70 5.5 7.5 600 18 35 "Kharif" 5.0;
    mk "Soybean" 20 40 40 60 40 60 6.0 7.0 500 20 30 "Kharif" 2.5;
    mk "Cotton" 60 100 30 50 30 50 6.0 8.0 700 20 35 "Kharif" 2.0;
    mk "Sugarcane" 80 150 40 70 60 100 6.0 8.0 1500 20 38 "Annual" 70.0;
    mk "Potato" 60 100 50 80 60 100 5.5 6.5 500 15 25 "Rabi" 25.0;
    mk "Tomato" 80 120 50 80 60 100 6.0 7.0 600 18 30 "Year-round" 30.0;
    mk "Onion" 50 80 40 60 40 60 6.0 7.5 400 15 30 "Rabi" 20.0;
    mk "Groundnut" 20 40 40 80 30 50 6.0 7.0 500 22 35 "Kharif" 2.0;
    mk "Mustard" 40 60 20 40 20 40 6.0 7.5 300 10 25 "Rabi" 1.8;
    mk "Chickpea" 20 30 40 60 30 50 6.0 8.0 350 10 30 "Rabi" 1.5;
    mk "Pigeon Pea" 20 40 40 60 20 40 5.5 7.5 600 20 35 "Kharif" 1.2;
    mk "Barley" 50 80 25 45 25 50 6.0 8.0 400 12 25 "Rabi" 3.0;
    mk "Millet" 40 60 20 35 20 40 5.5 7.5 350 25 40 "Kharif" 1.5;
    mk "Sorghum" 50 80 25 40 25 50 5.5 8.0 450 25 40 "Kharif" 2.5;
    mk "Lentil" 20 30 40 60 25 40 6.0 7.5 300 10 25 "Rabi" 1.2;
    mk "Sunflower" 60 90 30 50 30 60 6.0 7.5 500 18 30 "Kharif" 2.0;
    mk "Sesame" 30 50 20 40 20 40 5.5 8.0 400 25 35 "Kharif" 0.8;
    mk "Jute" 50 70 25 40 25 50 5.5 7.0 1000 25 38 "Kharif" 2.5;
    mk "Tea" 70 120 30 50 40 60 4.5 5.5 1500 15 30 "Annual" 2.0;
    mk "Coffee" 60 100 30 50 50 80 6.0 6.5 1200 15 28 "Annual" 1.5;
    mk "Coconut" 50 80 30 50 80 120 5.5 7.0 1500 20 35 "Annual" 8.0;
    mk "Banana" 80 120 40 60 100 150 6.0 7.5 1200 20 35 "Annual" 40.0;
    mk "Mango" 60 100 30 50 50 80 5.5 7.5 800 22 38 "Annual" 10.0;
    mk "Turmeric" 60 90 30 50 80 120 5.5 7.0 1200 20 35 "Kharif" 8.0;
    mk "Ginger" 70 100 40 60 60 90 5.5 6.5 1500 20 30 "Kharif" 5.0;
    mk "Chili" 60 100 40 60 40 60 6.0 7.0 600 20 35 "Kharif" 3.0;
    mk "Garlic" 50 80 40 60 40 60 6.0 7.5 400 12 25 "Rabi" 8.0;
    mk "Cabbage" 80 120 40 60 60 80 6.0 7.0 400 15 25 "Rabi" 30.0;
    mk "Carrot" 50 80 40 60 50 70 6.0 6.8 400 12 25 "Rabi" 25.0;
    mk "Spinach" 60 100 40 60 50 70 6.0 7.5 350 10 25 "Rabi" 15.0;
    mk "Peas" 20 30 40 60 30 50 6.0 7.5 400 10 25 "Rabi" 5.0;
    mk "Cauliflower" 80 120 50 70 50 80 6.0 7.0 450 15 25 "Rabi" 25.0;
    mk "Brinjal" 60 100 40 60 50 80 5.5 6.5 500 20 35 "Year-round" 20.0;
    mk "Okra" 50 80 30 50 30 50 6.0 7.0 500 22 38 "Kharif" 10.0;
    mk "Cucumber" 50 80 40 60 50 80 5.5 7.0 500 18 35 "Kharif" 15.0;
    mk "Watermelon" 60 80 40 60 50 80 6.0 7.0 500 22 35 "Kharif" 20.0;
    mk "Papaya" 80 120 40 60 80 120 6.0 7.0 1200 22 35 "Annual" 30.0;
    mk "Guava" 50 80 30 50 40 60 5.5 7.5 800 20 35 "Annual" 15.0
  ].

(** A well-formed crop of the reference table. *)
Definition crop_well_formed (c : crop_row) : Prop :=
  nitrogen_min_mg_kg c <= nitrogen_max_mg_kg c /\
  phosphorus_min_mg_kg c <= phosphorus_max_mg_kg c /\
  potassium_min_mg_kg c <= potassium_max_mg_kg c /\
  ph_min c <= ph_max c /\
  temperature_min_c c <= temperature_max_c c /\
  0 < water_requirement_mm c /\
  0 < expected_yield_tons_per_ha c /\
  In (growing_season c) ["Kharif"; "Rabi"; "Annual"; "Year-round"].

(** ** [models/crop_intelligence/crop_recommender.py]: the training
    labels of the crop recommender *)

Module CropRecommender.

(** A row of the cleaned soil frame; [season] is absent when the frame
    has no such column. *)
Record soil_row := {
  nitrogen_mg_kg : Q;
  phosphorus_mg_kg : Q;
  potassium_mg_kg : Q;
  ph : Q;
  organic_matter_pct : Q;
  moisture_pct : Q;
  soil_temperature_c : Q;
  ec_mscm : Q;
  season : option string
}.

Record labelled := {
  features : soil_row;
  season_encoded : Z;
  recommended_crop : string
}.

(** The suitability score of one crop for one soil row: the body of the
    inner loop. *)
Definition crop_score (n p k ph temp : Q) (season : string) (crop_row : crop_row) : Z :=
  let score := 0%Z in
  let score :=
    if Py.le (nitrogen_min_mg_kg crop_row) n && Py.le n (nitrogen_max_mg_kg crop_row)
    then (score + 25)%Z
    else if Py.lt (Qabs (n - (nitrogen_min_mg_kg crop_row
                              + nitrogen_max_mg_kg crop_row) / 2)) 30
    then (score + 10)%Z
    else score in
  let score :=
    if Py.le (phosphorus_min_mg_kg crop_row) p && Py.le p (phosphorus_max_mg_kg crop_row)
    then (score + 20)%Z
    else if Py.lt (Qabs (p - (phosphorus_min_mg_kg crop_row
                              + phosphorus_max_mg_kg crop_row) / 2)) 20
    then (score + 8)%Z
    else score in
  let score :=
    if Py.le (potassium_min_mg_kg crop_row) k && Py.le k (potassium_max_mg_kg crop_row)
    then (score + 20)%Z
    else if Py.lt (Qabs (k - (potassium_min_mg_kg crop_row
                              + potassium_max_mg_kg crop_row) / 2)) 25
    then (score + 8)%Z
    else score in
  let score :=
    if Py.le (ph_min crop_row) ph && Py.le ph (ph_max crop_row)
    then (score + 20)%Z
    else if Py.lt (Qabs (ph - (ph_min crop_row + ph_max crop_row) / 2)) 1
    then (score + 8)%Z
    else score in
  let score :=
    if Py.le (temperature_min_c crop_row) temp
       && Py.le temp (temperature_max_c crop_row)
    then (score + 15)%Z
    else score in
  let crop_season := growing_season crop_row in
  let score :=
    if String.eqb crop_season "Annual" || String.eqb crop_season "Year-round"
       || String.eqb crop_season season
    then (score + 10)%Z
    else score in
  score.

(** [best_crops.sort(key=lambda x: -x[1])]: a stable sort by decreasing
    score.  Folding from the right, an element is put in front of the
    elements of equal key, which came after it. *)
Fixpoint insert_by_score (x : string * Z) (l : list (string * Z)) : list (string * Z) :=
  match l with
  | [] => [x]
  | y :: l' =>
      if (- x.2 <=? - y.2)%Z then x :: l else y :: insert_by_score x l'
  end.

Definition sort_by_score (l : list (string * Z)) : list (string * Z) :=
  fold_right insert_by_score [] l.

(** [{"Kharif": 0, "Rabi": 1, "Zaid": 2}.get(season, 0)] *)
Definition encode_season (season : string) : Z :=
  if String.eqb season "Kharif" then 0%Z
  else if String.eqb season "Rabi" then 1%Z
  else if String.eqb season "Zaid" then 2%Z
  else 0%Z.

(** One iteration of the outer loop; [best_crops[0]] raises [IndexError]
    on an empty crop table. *)
Definition label_row (crop_db : list crop_row) (soil_row : soil_row) : result labelled :=
  let n := nitrogen_mg_kg soil_row in
  let p := phosphorus_mg_kg soil_row in
  let k := potassium_mg_kg soil_row in
  let ph := ph soil_row in
  let temp := soil_temperature_c soil_row in
  let season := default "Kharif" (season soil_row) in
  let best_crops :=
    map (fun crop_row => (crop_name crop_row, crop_score n p k ph temp season crop_row))
        crop_db in
  let best_crops := sort_by_score best_crops in
  match best_crops with
  | [] => Raise "IndexError"
  | (best_crop, _) :: _ =>
      Ok {| features := soil_row;
            season_encoded := encode_season season;
            recommended_crop := best_crop |}
  end.

(** The loop over the soil rows: the first exception ends it. *)
Fixpoint label_rows
    (soil_df : list soil_row) (crop_db : list crop_row) : result (list labelled) :=
  match soil_df with
  | [] => Ok []
  | soil_row :: rest =>
      match label_row crop_db soil_row with
      | Raise exc => Raise exc
      | Ok record =>
          match label_rows rest crop_db with
          | Raise exc => Raise exc
          | Ok records => Ok (record :: records)
          end
      end
  end.

(** [soil_df] is the rows of the soil table after
    [load_and_clean_soil_data], which fills the missing numbers and
    keeps every row.  On a table without rows that function raises
    [ValueError] (its median imputer is fitted on an empty array), so
    the loop is not reached. *)
Definition create_crop_recommendation_dataset
    (soil_df : list soil_row) (crop_db : list crop_row) : result (list labelled) :=
  match soil_df with
  | [] => Raise "ValueError"
  | _ :: _ => label_rows soil_df crop_db
  end.

(** The score of a crop for a soil row. *)
Definition score_of (soil_row : soil_row) (crop_row : crop_row) : Z :=
  crop_score (nitrogen_mg_kg soil_row) (phosphorus_mg_kg soil_row)
    (potassium_mg_kg soil_row) (ph soil_row) (soil_temperature_c soil_row)
    (default "Kharif" (season soil_row)) crop_row.

(** A crop fits a soil row in every respect. *)
Definition fits (soil_row : soil_row) (crop_row : crop_row) : Prop :=
  (nitrogen_min_mg_kg crop_row <= nitrogen_mg_kg soil_row
   /\ nitrogen_mg_kg soil_row <= nitrogen_max_mg_kg crop_row) /\
  (phosphorus_min_mg_kg crop_row <= phosphorus_mg_kg soil_row
   /\ phosphorus_mg_kg soil_row <= phosphorus_max_mg_kg crop_row) /\
  (potassium_min_mg_kg crop_row <= potassium_mg_kg soil_row
   /\ potassium_mg_kg soil_row <= potassium_max_mg_kg crop_row) /\
  (ph_min crop_row <= ph soil_row /\ ph soil_row <= ph_max crop_row) /\
  (temperature_min_c crop_row <= soil_temperature_c soil_row
   /\ soil_temperature_c soil_row <= temperature_max_c crop_row) /\
  (growing_season crop_row = "Annual" \/ growing_season crop_row = "Year-round"
   \/ growing_season crop_row = default "Kharif" (season soil_row)).

End CropRecommender.

(** ** [models/crop_intelligence/yield_predictor.py]: simulated yield

    The column operations at the end of [create_yield_dataset], on one
    row of the joined frame; [noise] is the draw of
    [np.random.uniform(0.85, 1.15)] for the row.  The cells are
    numbers; a row whose water requirement is 0 (numpy divides to
    [inf] or [nan]) is outside this model, and the properties below
    exclude it. *)

Module YieldPredictor.

Record merged_row := {
  health_score : Q;
  temperature_c_weather : Q;
  rainfall_mm : Q;
  water_requirement_mm : Q;
  expected_yield_tons_per_ha : Q
}.

Record yield_row := {
  merged : merged_row;
  health_factor : Q;
  weather_factor : Q;
  actual_yield : Q
}.

Definition yield_columns (row : merged_row) (noise : Q) : yield_row :=
  let health_factor := health_score row / 70 in
  let temp_factor := 1 - Qabs (temperature_c_weather row - 25) / 50 in
  let rain_factor :=
    Py.clip (rainfall_mm row / water_requirement_mm row) 0.3 1.5 in
  let weather_factor := Py.clip (temp_factor * 0.6 + rain_factor * 0.4) 0.3 1.3 in
  let actual_yield :=
    expected_yield_tons_per_ha row * health_factor * weather_factor * noise in
  (* np.clip(x, 0.1, None) is maximum(x, 0.1) *)
  let actual_yield := Py.round (Qmax actual_yield 0.1) 2 in
  {| merged := row;
     health_factor := health_factor;
     weather_factor := weather_factor;
     actual_yield := actual_yield |}.

End YieldPredictor.

(** ** [models/water_management/irrigation_optimizer.py]: zone schedule

    The body of the loop over zones in [generate_dashboard_data]:
    [zone_df] is the rows of one zone sorted by timestamp, with the
    prediction of the model for each row. *)

Module IrrigationDashboard.

Record zone_row := {
  crop : string;
  soil_type : string;
  moisture_pct : Q;
  predicted_need_mm : Q
}.

Record schedule := {
  s_crop : string;
  s_soil_type : string;
  avg_moisture : Q;
  avg_need_mm : Q;
  max_need_mm : Q;
  needs_irrigation : bool;
  priority : string;
  recommended_frequency : string
}.

(** [df.tail(n)]: the last [n] rows. *)
Definition tail {A} (n : nat) (l : list A) : list A :=
  skipn (length l - n) l.

(** [Series.mean()] and [Series.max()] of a non-empty column.  The mean
    is exact here; pandas adds floats, so its mean can differ from this
    one in the last bits, and the properties below do not compare the
    mean with the rows. *)
Definition mean (l : list Q) : Q :=
  fold_right Qplus 0 l / inject_Z (Z.of_nat (length l)).

Definition col_max (l : list Q) : Q :=
  match l with
  | [] => 0
  | x :: l' => fold_right Qmax x l'
  end.

(** [zone_df["crop"].iloc[0]] raises [IndexError] on an empty frame. *)
Definition zone_entry (zone_df : list zone_row) : result schedule :=
  let recent := tail 30 zone_df in
  let need := mean (map predicted_need_mm recent) in
  let needs_irrigation := Py.gt need 5 in
  match zone_df with
  | [] => Raise "IndexError"
  | first :: _ =>
      Ok {| s_crop := crop first;
            s_soil_type := soil_type first;
            avg_moisture := Py.round (mean (map moisture_pct recent)) 1;
            avg_need_mm := Py.round need 1;
            max_need_mm := Py.round (col_max (map predicted_need_mm recent)) 1;
            needs_irrigation := needs_irrigation;
            priority :=
              if Py.gt need 15 then "High"
              else if needs_irrigation then "Medium" else "Low";
            recommended_frequency :=
              if Py.gt need 15 then "Daily"
              else if needs_irrigation then "Every 2 days"
              else "Every 3-4 days" |}
  end.

End IrrigationDashboard.

(** The warnings of [SoilAnalyzer.predict] that a reading calls for,
    in the order of the source. *)
Definition predict_warnings (r : gmap string Q) : list string :=
  ((if decide (get r "nitrogen_mg_kg" 0 < 40) then [SoilAnalyzer.low_nitrogen] else []) ++
   (if decide (get r "phosphorus_mg_kg" 0 < 20) then [SoilAnalyzer.low_phosphorus] else []) ++
   (if decide (get r "potassium_mg_kg" 0 < 30) then [SoilAnalyzer.low_potassium] else []) ++
   (if decide (get r "ph" 7 < 5.5) then [SoilAnalyzer.acidic_soil]
    else if decide (8.0 < get r "ph" 7) then [SoilAnalyzer.alkaline_soil] else []) ++
   (if decide (get r "organic_matter_pct" 3 < 2.0)
    then [SoilAnalyzer.low_organic_matter] else []))%list.

(** ** Rows of the generated tables

    What a generated row carries besides the clamped fields: where it
    comes from, and the floors that [max] puts under the unclamped
    fields. *)

(** A cell that holds a number not below [lo]. *)
Definition cell_at_least (r : gmap string cell) (key : string) (lo : Q) : Prop :=
  exists q, r !! key = Some (Num q) /\ lo <= q.

(** The soil row of the instant [hz.1] (hours after the start date) in
    the zone [hz.2]. *)
Definition soil_row_from {G : Type} `{Numpy G}
    (hz : Z * string) (r : gmap string cell) : Prop :=
  r !! "timestamp" = Some (Str (strftime hz.1)) /\
  r !! "zone_id" = Some (Str hz.2) /\
  exists p, In (hz.2, p) ZONE_PROFILES /\
            r !! "soil_type" = Some (Str (p_soil_type p)).

Definition soil_row_floors (r : gmap string cell) : Prop :=
  (cell_missing r "nitrogen_mg_kg" \/ cell_at_least r "nitrogen_mg_kg" 5) /\
  (cell_missing r "phosphorus_mg_kg" \/ cell_at_least r "phosphorus_mg_kg" 2) /\
  cell_at_least r "potassium_mg_kg" 5.

(** The water row of the instant [hs.1] drawn from the source [hs.2]. *)
Definition water_row_from {G : Type} `{Numpy G}
    (hs : Z * string) (r : gmap string cell) : Prop :=
  r !! "timestamp" = Some (Str (strftime hs.1)) /\
  r !! "source_type" = Some (Str hs.2) /\
  In hs.2 ["Borewell"; "River"; "Canal"; "Rainwater"] /\
  exists grade, In grade ["A"; "B"; "C"; "D"; "F"] /\
                r !! "quality_grade" = Some (Str grade).

Definition water_row_floors (r : gmap string cell) : Prop :=
  cell_at_least r "tds_ppm" 10 /\
  (cell_missing r "turbidity_ntu" \/ cell_at_least r "turbidity_ntu" 0.1) /\
  cell_at_least r "hardness_mg_l" 10 /\
  cell_at_least r "chloride_mg_l" 1 /\
  cell_at_least r "sulfate_mg_l" 1 /\
  cell_at_least r "nitrate_mg_l" 0.5.

(** The grade of a water row is the rubric on five measurements whose
    roundings are the cells of the row, where these are not blanked. *)
Definition water_row_graded (r : gmap string cell) : Prop :=
  exists ph tds turbidity dissolved_o2 nitrate,
    r !! "quality_grade"
    = Some (Str (water_quality_grade
                   (water_quality_score ph tds turbidity dissolved_o2 nitrate))) /\
    r !! "ph" = Some (Num (Py.round ph 2)) /\
    r !! "tds_ppm" = Some (Num (Py.round tds 1)) /\
    r !! "nitrate_mg_l" = Some (Num (Py.round nitrate 2)) /\
    (cell_missing r "turbidity_ntu"
     \/ r !! "turbidity_ntu" = Some (Num (Py.round turbidity 2))) /\
    (cell_missing r "dissolved_oxygen_mg_l"
     \/ r !! "dissolved_oxygen_mg_l" = Some (Num (Py.round dissolved_o2 2))).

Definition weather_row_bounded (r : gmap string cell) : Prop :=
  cell_within r "humidity_pct" 15 100 /\
  cell_at_least r "rainfall_mm" 0 /\
  cell_at_least r "wind_speed_kmh" 0 /\
  cell_at_least r "solar_radiation_wm2" 0 /\
  exists k : Z, r !! "uv_index" = Some (Num (inject_Z k)) /\ (0 <= k <= 12)%Z.

(** All that is shown of a soil row and of a water row. *)
Definition soil_row_facts {G : Type} `{Numpy G}
    (hz : Z * string) (r : gmap string cell) : Prop :=
  soil_row_from hz r /\ soil_row_floors r.

Definition water_row_facts {G : Type} `{Numpy G}
    (hs : Z * string) (r : gmap string cell) : Prop :=
  water_row_from hs r /\ water_row_floors r /\ water_row_graded r.

(** The hours of the two years that the simulators cover. *)
Definition within_two_years (h : Z) : Prop := (0 <= h < 365 * 2 * 24)%Z.

(** ** More sample inputs *)

(** Cleaned soil rows with the nitrogen inside a tier and on a threshold. *)
Definition row_n50 : Labels.soil_values :=
  {| Labels.nitrogen_mg_kg := 50; Labels.phosphorus_mg_kg := 30;
     Labels.potassium_mg_kg := 45; Labels.ph := 6.8 |}.

Definition row_n40 : Labels.soil_values :=
  {| Labels.nitrogen_mg_kg := 40; Labels.phosphorus_mg_kg := 30;
     Labels.potassium_mg_kg := 45; Labels.ph := 6.8 |}.

(** A soil row of a paddy field in the monsoon season. *)
Definition soil_row_paddy : CropRecommender.soil_row :=
  {| CropRecommender.nitrogen_mg_kg := 100;
     CropRecommender.phosphorus_mg_kg := 50;
     CropRecommender.potassium_mg_kg := 60;
     CropRecommender.ph := 6.2;
     CropRecommender.organic_matter_pct := 3.5;
     CropRecommender.moisture_pct := 40;
     CropRecommender.soil_temperature_c := 28;
     CropRecommender.ec_mscm := 1.2;
     CropRecommender.season := Some "Kharif" |}.

(** A joined row of a rice zone in a wet month. *)
Definition row_rice_yield : YieldPredictor.merged_row :=
  {| YieldPredictor.health_score := 78.5;
     YieldPredictor.temperature_c_weather := 27;
     YieldPredictor.rainfall_mm := 900;
     YieldPredictor.water_requirement_mm := 1200;
     YieldPredictor.expected_yield_tons_per_ha := 4.5 |}.

(** Two predictions for a dry sandy zone. *)
Definition zone_dry : list IrrigationDashboard.zone_row :=
  [ {| IrrigationDashboard.crop := "Millet";
       IrrigationDashboard.soil_type := "Sandy";
       IrrigationDashboard.moisture_pct := 9.5;
       IrrigationDashboard.predicted_need_mm := 14.2 |};
    {| IrrigationDashboard.crop := "Millet";
       IrrigationDashboard.soil_type := "Sandy";
       IrrigationDashboard.moisture_pct := 8.1;
       IrrigationDashboard.predicted_need_mm := 18.6 |} ].

(** * Properties *)

(** ** Facts about the primitives *)

Lemma le_spec a b : Py.le a b = true <-> a <= b.
Proof. apply Qle_bool_iff. Qed.

Lemma lt_spec a b : Py.lt a b = true <-> a < b.
Proof.
  unfold Py.lt. rewrite negb_true_iff, <- not_true_iff_false, Qle_bool_iff.
  split; [apply Qnot_le_lt | apply Qlt_not_le].
Qed.

Lemma le_false a b : Py.le a b = false <-> b < a.
Proof.
  rewrite <- not_true_iff_false, le_spec.
  split; [apply Qnot_le_lt | apply Qlt_not_le].
Qed.

Lemma lt_false a b : Py.lt a b = false <-> b <= a.
Proof.
  rewrite <- not_true_iff_false, lt_spec.
  split; [apply Qnot_lt_le | apply Qle_not_lt].
Qed.

(** Case analysis on a comparison of the source, leaving the order fact
    in the context. *)
Ltac case_cmp :=
  match goal with
  | |- context [Py.le ?a ?b] =>
      let E := fresh "E" in
      destruct (Py.le a b) eqn:E;
      [apply le_spec in E | apply le_false in E]
  | |- context [Py.lt ?a ?b] =>
      let E := fresh "E" in
      destruct (Py.lt a b) eqn:E;
      [apply lt_spec in E | apply lt_false in E]
  end.

(** ** Category mapping *)

(** C3: [categorize_health_score] returns "Excellent" from 80 up, "Good"
    from 60 up, "Fair" from 40 up and "Poor" below 40; the boundaries are
    closed, and the scores 100 and 0 are "Excellent" and "Poor". *)
Theorem categorize_health_score_exact :
  (forall score : Q,
      categorize_health_score score =
        if decide (80 <= score) then "Excellent"
        else if decide (60 <= score) then "Good"
        else if decide (40 <= score) then "Fair"
        else "Poor") /\
  categorize_health_score 80 = "Excellent" /\
  categorize_health_score 60 = "Good" /\
  categorize_health_score 40 = "Fair" /\
  categorize_health_score 100 = "Excellent" /\
  categorize_health_score 0 = "Poor".
Proof.
  split; [| repeat split; reflexivity].
  intros score. unfold categorize_health_score, Py.ge.
  repeat (case_cmp; simpl); repeat case_decide; solve [reflexivity | lra].
Qed.

(** ** Water quality rubric *)




(** ** Deficiency diagnosis *)

(** One [if] block of [diagnose] for a nutrient appends at most one flag. *)
Lemma nutrient_block_deficiencies key name v t result :
  deficiencies
    (if Py.lt v (moderate t) then
       extend_recommendations (AMENDMENT_RECOMMENDATIONS key)
         (append_deficiency
            {| nutrient := name; value := v;
               d_severity := if Py.lt v (low t) then "Critical" else "Low" |}
            result)
     else result)
  = (deficiencies result
       ++ DiagnosisSpec.nutrient_flag name v (low t) (moderate t))%list.
Proof.
  unfold DiagnosisSpec.nutrient_flag.
  case_cmp; case_decide; try (exfalso; lra); cbn; [| now rewrite app_nil_r].
  case_cmp; case_decide; try (exfalso; lra); reflexivity.
Qed.

Lemma ph_block_deficiencies ph result :
  deficiencies
    (if Py.lt ph DEFICIENCY_THRESHOLDS.ph_low then
       extend_recommendations (AMENDMENT_RECOMMENDATIONS pH_low)
         (append_deficiency
            {| nutrient := "pH (Acidic)"; value := ph; d_severity := "Imbalanced" |}
            result)
     else if Py.gt ph DEFICIENCY_THRESHOLDS.ph_high then
       extend_recommendations (AMENDMENT_RECOMMENDATIONS pH_high)
         (append_deficiency
            {| nutrient := "pH (Alkaline)"; value := ph; d_severity := "Imbalanced" |}
            result)
     else result)
  = (deficiencies result ++ DiagnosisSpec.ph_flag ph)%list.
Proof.
  unfold DiagnosisSpec.ph_flag, Py.gt,
    DEFICIENCY_THRESHOLDS.ph_low, DEFICIENCY_THRESHOLDS.ph_high.
  repeat case_cmp; repeat case_decide; try (exfalso; lra); cbn;
    solve [reflexivity | now rewrite app_nil_r].
Qed.

(** The closing block only writes the overall severity. *)
Lemma closing_block_deficiencies result :
  deficiencies
    (match deficiencies result with
     | [] => result
     | _ :: _ =>
         if str_in "Critical" (map d_severity (deficiencies result))
         then set_severity "critical" result
         else set_severity "moderate" result
     end)
  = deficiencies result.
Proof.
  destruct (deficiencies result) eqn:E; [exact E |].
  destruct (str_in _ _); cbn; exact E.
Qed.

Lemma diagnose_deficiencies (r : gmap string Q) :
  deficiencies (diagnose r) =
    (DiagnosisSpec.nutrient_flag "Nitrogen" (get r "nitrogen_mg_kg" 0) 40 60 ++
     DiagnosisSpec.nutrient_flag "Phosphorus" (get r "phosphorus_mg_kg" 0) 15 25 ++
     DiagnosisSpec.nutrient_flag "Potassium" (get r "potassium_mg_kg" 0) 25 35 ++
     DiagnosisSpec.ph_flag (get r "ph" 7.0))%list.
Proof.
  unfold diagnose. cbv zeta.
  rewrite closing_block_deficiencies, ph_block_deficiencies.
  rewrite !nutrient_block_deficiencies. cbn [deficiencies app].
  now rewrite <- !app_assoc.
Qed.

Lemma nutrient_block_severity key name v t result :
  severity
    (if Py.lt v (moderate t) then
       extend_recommendations (AMENDMENT_RECOMMENDATIONS key)
         (append_deficiency
            {| nutrient := name; value := v;
               d_severity := if Py.lt v (low t) then "Critical" else "Low" |}
            result)
     else result)
  = severity result.
Proof. now destruct (Py.lt v (moderate t)). Qed.

Lemma ph_block_severity ph result :
  severity
    (if Py.lt ph DEFICIENCY_THRESHOLDS.ph_low then
       extend_recommendations (AMENDMENT_RECOMMENDATIONS pH_low)
         (append_deficiency
            {| nutrient := "pH (Acidic)"; value := ph; d_severity := "Imbalanced" |}
            result)
     else if Py.gt ph DEFICIENCY_THRESHOLDS.ph_high then
       extend_recommendations (AMENDMENT_RECOMMENDATIONS pH_high)
         (append_deficiency
            {| nutrient := "pH (Alkaline)"; value := ph; d_severity := "Imbalanced" |}
            result)
     else result)
  = severity result.
Proof.
  destruct (Py.lt ph _); [reflexivity |]. now destruct (Py.gt ph _).
Qed.

Lemma str_in_app s l1 l2 :
  str_in s (l1 ++ l2) = str_in s l1 || str_in s l2.
Proof. apply existsb_app. Qed.

Lemma nutrient_flag_critical name v lo md :
  lo <= md ->
  str_in "Critical" (map d_severity (DiagnosisSpec.nutrient_flag name v lo md))
  = bool_decide (v < lo).
Proof.
  intros Hlo. unfold DiagnosisSpec.nutrient_flag.
  case_decide as Hmd; cbn.
  - case_decide as Hlt; [rewrite bool_decide_eq_true_2 | rewrite bool_decide_eq_false_2];
      solve [reflexivity | assumption].
  - rewrite bool_decide_eq_false_2; [reflexivity | lra].
Qed.

Lemma ph_flag_critical ph :
  str_in "Critical" (map d_severity (DiagnosisSpec.ph_flag ph)) = false.
Proof. unfold DiagnosisSpec.ph_flag. repeat case_decide; reflexivity. Qed.

Lemma nutrient_flag_nil name v lo md :
  DiagnosisSpec.nutrient_flag name v lo md = [] <-> ~ v < md.
Proof.
  unfold DiagnosisSpec.nutrient_flag. case_decide; split; intros; try easy.
Qed.

Lemma ph_flag_nil ph :
  DiagnosisSpec.ph_flag ph = [] <-> ~ ph < 5.5 /\ ~ 8.0 < ph.
Proof.
  unfold DiagnosisSpec.ph_flag. repeat case_decide; split; intros; try easy;
    tauto.
Qed.

Lemma diagnose_severity (r : gmap string Q) :
  severity (diagnose r) =
    DiagnosisSpec.overall (get r "nitrogen_mg_kg" 0) (get r "phosphorus_mg_kg" 0)
      (get r "potassium_mg_kg" 0) (get r "ph" 7.0).
Proof.
  pose proof (diagnose_deficiencies r) as Hd. revert Hd.
  unfold diagnose. cbv zeta.
  rewrite closing_block_deficiencies.
  match goal with
  | |- deficiencies ?R = _ -> _ => set (R4 := R)
  end.
  assert (severity R4 = "none") as Hs.
  { subst R4. rewrite ph_block_severity, !nutrient_block_severity. reflexivity. }
  generalize dependent R4. intros R4 Hs Hd.
  set (n := get r "nitrogen_mg_kg" 0) in *.
  set (p := get r "phosphorus_mg_kg" 0) in *.
  set (k := get r "potassium_mg_kg" 0) in *.
  set (ph := get r "ph" 7.0) in *.
  assert (str_in "Critical" (map d_severity (deficiencies R4))
          = bool_decide (n < 40) || bool_decide (p < 15) || bool_decide (k < 25))
    as Hc.
  { rewrite Hd, !map_app, !str_in_app, !nutrient_flag_critical, ph_flag_critical
      by lra.
    now rewrite orb_false_r, !orb_assoc. }
  unfold DiagnosisSpec.overall.
  destruct (deficiencies R4) as [| d ds] eqn:E.
  - symmetry in Hd.
    apply app_eq_nil in Hd as [Hn Hd]. apply app_eq_nil in Hd as [Hp Hd].
    apply app_eq_nil in Hd as [Hk Hph].
    apply nutrient_flag_nil in Hn, Hp, Hk. apply ph_flag_nil in Hph.
    rewrite Hs. repeat case_decide; try reflexivity; exfalso; lra.
  - rewrite Hc. clear Hc.
    case_decide as Hcrit.
    + assert (bool_decide (n < 40) || bool_decide (p < 15) || bool_decide (k < 25)
              = true) as ->; [| reflexivity].
      destruct Hcrit as [H | [H | H]];
        rewrite (bool_decide_eq_true_2 _ H), ?orb_true_r; reflexivity.
    + rewrite !bool_decide_eq_false_2 by tauto. cbn.
      case_decide as Hmod; [reflexivity |].
      exfalso.
      assert (DiagnosisSpec.nutrient_flag "Nitrogen" n 40 60 = []) as Hn
          by (apply nutrient_flag_nil; tauto).
      assert (DiagnosisSpec.nutrient_flag "Phosphorus" p 15 25 = []) as Hp
          by (apply nutrient_flag_nil; tauto).
      assert (DiagnosisSpec.nutrient_flag "Potassium" k 25 35 = []) as Hk
          by (apply nutrient_flag_nil; tauto).
      assert (DiagnosisSpec.ph_flag ph = []) as Hph
          by (apply ph_flag_nil; tauto).
      rewrite Hn, Hp, Hk, Hph in Hd. discriminate Hd.
Qed.

Lemma nutrient_flag_below_low name v lo md :
  v < lo -> lo <= md ->
  DiagnosisSpec.nutrient_flag name v lo md
  = [ {| nutrient := name; value := v; d_severity := "Critical" |} ].
Proof.
  intros Hv Hlo. unfold DiagnosisSpec.nutrient_flag.
  repeat case_decide; solve [reflexivity | exfalso; lra].
Qed.

Lemma nutrient_flag_between name v lo md :
  lo <= v -> v < md ->
  DiagnosisSpec.nutrient_flag name v lo md
  = [ {| nutrient := name; value := v; d_severity := "Low" |} ].
Proof.
  intros Hv Hmd. unfold DiagnosisSpec.nutrient_flag.
  repeat case_decide; solve [reflexivity | exfalso; lra].
Qed.

(** C4: N, P and K are flagged independently, each when below its
    moderate threshold (60, 25, 35), "Critical" when also below its low
    threshold (40, 15, 25) and "Low" otherwise; the overall severity is
    "critical" as soon as one nutrient is Critical, "moderate" when some
    flag (nutrient or pH) is raised and none is Critical, and "none"
    otherwise.  With N = 30 the nitrogen flag is Critical and the
    diagnosis critical; with N = 50 the nitrogen flag is Low and the
    diagnosis moderate unless P or K is Critical. *)
Theorem diagnose_flags_and_union (r : gmap string Q) :
  let n := get r "nitrogen_mg_kg" 0 in
  let p := get r "phosphorus_mg_kg" 0 in
  let k := get r "potassium_mg_kg" 0 in
  let ph := get r "ph" 7.0 in
  deficiencies (diagnose r) =
    (DiagnosisSpec.nutrient_flag "Nitrogen" n 40 60 ++
     DiagnosisSpec.nutrient_flag "Phosphorus" p 15 25 ++
     DiagnosisSpec.nutrient_flag "Potassium" k 25 35 ++
     DiagnosisSpec.ph_flag ph)%list /\
  severity (diagnose r) = DiagnosisSpec.overall n p k ph /\
  (n == 30 ->
   In {| nutrient := "Nitrogen"; value := n; d_severity := "Critical" |}
      (deficiencies (diagnose r)) /\
   severity (diagnose r) = "critical") /\
  (n == 50 ->
   In {| nutrient := "Nitrogen"; value := n; d_severity := "Low" |}
      (deficiencies (diagnose r)) /\
   (15 <= p -> 25 <= k -> severity (diagnose r) = "moderate")).
Proof.
  intros n p k ph.
  pose proof (diagnose_deficiencies r) as Hd.
  pose proof (diagnose_severity r) as Hs.
  fold n p k ph in Hd, Hs.
  split; [exact Hd |]. split; [exact Hs |].
  rewrite Hd, Hs. unfold DiagnosisSpec.overall. split; intros Hn.
  - rewrite nutrient_flag_below_low by lra. split; [now left |].
    case_decide as Hc; [reflexivity |]. exfalso. apply Hc. left. lra.
  - rewrite nutrient_flag_between by lra. split; [now left |].
    intros Hp Hk.
    case_decide as Hc; [exfalso; lra |].
    case_decide as Hm; [reflexivity |]. exfalso. apply Hm. left. lra.
Qed.

Lemma diagnose_flags_and_union_witness :
  severity (diagnose reading_n30) = "critical" /\
  severity (diagnose reading_n50) = "moderate".
Proof.
  split.
  - apply (diagnose_flags_and_union reading_n30). reflexivity.
  - apply (diagnose_flags_and_union reading_n50); vm_compute;
      solve [reflexivity | discriminate].
Defined.

(** ** Missing fields of a diagnosed reading *)

Lemma get_missing (r : gmap string Q) key d :
  r !! key = None -> get r key d = d.
Proof. intros H. unfold get. now rewrite H. Qed.

Lemma get_insert_same (r : gmap string Q) key v d :
  get (<[key := v]> r) key d = v.
Proof. unfold get. now rewrite lookup_insert_eq. Qed.

Lemma get_insert_other (r : gmap string Q) key key' v d :
  key <> key' -> get (<[key := v]> r) key' d = get r key' d.
Proof. intros H. unfold get. now rewrite lookup_insert_ne. Qed.

(** [diagnose] reads its argument through four [get] calls only. *)
Lemma diagnose_ext (r r' : gmap string Q) :
  get r "nitrogen_mg_kg" 0 = get r' "nitrogen_mg_kg" 0 ->
  get r "phosphorus_mg_kg" 0 = get r' "phosphorus_mg_kg" 0 ->
  get r "potassium_mg_kg" 0 = get r' "potassium_mg_kg" 0 ->
  get r "ph" 7.0 = get r' "ph" 7.0 ->
  diagnose r = diagnose r'.
Proof. intros Hn Hp Hk Hph. unfold diagnose. now rewrite Hn, Hp, Hk, Hph. Qed.

(** Writing the default of a missing field into the reading changes
    nothing. *)
Lemma diagnose_default_written (r : gmap string Q) key d :
  r !! key = None ->
  get r key d = d ->
  (key = "nitrogen_mg_kg" \/ key = "phosphorus_mg_kg" \/ key = "potassium_mg_kg") /\ d = 0
  \/ key = "ph" /\ d = 7.0 ->
  diagnose r = diagnose (<[key := d]> r).
Proof.
  intros Hnone Hget Hkey.
  destruct Hkey as [[[-> | [-> | ->]] ->] | [-> ->]];
    apply diagnose_ext;
    first [ now rewrite get_insert_same, (get_missing _ _ _ Hnone)
          | now rewrite get_insert_other by discriminate ].
Qed.

Lemma missing_nutrient_critical (r : gmap string Q) key name :
  r !! key = None ->
  key = "nitrogen_mg_kg" /\ name = "Nitrogen"
  \/ key = "phosphorus_mg_kg" /\ name = "Phosphorus"
  \/ key = "potassium_mg_kg" /\ name = "Potassium" ->
  In {| nutrient := name; value := 0; d_severity := "Critical" |}
     (deficiencies (diagnose r)) /\
  severity (diagnose r) = "critical" /\
  diagnose r = diagnose (<[key := 0]> r).
Proof.
  intros Hnone Hkey.
  assert (get r key 0 = 0) as Hget by now apply get_missing.
  split; [| split].
  - rewrite diagnose_deficiencies.
    destruct Hkey as [[-> ->] | [[-> ->] | [-> ->]]]; rewrite Hget;
      rewrite !in_app_iff;
      [left | right; left | right; right; left]; now left.
  - rewrite diagnose_severity. unfold DiagnosisSpec.overall.
    case_decide as Hc; [reflexivity |]. exfalso. apply Hc.
    destruct Hkey as [[-> ->] | [[-> ->] | [-> ->]]]; rewrite Hget;
      [left | right; left | right; right]; reflexivity.
  - apply diagnose_default_written; [assumption .. |].
    left. split; [| reflexivity]. tauto.
Qed.

(** C10: a reading without [nitrogen_mg_kg] (or [phosphorus_mg_kg], or
    [potassium_mg_kg]) is diagnosed as if the nutrient measured 0: the
    result holds a Critical flag for that nutrient with value 0, the
    overall severity is "critical", and the diagnosis equals that of the
    reading with the value 0 written in; a reading without [ph] is
    diagnosed with pH 7.0, which raises no pH flag. *)
Theorem diagnose_missing_fields (r : gmap string Q) :
  (r !! "nitrogen_mg_kg" = None ->
   In {| nutrient := "Nitrogen"; value := 0; d_severity := "Critical" |}
      (deficiencies (diagnose r)) /\
   severity (diagnose r) = "critical" /\
   diagnose r = diagnose (<["nitrogen_mg_kg" := 0]> r)) /\
  (r !! "phosphorus_mg_kg" = None ->
   In {| nutrient := "Phosphorus"; value := 0; d_severity := "Critical" |}
      (deficiencies (diagnose r)) /\
   severity (diagnose r) = "critical" /\
   diagnose r = diagnose (<["phosphorus_mg_kg" := 0]> r)) /\
  (r !! "potassium_mg_kg" = None ->
   In {| nutrient := "Potassium"; value := 0; d_severity := "Critical" |}
      (deficiencies (diagnose r)) /\
   severity (diagnose r) = "critical" /\
   diagnose r = diagnose (<["potassium_mg_kg" := 0]> r)) /\
  (r !! "ph" = None ->
   (forall d, In d (deficiencies (diagnose r)) -> d_severity d <> "Imbalanced") /\
   diagnose r = diagnose (<["ph" := 7.0]> r)).
Proof.
  split; [| split; [| split]];
    try (intros H; apply (missing_nutrient_critical r _ _ H); tauto).
  intros Hnone. split.
  - intros d Hd.
    rewrite diagnose_deficiencies, (get_missing _ _ _ Hnone) in Hd.
    assert (DiagnosisSpec.ph_flag 7.0 = []) as Hph by reflexivity.
    rewrite Hph, !app_nil_r in Hd. clear Hph.
    unfold DiagnosisSpec.nutrient_flag in Hd.
    rewrite !in_app_iff in Hd.
    repeat case_decide; cbn in Hd;
      repeat match goal with
             | H : _ \/ _ |- _ => destruct H
             | H : False |- _ => destruct H
             end;
      subst d; cbn; discriminate.
  - apply diagnose_default_written; [assumption | now apply get_missing |].
    right. now split.
Qed.

Lemma diagnose_missing_fields_witness :
  severity (diagnose reading_no_nutrients) = "critical" /\
  diagnose reading_no_ph = diagnose (<["ph" := 7.0]> reading_no_ph).
Proof.
  split.
  - apply (diagnose_missing_fields reading_no_nutrients). reflexivity.
  - apply (diagnose_missing_fields reading_no_ph). reflexivity.
Defined.

(** ** Irrigation suitability *)

Section SuitabilityFacts.

Variable format_number : Q -> string.
Variable reading : gmap string Q.

Local Abbreviation step := (assess_step format_number reading).
Local Abbreviation found := (item_issues format_number reading).

Lemma assess_step_spec issues ok item :
  step (issues, ok) item
  = ((issues ++ found item)%list, ok && bool_decide (found item = [])).
Proof.
  destruct item as [param lim]. unfold assess_step, item_issues, Py.gt.
  destruct (reading !! param) as [v |];
    [| now rewrite app_nil_r, andb_true_r].
  destruct (l_max lim) as [mx |], (l_min lim) as [mn |];
    repeat (case_cmp; case_decide; try (exfalso; lra));
    cbn; rewrite ?app_nil_r, ?andb_true_r, ?andb_false_r, <- ?app_assoc;
    reflexivity.
Qed.

Lemma assess_loop_spec items issues ok :
  fold_left step items (issues, ok)
  = ((issues ++ flat_map found items)%list,
     ok && bool_decide (flat_map found items = [])).
Proof.
  revert issues ok.
  induction items as [| item items IH]; intros issues ok; cbn [fold_left flat_map].
  - now rewrite app_nil_r, andb_true_r.
  - rewrite assess_step_spec, IH, <- app_assoc, <- andb_assoc.
    f_equal. f_equal.
    destruct (found item) as [| m ms]; reflexivity.
Qed.

Lemma assess_issues :
  issues (assess_irrigation_suitability format_number reading)
  = flat_map found IRRIGATION_LIMITS.
Proof.
  unfold assess_irrigation_suitability. now rewrite assess_loop_spec.
Qed.

Lemma assess_suitable :
  suitable (assess_irrigation_suitability format_number reading)
  = bool_decide (flat_map found IRRIGATION_LIMITS = []).
Proof.
  unfold assess_irrigation_suitability. now rewrite assess_loop_spec.
Qed.

Lemma found_nil_max param mx u :
  found (param, {| l_min := None; l_max := Some mx; l_unit := u |}) = []
  <-> ~ exists v, reading !! param = Some v /\ mx < v.
Proof.
  unfold item_issues. cbn [l_min l_max].
  destruct (reading !! param) as [v |].
  - case_decide as Hv; cbn; split.
    + discriminate.
    + intros H. exfalso. apply H. now exists v.
    + intros _ [w [Hw Hlt]]. injection Hw as <-. contradiction.
    + reflexivity.
  - split; [| reflexivity]. intros _ [v [Hv _]]. discriminate Hv.
Qed.

Lemma found_nil_both param mn mx u :
  found (param, {| l_min := Some mn; l_max := Some mx; l_unit := u |}) = []
  <-> ~ exists v, reading !! param = Some v /\ (v < mn \/ mx < v).
Proof.
  unfold item_issues. cbn [l_min l_max].
  destruct (reading !! param) as [v |].
  - repeat case_decide; cbn; split;
      try discriminate; try reflexivity;
      try (intros Hno; exfalso; apply Hno; exists v; split; [reflexivity | tauto]).
    intros _ [w [Hw Hlt]]. injection Hw as <-. tauto.
  - split; [| reflexivity]. intros _ [v [Hv _]]. discriminate Hv.
Qed.

Lemma found_nil_iff :
  flat_map found IRRIGATION_LIMITS = [] <-> ~ out_of_bounds reading.
Proof.
  unfold IRRIGATION_LIMITS, out_of_bounds. cbn [flat_map].
  rewrite app_nil_r.
  rewrite !app_nil, found_nil_both, !found_nil_max. tauto.
Qed.

Lemma found_max param lim v mx :
  reading !! param = Some v -> l_max lim = Some mx -> mx < v ->
  In (exceeds_message format_number param v lim mx) (found (param, lim)).
Proof.
  intros Hv Hmx Hlt. unfold item_issues. rewrite Hv, Hmx.
  rewrite decide_True by assumption. now left.
Qed.

Lemma found_min param lim v mn :
  reading !! param = Some v -> l_min lim = Some mn -> v < mn ->
  In (below_message format_number param v lim mn) (found (param, lim)).
Proof.
  intros Hv Hmn Hlt. unfold item_issues. rewrite Hv, Hmn.
  rewrite (decide_True (P := v < mn)) by assumption.
  apply in_or_app. right. now left.
Qed.

End SuitabilityFacts.

(** C7: the assessment is suitable exactly when no checked parameter is
    out of bounds (pH below 6.0 or above 8.5, TDS above 2000, chloride
    above 350, sulfate above 400, hardness above 500), which is exactly
    when the list of issues is empty; every violated bound of a checked
    parameter puts its message in the list. *)
Theorem irrigation_suitability_strict
    (format_number : Q -> string) (reading : gmap string Q) :
  let a := assess_irrigation_suitability format_number reading in
  (suitable a = true <-> ~ out_of_bounds reading) /\
  (suitable a = true <-> issues a = []) /\
  (forall param lim v,
      In (param, lim) IRRIGATION_LIMITS -> reading !! param = Some v ->
      (forall mx, l_max lim = Some mx -> mx < v ->
                  In (exceeds_message format_number param v lim mx) (issues a)) /\
      (forall mn, l_min lim = Some mn -> v < mn ->
                  In (below_message format_number param v lim mn) (issues a))) /\
  recommendation a = (if suitable a then "Suitable for irrigation"
                      else "Treatment needed before irrigation").
Proof.
  intros a. subst a.
  split; [| split; [| split]].
  - rewrite assess_suitable, bool_decide_eq_true. apply found_nil_iff.
  - now rewrite assess_suitable, assess_issues, bool_decide_eq_true.
  - rewrite assess_issues.
    intros param lim v Hin Hv.
    split; [intros mx Hmx Hlt | intros mn Hmn Hlt];
      apply in_flat_map; exists (param, lim); split; try assumption.
    + now apply found_max.
    + now apply found_min.
  - unfold assess_irrigation_suitability.
    now destruct (fold_left _ _ _) as [i ok].
Qed.

Lemma irrigation_suitability_strict_witness :
  In "tds_ppm (2500.0ppm) exceeds limit (2000ppm)"
     (issues (assess_irrigation_suitability format_sample reading_salty)).
Proof.
  refine (proj1 (proj1 (proj2 (proj2
            (irrigation_suitability_strict format_sample reading_salty)))
            "tds_ppm" {| l_min := None; l_max := Some 2000; l_unit := "ppm" |}
            2500 _ _) 2000 _ _).
  - right. left. reflexivity.
  - reflexivity.
  - reflexivity.
  - reflexivity.
Defined.

(** ** Soil health score *)

(** Close a branch whose order facts contradict each other. *)
Ltac cmp_contra :=
  exfalso;
  repeat match goal with
         | H : _ /\ _ |- _ => destruct H
         end;
  solve [lra | tauto].

Lemma max_spec a b : Py.max a b == Qmax a b.
Proof.
  unfold Py.max. case_cmp.
  - symmetry. apply Q.max_r. lra.
  - symmetry. apply Q.max_l. lra.
Qed.

#[global] Instance rint_proper : Proper (Qeq ==> eq) Py.rint.
Proof.
  intros x y H. unfold Py.rint, Py.lt.
  rewrite (Qfloor_comp _ _ H).
  assert (x - inject_Z (Qfloor y) == y - inject_Z (Qfloor y)) as Hr
      by now rewrite H.
  now rewrite !(Qleb_comp _ _ (Qeq_refl (1#2)) _ _ Hr),
              !(Qleb_comp _ _ Hr _ _ (Qeq_refl (1#2))).
Qed.

Lemma round_proper x y ndigits : x == y -> Py.round x ndigits = Py.round y ndigits.
Proof.
  intros H. unfold Py.round.
  now rewrite (rint_proper (x * _) (y * _)) by now rewrite H.
Qed.

Lemma ph_block score ph :
  (if Py.le 6.0 ph && Py.le ph 7.5 then score + 20
   else if Py.le 5.5 ph && Py.le ph 8.0 then score + 12
   else if Py.le 5.0 ph && Py.le ph 8.5 then score + 5
   else score)
  == score + SoilScoreSpec.ph_points ph.
Proof.
  unfold SoilScoreSpec.ph_points.
  repeat (case_cmp; cbn [andb]); repeat case_decide;
    solve [reflexivity | lra | cmp_contra].
Qed.

Lemma three_tier_block score x lo1 hi1 lo2 hi2 a b c :
  (if Py.le lo1 x && Py.le x hi1 then score + a
   else if Py.le lo2 x && Py.le x hi2 then score + b
   else score + c)
  == score + (if decide (lo1 <= x /\ x <= hi1) then a
              else if decide (lo2 <= x /\ x <= hi2) then b
              else c).
Proof.
  repeat (case_cmp; cbn [andb]); repeat case_decide;
    solve [reflexivity | cmp_contra].
Qed.

Lemma soil_score_rounded (row : gmap string Q) n p k ph om m ec :
  row !! "nitrogen_mg_kg" = Some n ->
  row !! "phosphorus_mg_kg" = Some p ->
  row !! "potassium_mg_kg" = Some k ->
  row !! "ph" = Some ph ->
  row !! "organic_matter_pct" = Some om ->
  row !! "moisture_pct" = Some m ->
  row !! "ec_mscm" = Some ec ->
  generate_soil_health_score row
  = Some (SoilScoreSpec.rounded n p k ph om m ec).
Proof.
  intros Hn Hp Hk Hph Hom Hm Hec.
  unfold generate_soil_health_score.
  rewrite Hn, Hp, Hk, Hph, Hom, Hm, Hec. cbn [mbind option_bind].
  unfold SoilScoreSpec.rounded, Py.clip. do 3 f_equal.
  apply round_proper.
  rewrite (three_tier_block _ ec), (three_tier_block _ m),
    (three_tier_block _ om), ph_block, !max_spec.
  unfold SoilScoreSpec.total, SoilScoreSpec.npk, SoilScoreSpec.nutrient,
    SoilScoreSpec.organic_matter_points, SoilScoreSpec.moisture_points,
    SoilScoreSpec.ec_points.
  ring.
Qed.

(** *** Rounding *)

Lemma floor_bounds x :
  inject_Z (Qfloor x) <= x /\ x < inject_Z (Qfloor x) + 1.
Proof.
  split; [apply Qfloor_le |].
  pose proof (Qlt_floor x) as H. rewrite inject_Z_plus in H. exact H.
Qed.

(** [rint x] is [Qfloor x] or the next integer, and within one half of [x]. *)
Lemma rint_cases x :
  let f := Qfloor x in
  (Py.rint x = f /\ x - inject_Z f <= 1#2) \/
  (Py.rint x = (f + 1)%Z /\ 1#2 <= x - inject_Z f).
Proof.
  intros f. unfold Py.rint. fold f.
  repeat case_cmp; [left | right | destruct (Z.even f); [left | right]];
    split; solve [reflexivity | lra].
Qed.

Lemma rint_near x : Qabs (inject_Z (Py.rint x) - x) <= 1#2.
Proof.
  destruct (floor_bounds x) as [Hlo Hhi].
  apply Qabs_Qle_condition.
  destruct (rint_cases x) as [[-> H] | [-> H]];
    rewrite ?inject_Z_plus; change (inject_Z 1) with 1; split; lra.
Qed.

(** Rounding stays between two integers that enclose the argument. *)
Lemma rint_between (a b : Z) x :
  inject_Z a <= x -> x <= inject_Z b -> (a <= Py.rint x <= b)%Z.
Proof.
  intros Ha Hb.
  destruct (floor_bounds x) as [Hlo Hhi].
  assert (a <= Qfloor x)%Z as Hfa.
  { rewrite <- (Qfloor_Z a). now apply Qfloor_resp_le. }
  assert (Qfloor x <= b)%Z as Hfb.
  { rewrite <- (Qfloor_Z b). now apply Qfloor_resp_le. }
  destruct (rint_cases x) as [[-> H] | [-> H]]; [lia |].
  split; [lia |].
  destruct (Z.eq_dec (Qfloor x) b) as [E | E]; [| lia].
  exfalso. rewrite E in H. lra.
Qed.

Lemma round1_near x : Qabs (Py.round x 1 - x) <= 1#20.
Proof.
  unfold Py.round. change (inject_Z (10 ^ Z.of_nat 1)) with 10.
  pose proof (rint_near (x * 10)) as H.
  apply Qabs_Qle_condition in H. apply Qabs_Qle_condition.
  set (r := inject_Z (Py.rint (x * 10))) in *.
  assert (r / 10 == r * (1#10)) as -> by (field; discriminate).
  split; lra.
Qed.

(** The clamp moves two numbers no further apart. *)
Lemma clip_close x y lo hi e :
  Qabs (x - y) <= e -> Qabs (Qmin (Qmax x lo) hi - Qmin (Qmax y lo) hi) <= e.
Proof.
  intros H. apply Qabs_Qle_condition in H. apply Qabs_Qle_condition.
  destruct (Q.max_spec x lo) as [[? ->] | [? ->]],
           (Q.max_spec y lo) as [[? ->] | [? ->]];
    repeat match goal with
           | |- context [Qmin ?a ?b] =>
               destruct (Q.min_spec a b) as [[? ->] | [? ->]]
           end;
    split; lra.
Qed.

Lemma clip_range x lo hi : lo <= hi -> lo <= Qmin (Qmax x lo) hi <= hi.
Proof.
  intros H.
  destruct (Q.max_spec x lo) as [[? ->] | [? ->]];
    repeat match goal with
           | |- context [Qmin ?a ?b] =>
               destruct (Q.min_spec a b) as [[? ->] | [? ->]]
           end;
    split; lra.
Qed.

(** Rounded to one decimal and clamped to [0, 100], a number is a
    whole number of tenths. *)
Lemma clip_round1_tenth x :
  exists j : Z, Qmin (Qmax (Py.round x 1) 0) 100 == inject_Z j / 10.
Proof.
  unfold Py.round. change (inject_Z (10 ^ Z.of_nat 1)) with 10.
  set (r := Py.rint (x * 10)).
  destruct (Q.max_spec (inject_Z r / 10) 0) as [[H1 E1] | [H1 E1]].
  - exists 0%Z. rewrite E1, Q.min_l by lra. reflexivity.
  - destruct (Qlt_le_dec (inject_Z r / 10) 100) as [H2 | H2].
    + exists r. rewrite E1. apply Q.min_l. lra.
    + exists 1000%Z. rewrite E1, Q.min_r by lra. reflexivity.
Qed.

(** C2, as the code has it: for a row with all seven fields, the score is
    the sum of the NPK, pH, organic matter, moisture and EC components,
    rounded to one decimal and then clamped to [0, 100]: it is a whole
    number of tenths, it lies in [0, 100], and it is within 0.05 of the
    clamped sum. *)
Theorem soil_health_score_rounded_total (row : gmap string Q) n p k ph om m ec :
  row !! "nitrogen_mg_kg" = Some n ->
  row !! "phosphorus_mg_kg" = Some p ->
  row !! "potassium_mg_kg" = Some k ->
  row !! "ph" = Some ph ->
  row !! "organic_matter_pct" = Some om ->
  row !! "moisture_pct" = Some m ->
  row !! "ec_mscm" = Some ec ->
  exists s,
    generate_soil_health_score row = Some s /\
    (exists j : Z, s == inject_Z j / 10) /\
    0 <= s <= 100 /\
    Qabs (s - SoilScoreSpec.claimed n p k ph om m ec) <= 1#20.
Proof.
  intros Hn Hp Hk Hph Hom Hm Hec.
  eexists. split; [eapply soil_score_rounded; eassumption |].
  unfold SoilScoreSpec.rounded, SoilScoreSpec.claimed.
  split; [apply clip_round1_tenth |].
  split; [apply clip_range; lra |].
  apply clip_close, round1_near.
Qed.

Lemma soil_health_score_rounded_total_witness :
  exists s, generate_soil_health_score row_n81 = Some s /\ 0 <= s <= 100.
Proof.
  destruct (soil_health_score_rounded_total row_n81 81 45 60 6.5 4 30 1.5)
    as [s [Hs [_ [Hr _]]]]; try reflexivity.
  exists s. split; assumption.
Defined.

(** C2, as the claim words it, fails: with N = 81 and every other field
    at its ideal, the components sum to 99.875 and the code returns 99.9. *)
Lemma soil_health_score_not_plain_sum :
  generate_soil_health_score row_n81 = Some 99.9 /\
  SoilScoreSpec.claimed 81 45 60 6.5 4 30 1.5 == 99.875 /\
  ~ 99.9 == SoilScoreSpec.claimed 81 45 60 6.5 4 30 1.5.
Proof.
  split; [vm_compute; reflexivity |].
  split; vm_compute; [reflexivity | discriminate].
Qed.

(** ** Irrigation need *)

Lemma field_capacity_lookup soil :
  map_fillna field_capacity 35 soil = IrrigationSpec.field_capacity_of soil.
Proof.
  unfold map_fillna, field_capacity, IrrigationSpec.field_capacity_of.
  repeat (case_decide;
          [subst soil; reflexivity
          | first [ rewrite lookup_insert_ne by congruence
                  | rewrite lookup_singleton_ne by congruence ] ]).
  reflexivity.
Qed.

Lemma clip_clamp x lo hi :
  lo <= hi -> Py.clip x lo hi == IrrigationSpec.clamp x lo hi.
Proof.
  intros H. unfold Py.clip, IrrigationSpec.clamp.
  destruct (Q.max_spec x lo) as [[? ->] | [? ->]];
    repeat match goal with
           | |- context [Qmin ?a ?b] =>
               destruct (Q.min_spec a b) as [[? ->] | [? ->]]
           end;
    repeat case_decide; lra.
Qed.

(** The need grows with the evapotranspiration estimate and shrinks with
    the rainfall. *)
Lemma irrigation_need_monotone soil moisture eto eto' rain rain' :
  eto <= eto' -> rain' <= rain ->
  irrigation_need_mm (irrigation_columns
    {| soil_type := soil; moisture_pct := moisture;
       evapotranspiration_est := eto; rainfall_mm := rain |})
  <= irrigation_need_mm (irrigation_columns
    {| soil_type := soil; moisture_pct := moisture;
       evapotranspiration_est := eto'; rainfall_mm := rain' |}).
Proof.
  intros He Hr. cbn. unfold Py.clip.
  apply Q.min_le_compat_r, Q.max_le_compat_r. lra.
Qed.

(** C5: for every joined row the irrigation need is
    clamp(moisture_deficit + ETo * 5 - rainfall * 0.8, 0, 50) with
    moisture_deficit = field_capacity(soil_type) * 0.5 - moisture, where
    the field capacity is 40 / 50 / 20 / 45 / 48 / 28 / 60 for Loamy /
    Clay / Sandy / Silt / Clay Loam / Sandy Loam / Peaty and 35 for any
    other soil type. *)
Theorem irrigation_need_formula (row : merged_row) :
  let out := irrigation_columns row in
  field_capacity_col out = IrrigationSpec.field_capacity_of (soil_type row) /\
  moisture_deficit out = field_capacity_col out * 0.5 - moisture_pct row /\
  irrigation_need_mm out ==
    IrrigationSpec.need (soil_type row) (moisture_pct row)
      (evapotranspiration_est row) (rainfall_mm row) /\
  0 <= irrigation_need_mm out <= 50.
Proof.
  cbn. rewrite field_capacity_lookup.
  split; [reflexivity |]. split; [reflexivity |].
  split; [apply clip_clamp; lra | apply clip_range; lra].
Qed.

(** ** Evapotranspiration estimate *)

Section EtoFacts.

Local Open Scope R_scope.

Lemma Int_part_bounds x : IZR (Int_part x) <= x < IZR (Int_part x) + 1.
Proof. destruct (base_Int_part x) as [H1 H2]. split; lra. Qed.

(** [Eto.rint x] is the integer part or its successor, whichever is
    nearer, and the even one of the two at a tie. *)
Lemma eto_rint_cases x :
  let f := Int_part x in
  (Eto.rint x = f /\ x - IZR f <= 1/2 /\ (x - IZR f = 1/2 -> Z.even f = true)) \/
  (Eto.rint x = (f + 1)%Z /\ 1/2 <= x - IZR f /\
   (x - IZR f = 1/2 -> Z.even (f + 1) = true)).
Proof.
  intros f. unfold Eto.rint. fold f.
  destruct (Rlt_dec (x - IZR f) (1/2)) as [H1 | H1].
  - left. split; [reflexivity | split; [lra | intros Ht; lra]].
  - destruct (Rlt_dec (1/2) (x - IZR f)) as [H2 | H2].
    + right. split; [reflexivity | split; [lra | intros Ht; lra]].
    + destruct (Z.even f) eqn:E.
      * left. split; [reflexivity | split; [lra | intros _; reflexivity]].
      * right. split; [reflexivity | split; [lra | intros _]].
        rewrite Z.even_add, E. reflexivity.
Qed.

Lemma eto_rint_near x :
  Rabs (IZR (Eto.rint x) - x) <= 1/2 /\
  (Rabs (IZR (Eto.rint x) - x) = 1/2 -> Z.even (Eto.rint x) = true).
Proof.
  destruct (Int_part_bounds x) as [Hlo Hhi].
  destruct (eto_rint_cases x) as [[-> [H E]] | [-> [H E]]];
    rewrite ?plus_IZR.
  - rewrite Rabs_left1 by lra. split; [lra |]. intros Ht. apply E. lra.
  - rewrite Rabs_right by lra. split; [lra |]. intros Ht. apply E. lra.
Qed.

Lemma eto_rint_between (a b : Z) x :
  IZR a <= x -> x <= IZR b -> (a <= Eto.rint x <= b)%Z.
Proof.
  intros Ha Hb.
  destruct (Int_part_bounds x) as [Hlo Hhi].
  assert (a <= Int_part x)%Z as Hfa.
  { apply Z.lt_succ_r, lt_IZR. rewrite succ_IZR. lra. }
  assert (Int_part x <= b)%Z as Hfb by (apply le_IZR; lra).
  destruct (eto_rint_cases x) as [[-> _] | [-> [H _]]]; [lia |].
  split; [lia |].
  destruct (Z.eq_dec (Int_part x) b) as [E | E]; [| lia].
  exfalso. rewrite E in H. lra.
Qed.

Lemma eto_round2_spec x : Eto.rounded_to_hundredths x (Eto.round x 2).
Proof.
  exists (Eto.rint (x * 10 ^ 2)). unfold Eto.round.
  replace (10 ^ 2) with 100 by (simpl; lra).
  split; [reflexivity |].
  replace (100 * x) with (x * 100) by lra.
  apply (proj1 (eto_rint_near (x * 100))).
Qed.

Lemma eto_round2_range x : 0 <= x <= 15 -> 0 <= Eto.round x 2 <= 15.
Proof.
  intros [H0 H15]. unfold Eto.round.
  replace (10 ^ 2) with 100 by (simpl; lra).
  destruct (eto_rint_between 0 1500 (x * 100)) as [Hlo Hhi]; try lra.
  apply IZR_le in Hlo, Hhi. split; lra.
Qed.

Lemma eto_clip_cases x :
  Eto.clip x 0 15 = if Rlt_dec x 0 then 0 else if Rlt_dec 15 x then 15 else x.
Proof.
  unfold Eto.clip, Rmax.
  destruct (Rle_dec x 0); unfold Rmin;
    match goal with
    | |- context [Rle_dec ?a ?b] => destruct (Rle_dec a b)
    end;
    destruct (Rlt_dec x 0), (Rlt_dec 15 x); lra.
Qed.

Lemma eto_clip_range x : 0 <= Eto.clip x 0 15 <= 15.
Proof.
  rewrite eto_clip_cases.
  repeat match goal with
         | |- context [Rlt_dec ?a ?b] => destruct (Rlt_dec a b)
         end; lra.
Qed.

Lemma Rabs_bound_inv a b : Rabs a <= b -> - b <= a <= b.
Proof. unfold Rabs. destruct (Rcase_abs a); lra. Qed.

Lemma eto_rint_value x (k : Z) : Rabs (IZR k - x) < 1/2 -> Eto.rint x = k.
Proof.
  intros Hk. destruct (eto_rint_near x) as [Hn _].
  apply Rabs_def2 in Hk. destruct Hk as [Hk1 Hk2].
  assert (- (1/2) <= IZR (Eto.rint x) - x <= 1/2) as [Hn1 Hn2]
      by (apply Rabs_bound_inv; exact Hn).
  apply Z.le_antisymm; apply Z.lt_succ_r, lt_IZR; rewrite succ_IZR; lra.
Qed.

(** Evaluation of the estimate once the square root is known. *)
Lemma estimate_eto_value T H S W r e (k : Z) :
  sqrt (Rabs (S + 1)) = r ->
  0.0023 * (T + 17.8) * r * (1 - H / 100) * (1 + 0.01 * W) = e ->
  0 <= e <= 15 ->
  Rabs (IZR k - e * 100) < 1/2 ->
  Eto.estimate_eto T H S W = IZR k / 100.
Proof.
  intros Hr He Hrange Hk. unfold Eto.estimate_eto. rewrite Hr, He.
  rewrite eto_clip_cases.
  destruct (Rlt_dec e 0); [lra |]. destruct (Rlt_dec 15 e); [lra |].
  unfold Eto.round. replace (10 ^ 2) with 100 by (simpl; lra).
  now rewrite (eto_rint_value _ k Hk).
Qed.

Lemma claimed_value T H S W r e :
  sqrt (Rabs S + 1) = r ->
  0.0023 * (T + 17.8) * r * (1 - H / 100) * (1 + 0.01 * W) = e ->
  0 <= e <= 15 ->
  Eto.claimed T H S W = e.
Proof.
  intros Hr He Hrange. unfold Eto.claimed. rewrite Hr, He.
  destruct (Rlt_dec e 0); [lra |]. destruct (Rlt_dec 15 e); lra.
Qed.

Lemma estimate_eto_clamped T H S W :
  Eto.estimate_eto T H S W = Eto.round (Eto.clamped T H S W) 2.
Proof. unfold Eto.estimate_eto, Eto.clamped. now rewrite eto_clip_cases. Qed.

Lemma clamped_range T H S W : 0 <= Eto.clamped T H S W <= 15.
Proof.
  unfold Eto.clamped.
  repeat match goal with
         | |- context [Rlt_dec ?a ?b] => destruct (Rlt_dec a b)
         end; lra.
Qed.

(** C6, as the code has it: the estimate is
    0.0023 (T + 17.8) sqrt(|S + 1|) (1 - H/100) (1 + 0.01 W) clamped to
    [0, 15] and then rounded to two decimals, that is a whole number of
    hundredths nearest to the clamped value; it lies in [0, 15]; for a
    non-negative solar radiation it is within 0.005 of the claimed
    value, which has |S| + 1 under the root. *)
Theorem estimate_eto_rounded_clamp (T H S W : R) :
  Eto.rounded_to_hundredths (Eto.clamped T H S W) (Eto.estimate_eto T H S W) /\
  0 <= Eto.estimate_eto T H S W <= 15 /\
  (0 <= S ->
   Rabs (Eto.estimate_eto T H S W - Eto.claimed T H S W) <= 0.005).
Proof.
  rewrite estimate_eto_clamped.
  pose proof (eto_round2_spec (Eto.clamped T H S W)) as Hspec.
  split; [exact Hspec |].
  split; [apply eto_round2_range, clamped_range |].
  intros HS.
  assert (Eto.claimed T H S W = Eto.clamped T H S W) as ->.
  { unfold Eto.claimed, Eto.clamped.
    now rewrite (Rabs_right S), (Rabs_right (S + 1)) by lra. }
  destruct Hspec as [k [-> Hk]].
  apply Rabs_le. apply Rabs_bound_inv in Hk. lra.
Qed.

Lemma estimate_eto_rounded_clamp_witness :
  Rabs (Eto.estimate_eto 22.2 50 0 0 - Eto.claimed 22.2 50 0 0) <= 0.005.
Proof.
  apply (estimate_eto_rounded_clamp 22.2 50 0 0). lra.
Defined.

(** C6, as the claim words it, fails twice.  At T = 22.2, H = 50,
    S = -1.25, W = 0 the code takes the root of |S + 1| = 0.25 and
    returns 0.02, the claimed formula takes the root of |S| + 1 = 2.25
    and gives 0.069.  At S = 0 the two formulas agree on 0.046 and the
    code returns it rounded to two decimals, 0.05. *)
Lemma estimate_eto_not_claimed :
  Eto.estimate_eto 22.2 50 (-1.25) 0 = 0.02 /\
  Eto.claimed 22.2 50 (-1.25) 0 = 0.069 /\
  Eto.estimate_eto 22.2 50 (-1.25) 0 <> Eto.claimed 22.2 50 (-1.25) 0 /\
  Eto.estimate_eto 22.2 50 0 0 = 0.05 /\
  Eto.claimed 22.2 50 0 0 = 0.046 /\
  Eto.estimate_eto 22.2 50 0 0 <> Eto.claimed 22.2 50 0 0.
Proof.
  assert (sqrt (Rabs (-1.25 + 1)) = 0.5) as Hr1.
  { rewrite Rabs_left by lra. apply sqrt_lem_1; lra. }
  assert (sqrt (Rabs (-1.25) + 1) = 1.5) as Hr2.
  { rewrite Rabs_left by lra. apply sqrt_lem_1; lra. }
  assert (sqrt (Rabs (0 + 1)) = 1) as Hr3.
  { rewrite Rabs_right by lra. apply sqrt_lem_1; lra. }
  assert (sqrt (Rabs 0 + 1) = 1) as Hr4.
  { rewrite Rabs_right by lra. apply sqrt_lem_1; lra. }
  assert (Eto.estimate_eto 22.2 50 (-1.25) 0 = 0.02) as E1.
  { rewrite (estimate_eto_value _ _ _ _ 0.5 0.023 2 Hr1); try lra.
    apply Rabs_def1; lra. }
  assert (Eto.claimed 22.2 50 (-1.25) 0 = 0.069) as E2
      by (apply (claimed_value _ _ _ _ 1.5); lra).
  assert (Eto.estimate_eto 22.2 50 0 0 = 0.05) as E3.
  { rewrite (estimate_eto_value _ _ _ _ 1 0.046 5 Hr3); try lra.
    apply Rabs_def1; lra. }
  assert (Eto.claimed 22.2 50 0 0 = 0.046) as E4
      by (apply (claimed_value _ _ _ _ 1); lra).
  rewrite E1, E2, E3, E4. repeat split; lra.
Qed.

End EtoFacts.

(** ** The simulators *)

Section SimulatorFacts.

Context {G : Type} `{Numpy G}.

(** Unfold one monadic step. *)
Lemma bind_call {A B} (f : G -> A * G) (k : A -> M G B) g :
  (call f ≫= k) g = k (f g).1 (f g).2.
Proof. unfold mbind, M_bind, call. now destruct (f g). Qed.

Lemma bind_ok {A B} (m : M G A) (k : A -> M G B) g a g' :
  m g = Ok (a, g') -> (m ≫= k) g = k a g'.
Proof. intros E. unfold mbind, M_bind. now rewrite E. Qed.

Lemma bind_raise {A B} (m : M G A) (k : A -> M G B) g exc :
  m g = Raise exc -> (m ≫= k) g = Raise exc.
Proof. intros E. unfold mbind, M_bind. now rewrite E. Qed.

Lemma generate_soil_data_zero g :
  generate_soil_data 0 g = Raise no_index_error.
Proof.
  unfold generate_soil_data. cbn [repeatM].
  erewrite bind_ok by reflexivity. cbn [sort fold_right].
  rewrite bind_call. cbn [zip zip_with mapM].
  erewrite bind_ok by reflexivity.
  cbn [foldM]. apply bind_raise.
  unfold inject_missing. rewrite bind_call. reflexivity.
Qed.

Lemma generate_water_data_zero g :
  generate_water_data 0 g = Raise no_index_error.
Proof.
  unfold generate_water_data. cbn [repeatM].
  erewrite bind_ok by reflexivity. cbn [sort fold_right].
  rewrite bind_call. cbn [zip zip_with mapM].
  erewrite bind_ok by reflexivity.
  cbn [foldM]. apply bind_raise.
  unfold inject_missing. rewrite bind_call. reflexivity.
Qed.

Lemma generate_weather_data_zero g :
  generate_weather_data 0 g = Ok ({| columns := []; rows := [] |}, g).
Proof. reflexivity. Qed.

(** *** The loops return *)

Lemma repeatM_call {A} n (f : G -> A * G) g :
  exists l g', repeatM n (call f) g = Ok (l, g') /\ length l = n.
Proof.
  revert g. induction n as [| n IH]; intros g; cbn [repeatM].
  - now exists [], g.
  - rewrite bind_call. destruct (IH (f g).2) as [l [g' [E Hl]]].
    erewrite bind_ok by exact E.
    exists ((f g).1 :: l), g'. split; [reflexivity | cbn; now rewrite Hl].
Qed.

Lemma insert_sorted_length x l : length (insert_sorted x l) = S (length l).
Proof.
  induction l as [| y l IH]; cbn; [reflexivity |].
  destruct (x <=? y)%Z; cbn; [reflexivity | now rewrite IH].
Qed.

Lemma sort_length l : length (sort l) = length l.
Proof.
  induction l as [| x l IH]; cbn; [reflexivity |].
  now rewrite insert_sorted_length, <- IH.
Qed.

Lemma getitem_in {A} (d : list (string * A)) key :
  In key (map fst d) -> exists v, getitem d key = Ok v.
Proof.
  induction d as [| [k v] d IH]; cbn; [intros [] |].
  intros [-> | Hin].
  - rewrite String.eqb_refl. now exists v.
  - destruct (String.eqb k key); [now exists v | now apply IH].
Qed.

Lemma mapM_ok {A B} (P : A -> Prop) (R : B -> Prop) (f : A -> M G B) l g :
  (forall x g, P x -> exists b g', f x g = Ok (b, g') /\ R b) ->
  Forall P l ->
  exists bs g',
    mapM f l g = Ok (bs, g') /\ length bs = length l /\ Forall R bs.
Proof.
  intros Hf Hl. revert g.
  induction Hl as [| x l Hx Hl IH]; intros g; cbn [mapM].
  - now exists [], g.
  - destruct (Hf x g Hx) as [b [g1 [E1 Hb]]].
    destruct (IH g1) as [bs [g2 [E2 [Hlen Hbs]]]].
    erewrite bind_ok by exact E1. erewrite bind_ok by exact E2.
    exists (b :: bs), g2.
    split; [reflexivity |]. split; [cbn; now rewrite Hlen | now constructor].
Qed.

Lemma zip_length_same {A B} (l : list A) (k : list B) :
  length l = length k -> length (zip l k) = length l.
Proof.
  revert k. induction l as [| x l IH]; intros [| y k]; cbn; try easy.
  intros [= Hlen]. now rewrite IH.
Qed.

Lemma zip_Forall_snd {A B} (P : B -> Prop) (l : list A) (k : list B) :
  Forall P k -> Forall (fun x => P x.2) (zip l k).
Proof.
  intros Hk. revert l.
  induction Hk as [| y k Hy Hk IH]; intros [| x l]; cbn; constructor; auto.
Qed.

(** *** Injection of missing values *)

Lemma mask_rows_spec (P : gmap string cell -> Prop) col (mask : list bool) rs :
  (forall r, P r -> P (<[col := NaN]> r)) ->
  length mask = length rs ->
  Forall P rs ->
  let rs' := zip_with (fun (b : bool) r => if b then <[col := NaN]> r else r)
                      mask rs in
  length rs' = length rs /\ Forall P rs'.
Proof.
  intros HP Hlen Hrs. revert mask Hlen.
  induction Hrs as [| r rs Hr Hrs IH]; intros [| b mask]; cbn; try easy.
  intros [= Hlen]. destruct (IH mask Hlen) as [IH1 IH2].
  split; [now rewrite IH1 |].
  constructor; [destruct b; auto | exact IH2].
Qed.

Lemma inject_missing_ok (P : gmap string cell -> Prop) n rate df col g :
  col ∈ columns df ->
  (forall r, P r -> P (<[col := NaN]> r)) ->
  length (rows df) = n ->
  Forall P (rows df) ->
  exists df' g',
    inject_missing n rate df col g = Ok (df', g') /\
    columns df' = columns df /\
    length (rows df') = n /\
    Forall P (rows df').
Proof.
  intros Hcol HP Hlen Hrows. subst n.
  unfold inject_missing. rewrite bind_call.
  unfold lift, loc_set_nan. rewrite (bool_decide_eq_true_2 _ Hcol).
  eexists _, _. split; [reflexivity |]. cbn [columns rows].
  split; [reflexivity |].
  apply mask_rows_spec; try assumption.
  now rewrite length_map, np_random_length.
Qed.

Lemma inject_all_ok (P : gmap string cell -> Prop) n rate cols df g :
  Forall (fun col => col ∈ columns df /\
                     forall r, P r -> P (<[col := NaN]> r)) cols ->
  length (rows df) = n ->
  Forall P (rows df) ->
  exists df' g',
    foldM (inject_missing n rate) cols df g = Ok (df', g') /\
    length (rows df') = n /\
    Forall P (rows df').
Proof.
  revert df g.
  induction cols as [| col cols IH]; intros df g Hcols Hlen Hrows; cbn [foldM].
  - now exists df, g.
  - apply Forall_cons in Hcols as [[Hcol HP] Hcols].
    destruct (inject_missing_ok P n rate df col g Hcol HP Hlen Hrows)
      as [df1 [g1 [E [Hc [Hlen1 Hrows1]]]]].
    erewrite bind_ok by exact E.
    apply IH; try assumption.
    rewrite Hc. exact Hcols.
Qed.

(** *** One record *)

(** Rounding to [d] decimals stays within bounds that have at most [d]
    decimals themselves. *)
Lemma round_range d (a b : Z) lo hi x :
  lo * inject_Z (10 ^ Z.of_nat d) == inject_Z a ->
  hi * inject_Z (10 ^ Z.of_nat d) == inject_Z b ->
  lo <= x <= hi ->
  lo <= Py.round x d <= hi.
Proof.
  intros Ha Hb [Hlo Hhi]. unfold Py.round.
  set (sc := inject_Z (10 ^ Z.of_nat d)) in *.
  assert (0 < sc) as Hsc.
  { unfold sc. rewrite <- (Zlt_Qlt 0). apply Z.pow_pos_nonneg; lia. }
  destruct (rint_between a b (x * sc)) as [H1 H2].
  - rewrite <- Ha. apply Qmult_le_compat_r; lra.
  - rewrite <- Hb. apply Qmult_le_compat_r; lra.
  - rewrite Zle_Qle in H1, H2. split.
    + apply Qle_shift_div_l; [exact Hsc |]. now rewrite Ha.
    + apply Qle_shift_div_r; [exact Hsc |]. now rewrite Hb.
Qed.

Lemma cell_within_insert_ne r col key c lo hi :
  col <> key -> cell_within r key lo hi -> cell_within (<[col := c]> r) key lo hi.
Proof.
  intros Hne [q [Hq Hr]]. exists q. split; [| exact Hr].
  now rewrite lookup_insert_ne.
Qed.

Lemma cell_missing_insert r key : cell_missing (<[key := NaN]> r) key.
Proof. unfold cell_missing. apply lookup_insert_eq. Qed.

Lemma cell_missing_insert_ne r col key c :
  col <> key -> cell_missing r key -> cell_missing (<[col := c]> r) key.
Proof. intros Hne Hm. unfold cell_missing. now rewrite lookup_insert_ne. Qed.

(** Read a key of a dict literal. *)
Ltac map_lookup :=
  repeat (rewrite lookup_insert_ne by discriminate);
  rewrite lookup_insert_eq.

Ltac clipped_cell :=
  eexists; split; [map_lookup; reflexivity | apply clip_range; lra].

Lemma generate_soil_record_ok ts zone g :
  In zone (map fst ZONE_PROFILES) ->
  exists r g',
    generate_soil_record (ts, zone) g = Ok (r, g') /\ soil_row_bounded r.
Proof.
  intros Hz. destruct (getitem_in ZONE_PROFILES zone Hz) as [profile Hp].
  unfold generate_soil_record.
  erewrite bind_ok by (unfold lift; rewrite Hp; reflexivity).
  cbv zeta. repeat (rewrite bind_call; cbv beta).
  eexists _, _. split; [reflexivity |].
  unfold soil_row_bounded.
  split; [clipped_cell |]. split; [clipped_cell |]. split; [clipped_cell |].
  split; [clipped_cell |]. right. clipped_cell.
Qed.

Ltac rounded_cell a b :=
  eexists; split;
  [ map_lookup; reflexivity
  | apply (round_range _ a b); [reflexivity | reflexivity | apply clip_range; lra] ].

Lemma generate_water_record_ok ts source g :
  In source (map fst source_factors) ->
  exists r g',
    generate_water_record (ts, source) g = Ok (r, g') /\ water_row_bounded r.
Proof.
  intros Hz. destruct (getitem_in source_factors source Hz) as [f Hf].
  unfold generate_water_record.
  erewrite bind_ok by (unfold lift; rewrite Hf; reflexivity).
  cbv zeta. repeat (rewrite bind_call; cbv beta).
  eexists _, _. split; [reflexivity |].
  unfold water_row_bounded.
  split; [rounded_cell 450%Z 950%Z |].
  split; [rounded_cell 80%Z 380%Z |].
  right. rounded_cell 100%Z 1400%Z.
Qed.

(** The grade stored in a generated water row is the rubric applied to
    the values before they are rounded for the table. *)
Lemma generate_water_record_grade ts source g r g' :
  generate_water_record (ts, source) g = Ok (r, g') ->
  exists ph tds turbidity dissolved_o2 nitrate,
    r !! "quality_grade"
    = Some (Str (water_quality_grade
                   (water_quality_score ph tds turbidity dissolved_o2 nitrate))) /\
    r !! "ph" = Some (Num (Py.round ph 2)) /\
    r !! "tds_ppm" = Some (Num (Py.round tds 1)) /\
    r !! "turbidity_ntu" = Some (Num (Py.round turbidity 2)) /\
    r !! "dissolved_oxygen_mg_l" = Some (Num (Py.round dissolved_o2 2)) /\
    r !! "nitrate_mg_l" = Some (Num (Py.round nitrate 2)).
Proof.
  unfold generate_water_record.
  destruct (getitem source_factors source) as [f | exc] eqn:E.
  - erewrite bind_ok by reflexivity.
    cbv zeta. repeat (rewrite bind_call; cbv beta).
    intros [= <- <-].
    do 5 eexists.
    repeat split; map_lookup; reflexivity.
  - erewrite bind_raise by reflexivity.
    discriminate.
Qed.

Lemma soil_row_bounded_nan col r :
  In col ["nitrogen_mg_kg"; "phosphorus_mg_kg"; "ec_mscm"] ->
  soil_row_bounded r -> soil_row_bounded (<[col := NaN]> r).
Proof.
  intros Hcol [Hph [Hom [Hm [Ht Hec]]]]. unfold soil_row_bounded.
  destruct Hcol as [<- | [<- | [<- | []]]];
    (split; [apply cell_within_insert_ne; [discriminate | assumption] |]);
    (split; [apply cell_within_insert_ne; [discriminate | assumption] |]);
    (split; [apply cell_within_insert_ne; [discriminate | assumption] |]);
    (split; [apply cell_within_insert_ne; [discriminate | assumption] |]).
  - destruct Hec; [left; now apply cell_missing_insert_ne
                  | right; now apply cell_within_insert_ne].
  - destruct Hec; [left; now apply cell_missing_insert_ne
                  | right; now apply cell_within_insert_ne].
  - left. apply cell_missing_insert.
Qed.

Lemma water_row_bounded_nan col r :
  In col ["turbidity_ntu"; "dissolved_oxygen_mg_l"] ->
  water_row_bounded r -> water_row_bounded (<[col := NaN]> r).
Proof.
  intros Hcol [Hph [Ht Hdo]]. unfold water_row_bounded.
  destruct Hcol as [<- | [<- | []]];
    (split; [apply cell_within_insert_ne; [discriminate | assumption] |]);
    (split; [apply cell_within_insert_ne; [discriminate | assumption] |]).
  - destruct Hdo; [left; now apply cell_missing_insert_ne
                  | right; now apply cell_within_insert_ne].
  - left. apply cell_missing_insert.
Qed.

(** *** The tables *)

Lemma generate_soil_data_bounded n g :
  (0 < n)%nat ->
  exists df g',
    generate_soil_data n g = Ok (df, g') /\
    length (rows df) = n /\
    Forall soil_row_bounded (rows df).
Proof.
  intros Hn. unfold generate_soil_data.
  destruct (repeatM_call n (np_randint 0 (365 * 2 * 24)) g) as [ts [g1 [E1 Hts]]].
  erewrite bind_ok by exact E1. cbv zeta. rewrite bind_call.
  set (zones := (np_choice (map fst ZONE_PROFILES) None n g1).1).
  set (g2 := (np_choice (map fst ZONE_PROFILES) None n g1).2).
  assert (length zones = n) as Hzl by (apply np_choice_length; discriminate).
  assert (Forall (fun z => In z (map fst ZONE_PROFILES)) zones) as Hze.
  { apply Forall_forall. intros z Hz. apply list_elem_of_In in Hz.
    exact (np_choice_elem _ _ _ _ _ Hz). }
  destruct (mapM_ok (fun tz => In tz.2 (map fst ZONE_PROFILES)) soil_row_bounded
              generate_soil_record (zip (sort ts) zones) g2)
    as [records [g3 [E3 [Hlen Hrows]]]].
  { intros [t z] g0 Hz. now apply generate_soil_record_ok. }
  { exact (zip_Forall_snd (fun z => In z (map fst ZONE_PROFILES)) _ _ Hze). }
  erewrite bind_ok by exact E3.
  rewrite zip_length_same, sort_length, Hts in Hlen
    by now rewrite sort_length, Hts, Hzl.
  apply inject_all_ok; cbn [rows pd_DataFrame]; try assumption.
  destruct records as [| r records]; [cbn in Hlen; lia |].
  cbn [columns pd_DataFrame].
  repeat (apply Forall_cons; split;
          [split; [unfold SOIL_COLUMNS; set_solver
                  | intros r0; apply soil_row_bounded_nan; cbn; tauto] |]).
  apply Forall_nil_2.
Qed.

Lemma generate_water_data_bounded n g :
  (0 < n)%nat ->
  exists df g',
    generate_water_data n g = Ok (df, g') /\
    length (rows df) = n /\
    Forall water_row_bounded (rows df).
Proof.
  intros Hn. unfold generate_water_data.
  destruct (repeatM_call n (np_randint 0 (365 * 2 * 24)) g) as [ts [g1 [E1 Hts]]].
  erewrite bind_ok by exact E1. cbv zeta. rewrite bind_call.
  match goal with
  | |- context [np_choice ?a ?p n g1] =>
      set (sources := (np_choice a p n g1).1);
      set (g2 := (np_choice a p n g1).2);
      assert (length sources = n) as Hzl by (apply np_choice_length; discriminate);
      assert (Forall (fun z => In z a) sources) as Hze
  end.
  { apply Forall_forall. intros z Hz. apply list_elem_of_In in Hz.
    exact (np_choice_elem _ _ _ _ _ Hz). }
  destruct (mapM_ok (fun tz => In tz.2 (map fst source_factors)) water_row_bounded
              generate_water_record (zip (sort ts) sources) g2)
    as [records [g3 [E3 [Hlen Hrows]]]].
  { intros [t z] g0 Hz. now apply generate_water_record_ok. }
  { exact (zip_Forall_snd (fun z => In z (map fst source_factors)) _ _ Hze). }
  erewrite bind_ok by exact E3.
  rewrite zip_length_same, sort_length, Hts in Hlen
    by now rewrite sort_length, Hts, Hzl.
  apply inject_all_ok; cbn [rows pd_DataFrame]; try assumption.
  destruct records as [| r records]; [cbn in Hlen; lia |].
  cbn [columns pd_DataFrame].
  repeat (apply Forall_cons; split;
          [split; [unfold WATER_COLUMNS; set_solver
                  | intros r0; apply water_row_bounded_nan; cbn; tauto] |]).
  apply Forall_nil_2.
Qed.

End SimulatorFacts.

(** C8, as the code has it: whatever the random draws, a soil table of
    n > 0 records is produced and in each row ph lies in [4.0, 9.0],
    organic_matter_pct in [0.5, 12.0], moisture_pct in [2, 80],
    soil_temperature_c in [5, 45], and ec_mscm is either the missing-value
    marker or in [0.1, 5.0]; a water table of n > 0 records is produced
    and in each row ph lies in [4.5, 9.5], water_temperature_c in [8, 38],
    and dissolved_oxygen_mg_l is either the missing-value marker or in
    [1, 14]. *)
Theorem generated_fields_within_bounds
    (G : Type) (H : Numpy G) (n : nat) (g : G) :
  (0 < n)%nat ->
  (exists df g',
      generate_soil_data n g = Ok (df, g') /\
      length (rows df) = n /\
      Forall soil_row_bounded (rows df)) /\
  (exists df g',
      generate_water_data n g = Ok (df, g') /\
      length (rows df) = n /\
      Forall water_row_bounded (rows df)).
Proof.
  intros Hn. split.
  - now apply generate_soil_data_bounded.
  - now apply generate_water_data_bounded.
Qed.

Lemma generated_fields_within_bounds_witness :
  (exists df g',
      generate_soil_data (H := flat_numpy (1#2)) 1 tt = Ok (df, g') /\
      length (rows df) = 1%nat /\
      Forall soil_row_bounded (rows df)) /\
  (exists df g',
      generate_water_data (H := flat_numpy (1#2)) 1 tt = Ok (df, g') /\
      length (rows df) = 1%nat /\
      Forall water_row_bounded (rows df)).
Proof.
  apply (generated_fields_within_bounds unit (flat_numpy (1#2)) 1 tt). lia.
Defined.

(** C8, as the claim words it, fails: when the uniform draw of the
    missing-value mask is below the rate (here 0), the generated soil row
    has no number in ec_mscm, and the generated water row none in
    dissolved_oxygen_mg_l. *)
Lemma generated_ec_and_oxygen_can_be_missing :
  (exists df g' r,
      generate_soil_data (H := flat_numpy 0) 1 tt = Ok (df, g') /\
      In r (rows df) /\
      r !! "ec_mscm" = Some NaN /\
      ~ cell_within r "ec_mscm" 0.1 5.0) /\
  (exists df g' r,
      generate_water_data (H := flat_numpy 0) 1 tt = Ok (df, g') /\
      In r (rows df) /\
      r !! "dissolved_oxygen_mg_l" = Some NaN /\
      ~ cell_within r "dissolved_oxygen_mg_l" 1 14).
Proof.
  split.
  - eexists _, _, _. split; [vm_compute; reflexivity |].
    split; [left; reflexivity |].
    split; [vm_compute; reflexivity |].
    intros [q [Hq _]]. vm_compute in Hq. discriminate Hq.
  - eexists _, _, _. split; [vm_compute; reflexivity |].
    split; [left; reflexivity |].
    split; [vm_compute; reflexivity |].
    intros [q [Hq _]]. vm_compute in Hq. discriminate Hq.
Qed.

(** C9 on the code: with zero records the soil and the water simulator
    build a frame without rows or columns, and the injection of missing
    values raises on it; the weather simulator, which injects nothing,
    returns the empty table. *)
Theorem generate_zero_records (G : Type) (H : Numpy G) (g : G) :
  generate_soil_data 0 g = Raise no_index_error /\
  generate_water_data 0 g = Raise no_index_error /\
  generate_weather_data 0 g = Ok ({| columns := []; rows := [] |}, g).
Proof.
  split; [apply generate_soil_data_zero |].
  split; [apply generate_water_data_zero | apply generate_weather_data_zero].
Qed.

(** * Further properties of the scoring rules *)

(** ** Rounding is monotone *)

Lemma rint_ge (a : Z) x : inject_Z a <= x -> (a <= Py.rint x)%Z.
Proof.
  intros Ha.
  assert (a <= Qfloor x)%Z as Hfa.
  { rewrite <- (Qfloor_Z a). now apply Qfloor_resp_le. }
  destruct (rint_cases x) as [[-> _] | [-> _]]; lia.
Qed.

Lemma rint_monotone x y : x <= y -> (Py.rint x <= Py.rint y)%Z.
Proof.
  intros Hxy.
  destruct (Z_le_gt_dec (Py.rint x) (Py.rint y)) as [Hle | Hgt]; [exact Hle |].
  exfalso.
  pose proof (rint_near x) as Hx. pose proof (rint_near y) as Hy.
  apply Qabs_Qle_condition in Hx, Hy.
  assert (Py.rint y + 1 <= Py.rint x)%Z as Hz by lia.
  rewrite Zle_Qle, inject_Z_plus in Hz. change (inject_Z 1) with 1 in Hz.
  assert (x == y) as Heq by lra.
  rewrite (rint_proper x y Heq) in Hgt. lia.
Qed.

Lemma scale_pos d : 0 < inject_Z (10 ^ Z.of_nat d).
Proof. rewrite <- (Zlt_Qlt 0). apply Z.pow_pos_nonneg; lia. Qed.

Lemma round_monotone d x y : x <= y -> Py.round x d <= Py.round y d.
Proof.
  intros Hxy. unfold Py.round.
  pose proof (scale_pos d) as Hsc.
  set (sc := inject_Z (10 ^ Z.of_nat d)) in *.
  apply Qmult_le_compat_r; [| apply Qlt_le_weak, Qinv_lt_0_compat, Hsc].
  rewrite <- Zle_Qle. apply rint_monotone.
  apply Qmult_le_compat_r; lra.
Qed.

(** Rounding keeps a lower bound that has at most [d] decimals. *)
Lemma round_lower d (a : Z) lo x :
  lo * inject_Z (10 ^ Z.of_nat d) == inject_Z a ->
  lo <= x -> lo <= Py.round x d.
Proof.
  intros Ha Hlo. unfold Py.round.
  pose proof (scale_pos d) as Hsc.
  set (sc := inject_Z (10 ^ Z.of_nat d)) in *.
  apply Qle_shift_div_l; [exact Hsc |]. rewrite Ha, <- Zle_Qle.
  apply rint_ge. rewrite <- Ha. apply Qmult_le_compat_r; lra.
Qed.

(** ** Soil health score: missing fields and range *)

(** X1: the score is defined exactly when the row has all seven fields;
    a row without one of them raises [KeyError]. *)
Theorem soil_health_score_defined_iff (row : gmap string Q) :
  is_Some (generate_soil_health_score row) <->
  is_Some (row !! "nitrogen_mg_kg") /\ is_Some (row !! "phosphorus_mg_kg") /\
  is_Some (row !! "potassium_mg_kg") /\ is_Some (row !! "ph") /\
  is_Some (row !! "organic_matter_pct") /\ is_Some (row !! "moisture_pct") /\
  is_Some (row !! "ec_mscm").
Proof.
  unfold generate_soil_health_score.
  destruct (row !! "nitrogen_mg_kg") as [n |]; cbn;
    [| split; [intros [? [=]] | intros [[? [=]] _]]].
  destruct (row !! "phosphorus_mg_kg") as [p |]; cbn;
    [| split; [intros [? [=]] | intros (_ & [? [=]] & _)]].
  destruct (row !! "potassium_mg_kg") as [k |]; cbn;
    [| split; [intros [? [=]] | intros (_ & _ & [? [=]] & _)]].
  destruct (row !! "ph") as [ph |]; cbn;
    [| split; [intros [? [=]] | intros (_ & _ & _ & [? [=]] & _)]].
  destruct (row !! "organic_matter_pct") as [om |]; cbn;
    [| split; [intros [? [=]] | intros (_ & _ & _ & _ & [? [=]] & _)]].
  destruct (row !! "moisture_pct") as [m |]; cbn;
    [| split; [intros [? [=]] | intros (_ & _ & _ & _ & _ & [? [=]] & _)]].
  destruct (row !! "ec_mscm") as [ec |]; cbn;
    [| split; [intros [? [=]] | intros (_ & _ & _ & _ & _ & _ & [? [=]])]].
  split; [intros _; repeat split; eauto | intros _; eauto].
Qed.

Lemma nutrient_points_range value ideal sensitivity :
  0 < sensitivity ->
  0 <= SoilScoreSpec.nutrient value ideal sensitivity <= 10.
Proof.
  intros Hs. unfold SoilScoreSpec.nutrient.
  assert (0 <= Qabs (value - ideal) / sensitivity) as Hd.
  { apply Qle_shift_div_l; [exact Hs |]. rewrite Qmult_0_l. apply Qabs_nonneg. }
  destruct (Q.max_spec 0 (10 - Qabs (value - ideal) / sensitivity))
    as [[? ->] | [? ->]]; lra.
Qed.

Lemma soil_total_range n p k ph om m ec :
  10 <= SoilScoreSpec.total n p k ph om m ec <= 100.
Proof.
  unfold SoilScoreSpec.total, SoilScoreSpec.npk.
  pose proof (nutrient_points_range n 80 8 eq_refl).
  pose proof (nutrient_points_range p 45 5 eq_refl).
  pose proof (nutrient_points_range k 60 6 eq_refl).
  unfold SoilScoreSpec.ph_points, SoilScoreSpec.organic_matter_points,
    SoilScoreSpec.moisture_points, SoilScoreSpec.ec_points.
  repeat case_decide; lra.
Qed.

(** A row that has a score has the seven fields. *)
Lemma soil_score_fields (row : gmap string Q) s :
  generate_soil_health_score row = Some s ->
  exists n p k ph om m ec,
    row !! "nitrogen_mg_kg" = Some n /\ row !! "phosphorus_mg_kg" = Some p /\
    row !! "potassium_mg_kg" = Some k /\ row !! "ph" = Some ph /\
    row !! "organic_matter_pct" = Some om /\ row !! "moisture_pct" = Some m /\
    row !! "ec_mscm" = Some ec.
Proof.
  unfold generate_soil_health_score.
  destruct (row !! "nitrogen_mg_kg") as [n |]; cbn; [| discriminate].
  destruct (row !! "phosphorus_mg_kg") as [p |]; cbn; [| discriminate].
  destruct (row !! "potassium_mg_kg") as [k |]; cbn; [| discriminate].
  destruct (row !! "ph") as [ph |]; cbn; [| discriminate].
  destruct (row !! "organic_matter_pct") as [om |]; cbn; [| discriminate].
  destruct (row !! "moisture_pct") as [m |]; cbn; [| discriminate].
  destruct (row !! "ec_mscm") as [ec |]; cbn; [| discriminate].
  intros _. exists n, p, k, ph, om, m, ec. repeat split.
Qed.

(** X2: a score that is returned lies in [10, 100], and so does the
    sum of its components before rounding: organic matter, moisture and
    EC always contribute at least 5, 3 and 2 points and no component
    exceeds its maximum, so the clamp to [0, 100] never changes the
    sum. *)
Theorem soil_health_score_range (row : gmap string Q) s :
  generate_soil_health_score row = Some s ->
  10 <= s <= 100 /\
  exists n p k ph om m ec,
    row !! "nitrogen_mg_kg" = Some n /\ row !! "phosphorus_mg_kg" = Some p /\
    row !! "potassium_mg_kg" = Some k /\ row !! "ph" = Some ph /\
    row !! "organic_matter_pct" = Some om /\ row !! "moisture_pct" = Some m /\
    row !! "ec_mscm" = Some ec /\
    10 <= SoilScoreSpec.total n p k ph om m ec <= 100 /\
    SoilScoreSpec.claimed n p k ph om m ec
    == SoilScoreSpec.total n p k ph om m ec.
Proof.
  intros Hs.
  destruct (soil_score_fields row s Hs)
    as (n & p & k & ph & om & m & ec & Hn & Hp & Hk & Hph & Hom & Hm & Hec).
  pose proof (soil_total_range n p k ph om m ec) as Ht.
  rewrite (soil_score_rounded row n p k ph om m ec) in Hs by assumption.
  injection Hs as <-.
  assert (10 <= Py.round (SoilScoreSpec.total n p k ph om m ec) 1 <= 100) as Hr.
  { apply (round_range 1 100 1000); [reflexivity | reflexivity |].
    apply soil_total_range. }
  assert (SoilScoreSpec.rounded n p k ph om m ec
          == Py.round (SoilScoreSpec.total n p k ph om m ec) 1) as Heq.
  { unfold SoilScoreSpec.rounded.
    rewrite Q.max_l by lra. apply Q.min_l. lra. }
  split; [rewrite Heq; exact Hr |].
  exists n, p, k, ph, om, m, ec.
  do 7 (split; [assumption |]). split; [exact Ht |].
  unfold SoilScoreSpec.claimed.
  rewrite Q.max_l by lra. apply Q.min_l. lra.
Qed.

Lemma soil_health_score_range_witness :
  generate_soil_health_score row_n81 = Some 99.9 /\ 10 <= 99.9 <= 100.
Proof.
  assert (generate_soil_health_score row_n81 = Some 99.9) as E
      by (vm_compute; reflexivity).
  split; [exact E | exact (proj1 (soil_health_score_range row_n81 99.9 E))].
Defined.

(** ** Deficiency diagnosis: recommendations *)

Lemma nutrient_block_recommendations key name v t result :
  recommendations
    (if Py.lt v (moderate t) then
       extend_recommendations (AMENDMENT_RECOMMENDATIONS key)
         (append_deficiency
            {| nutrient := name; value := v;
               d_severity := if Py.lt v (low t) then "Critical" else "Low" |}
            result)
     else result)
  = (recommendations result
       ++ if decide (v < moderate t) then AMENDMENT_RECOMMENDATIONS key else [])%list.
Proof.
  case_cmp; case_decide; try (exfalso; lra); cbn;
    [reflexivity | now rewrite app_nil_r].
Qed.

Lemma ph_block_recommendations ph result :
  recommendations
    (if Py.lt ph DEFICIENCY_THRESHOLDS.ph_low then
       extend_recommendations (AMENDMENT_RECOMMENDATIONS pH_low)
         (append_deficiency
            {| nutrient := "pH (Acidic)"; value := ph; d_severity := "Imbalanced" |}
            result)
     else if Py.gt ph DEFICIENCY_THRESHOLDS.ph_high then
       extend_recommendations (AMENDMENT_RECOMMENDATIONS pH_high)
         (append_deficiency
            {| nutrient := "pH (Alkaline)"; value := ph; d_severity := "Imbalanced" |}
            result)
     else result)
  = (recommendations result
       ++ if decide (ph < 5.5) then AMENDMENT_RECOMMENDATIONS pH_low
          else if decide (8.0 < ph) then AMENDMENT_RECOMMENDATIONS pH_high
          else [])%list.
Proof.
  unfold Py.gt, DEFICIENCY_THRESHOLDS.ph_low, DEFICIENCY_THRESHOLDS.ph_high.
  repeat case_cmp; repeat case_decide; try (exfalso; lra); cbn;
    solve [reflexivity | now rewrite app_nil_r].
Qed.

Lemma closing_block_recommendations result :
  recommendations
    (match deficiencies result with
     | [] => result
     | _ :: _ =>
         if str_in "Critical" (map d_severity (deficiencies result))
         then set_severity "critical" result
         else set_severity "moderate" result
     end)
  = recommendations result.
Proof.
  destruct (deficiencies result); [reflexivity |].
  now destruct (str_in _ _).
Qed.

(** The recommendations are the amendment lists of the raised flags, in
    the order nitrogen, phosphorus, potassium, pH. *)
Lemma diagnose_recommendations (r : gmap string Q) :
  recommendations (diagnose r) =
    ((if decide (get r "nitrogen_mg_kg" 0 < 60)
      then AMENDMENT_RECOMMENDATIONS N_deficient else []) ++
     (if decide (get r "phosphorus_mg_kg" 0 < 25)
      then AMENDMENT_RECOMMENDATIONS P_deficient else []) ++
     (if decide (get r "potassium_mg_kg" 0 < 35)
      then AMENDMENT_RECOMMENDATIONS K_deficient else []) ++
     (if decide (get r "ph" 7.0 < 5.5) then AMENDMENT_RECOMMENDATIONS pH_low
      else if decide (8.0 < get r "ph" 7.0) then AMENDMENT_RECOMMENDATIONS pH_high
      else []))%list.
Proof.
  unfold diagnose. cbv zeta.
  rewrite closing_block_recommendations, ph_block_recommendations.
  rewrite !nutrient_block_recommendations. cbn [recommendations app].
  now rewrite <- !app_assoc.
Qed.

(** X3: a diagnosis has no flag exactly when it has no recommendation,
    exactly when its severity is "none"; it has at most four flags (pH is
    acidic or alkaline, never both) and at most twelve recommendations,
    three per deficient nutrient and two (acidic) or three (alkaline) for
    pH. *)
Theorem diagnose_flags_recommendations (r : gmap string Q) :
  (deficiencies (diagnose r) = [] <-> recommendations (diagnose r) = []) /\
  (deficiencies (diagnose r) = [] <-> severity (diagnose r) = "none") /\
  (length (deficiencies (diagnose r)) <= 4)%nat /\
  (length (recommendations (diagnose r)) <= 12)%nat /\
  (3 * length (deficiencies (diagnose r))
   - (if decide (get r "ph" 7.0 < 5.5)%Q then 1 else 0)
   = length (recommendations (diagnose r)))%nat.
Proof.
  rewrite diagnose_deficiencies, diagnose_recommendations, diagnose_severity.
  unfold DiagnosisSpec.nutrient_flag, DiagnosisSpec.ph_flag, DiagnosisSpec.overall.
  generalize (get r "nitrogen_mg_kg" 0) (get r "phosphorus_mg_kg" 0)
    (get r "potassium_mg_kg" 0) (get r "ph" 7.0).
  intros n p k ph.
  destruct (decide (n < 60)), (decide (p < 25)), (decide (k < 35)),
    (decide (ph < 5.5)), (decide (8.0 < ph)); try (exfalso; lra);
    cbn [app length AMENDMENT_RECOMMENDATIONS];
    (split; [split; intros; solve [reflexivity | discriminate] |]);
    (split; [| repeat split; cbn; lia]);
    (split; [intros; repeat case_decide; solve [reflexivity | discriminate | exfalso; lra | exfalso; tauto]
            | try discriminate;
              repeat case_decide; intros; solve [reflexivity | discriminate | exfalso; lra | exfalso; tauto]]).
Qed.

(** X4: the diagnosis reads the four fields nitrogen, phosphorus,
    potassium and pH only: writing any other field into the reading does
    not change it. *)
Theorem diagnose_ignores_other_fields (r : gmap string Q) key v :
  key <> "nitrogen_mg_kg" -> key <> "phosphorus_mg_kg" ->
  key <> "potassium_mg_kg" -> key <> "ph" ->
  diagnose (<[key := v]> r) = diagnose r.
Proof.
  intros Hn Hp Hk Hph.
  apply diagnose_ext; now apply get_insert_other.
Qed.

Lemma diagnose_ignores_other_fields_witness :
  diagnose (<["moisture_pct" := 12]> reading_n30) = diagnose reading_n30.
Proof.
  apply diagnose_ignores_other_fields; discriminate.
Defined.

(** ** Irrigation suitability: unchecked and missing parameters *)

Lemma item_issues_length format_number (reading : gmap string Q) param lim :
  (forall mn mx, l_min lim = Some mn -> l_max lim = Some mx -> mn <= mx) ->
  (length (item_issues format_number reading (param, lim)) <= 1)%nat.
Proof.
  intros Hlim. unfold item_issues.
  destruct (reading !! param) as [v |]; [| cbn; lia].
  destruct (l_max lim) as [mx |], (l_min lim) as [mn |];
    repeat case_decide; cbn; try lia.
  exfalso. specialize (Hlim mn mx eq_refl eq_refl). lra.
Qed.

Lemma item_issues_missing format_number (reading : gmap string Q) param lim :
  reading !! param = None ->
  item_issues format_number reading (param, lim) = [].
Proof. intros E. unfold item_issues. now rewrite E. Qed.

(** X5: the assessment lists at most five issues, one per checked
    parameter; a reading that has none of the five checked parameters is
    suitable, with no issue: a missing measurement is never a violation. *)
Theorem irrigation_suitability_missing
    (format_number : Q -> string) (reading : gmap string Q) :
  let a := assess_irrigation_suitability format_number reading in
  (length (issues a) <= 5)%nat /\
  (reading !! "ph" = None -> reading !! "tds_ppm" = None ->
   reading !! "chloride_mg_l" = None -> reading !! "sulfate_mg_l" = None ->
   reading !! "hardness_mg_l" = None ->
   suitable a = true /\ issues a = [] /\
   recommendation a = "Suitable for irrigation").
Proof.
  intros a. subst a. split.
  - rewrite assess_issues. unfold IRRIGATION_LIMITS. cbn [flat_map].
    rewrite !length_app. cbn [length].
    repeat match goal with
           | |- context [length (item_issues ?f ?r (?p, ?l))] =>
               let H := fresh "H" in
               assert (length (item_issues f r (p, l)) <= 1)%nat as H
                   by (apply item_issues_length; cbn; intros ? ? [= <-] [= <-]; lra
                       || (apply item_issues_length; cbn; intros ? ? [=]));
               revert H;
               generalize (length (item_issues f r (p, l)))
           end.
    intros; lia.
  - intros Hph Htds Hcl Hso4 Hhard.
    assert (issues (assess_irrigation_suitability format_number reading) = [])
      as Hi.
    { rewrite assess_issues. unfold IRRIGATION_LIMITS. cbn [flat_map].
      now rewrite !item_issues_missing by assumption. }
    assert (suitable (assess_irrigation_suitability format_number reading) = true)
      as Hs.
    { rewrite assess_suitable, <- assess_issues, Hi.
      now apply bool_decide_eq_true_2. }
    split; [exact Hs |]. split; [exact Hi |].
    revert Hs. unfold assess_irrigation_suitability.
    destruct (fold_left _ _ _) as [i ok]. cbn. now intros ->.
Qed.

Lemma irrigation_suitability_missing_witness :
  suitable (assess_irrigation_suitability format_sample reading_no_ph) = true.
Proof.
  apply (irrigation_suitability_missing format_sample reading_no_ph);
    reflexivity.
Defined.

(** ** Water quality score *)

(** X6: the water quality score is a multiple of 10 between 0 and 100. *)
Theorem water_quality_score_steps (ph tds turbidity dissolved_o2 nitrate : Q) :
  exists k : Z,
    (0 <= k <= 10)%Z /\
    water_quality_score ph tds turbidity dissolved_o2 nitrate = (10 * k)%Z.
Proof.
  unfold water_quality_score.
  repeat match goal with
         | |- context [if ?b then _ else _] => destruct b
         end;
    match goal with
    | |- exists k, _ /\ ?s = _ =>
        let v := eval vm_compute in (s / 10)%Z in exists v
    end;
    (split; [lia | reflexivity]).
Qed.

(** ** Irrigation need is monotone *)

(** X7: with the soil type fixed, the irrigation need does not decrease
    when the evapotranspiration estimate rises, when the rainfall falls or
    when the soil is drier. *)
Theorem irrigation_need_monotone_all soil m m' eto eto' rain rain' :
  eto <= eto' -> rain' <= rain -> m' <= m ->
  irrigation_need_mm (irrigation_columns
    {| soil_type := soil; moisture_pct := m;
       evapotranspiration_est := eto; rainfall_mm := rain |})
  <= irrigation_need_mm (irrigation_columns
    {| soil_type := soil; moisture_pct := m';
       evapotranspiration_est := eto'; rainfall_mm := rain' |}).
Proof.
  intros He Hr Hm. cbn. unfold Py.clip.
  apply Q.min_le_compat_r, Q.max_le_compat_r. lra.
Qed.

Lemma irrigation_need_monotone_all_witness :
  irrigation_need_mm (irrigation_columns
    {| soil_type := "Clay"; moisture_pct := 30;
       evapotranspiration_est := 2; rainfall_mm := 10 |})
  <= irrigation_need_mm (irrigation_columns
    {| soil_type := "Clay"; moisture_pct := 20;
       evapotranspiration_est := 4; rainfall_mm := 0 |}).
Proof.
  apply irrigation_need_monotone_all; lra.
Defined.

(** ** Heat index *)

(** X8: the heat index is 1.1 T - 10.3 + 0.047 H rounded to one decimal:
    it is within 0.05 of that line and does not decrease when the
    temperature or the humidity rises. *)
Theorem heat_index_monotone T T' H H' :
  T <= T' -> H <= H' ->
  compute_heat_index T H <= compute_heat_index T' H' /\
  Qabs (compute_heat_index T H - (1.1 * T - 10.3 + 0.047 * H)) <= 1#20.
Proof.
  intros HT HH. unfold compute_heat_index. split.
  - apply round_monotone. lra.
  - pose proof (round1_near
                  (0.5 * (T + 61.0 + (T - 68.0) * 1.2 + H * 0.094))) as Hr.
    apply Qabs_Qle_condition in Hr. apply Qabs_Qle_condition. split; lra.
Qed.

Lemma heat_index_monotone_witness :
  compute_heat_index 30 40 <= compute_heat_index 35 80.
Proof.
  apply (heat_index_monotone 30 35 40 80); lra.
Defined.

(** ** Training labels against the live diagnosis *)

Lemma pd_cut_severity v lo md ad :
  0 <= lo -> lo <= md -> md <= ad -> ad <= 999 ->
  pd_cut v [0; lo; md; ad; 999] Labels.severity_labels =
    if decide (v <= 0) then None
    else if decide (v <= lo) then Some "Critical"
    else if decide (v <= md) then Some "Low"
    else if decide (v <= ad) then Some "Moderate"
    else if decide (v <= 999) then Some "Adequate"
    else None.
Proof.
  intros H0 H1 H2 H3. cbn [pd_cut Labels.severity_labels].
  repeat (case_cmp; cbn [andb]); repeat case_decide;
    solve [reflexivity | exfalso; lra].
Qed.

Lemma as_reading_get row :
  get (Labels.as_reading row) "nitrogen_mg_kg" 0 = Labels.nitrogen_mg_kg row /\
  get (Labels.as_reading row) "phosphorus_mg_kg" 0 = Labels.phosphorus_mg_kg row /\
  get (Labels.as_reading row) "potassium_mg_kg" 0 = Labels.potassium_mg_kg row /\
  get (Labels.as_reading row) "ph" 7.0 = Labels.ph row.
Proof.
  unfold get, Labels.as_reading.
  repeat split;
    repeat (rewrite lookup_insert_ne by discriminate);
    first [now rewrite lookup_insert_eq | now rewrite lookup_singleton_eq].
Qed.

(** A nutrient flag of the diagnosis. *)
Lemma nutrient_flag_in name v lo md d :
  In d (DiagnosisSpec.nutrient_flag name v lo md) <->
  v < md /\
  d = {| nutrient := name; value := v;
         d_severity := if decide (v < lo) then "Critical" else "Low" |}.
Proof.
  unfold DiagnosisSpec.nutrient_flag. case_decide; cbn; split;
    try tauto; intros; intuition (subst; auto).
Qed.

Lemma ph_flag_in ph d :
  In d (DiagnosisSpec.ph_flag ph) ->
  nutrient d = "pH (Acidic)" \/ nutrient d = "pH (Alkaline)".
Proof.
  unfold DiagnosisSpec.ph_flag. repeat case_decide; cbn;
    intros Hin; try (destruct Hin as [<- | []]); try destruct Hin; cbn; tauto.
Qed.

Lemma diagnose_nitrogen_flag row s :
  In {| nutrient := "Nitrogen"; value := Labels.nitrogen_mg_kg row; d_severity := s |}
     (deficiencies (diagnose (Labels.as_reading row)))
  <-> Labels.nitrogen_mg_kg row < 60 /\
      s = if decide (Labels.nitrogen_mg_kg row < 40) then "Critical" else "Low".
Proof.
  rewrite diagnose_deficiencies.
  destruct (as_reading_get row) as (-> & -> & -> & ->).
  rewrite !in_app_iff, !nutrient_flag_in. split.
  - intros [[H [= E]] | [[_ [=]] | [[_ [=]] | H]]]; [tauto |].
    apply ph_flag_in in H. cbn in H. destruct H; discriminate.
  - intros [H ->]. left. split; [exact H | reflexivity].
Qed.

Lemma diagnose_phosphorus_flag row s :
  In {| nutrient := "Phosphorus"; value := Labels.phosphorus_mg_kg row; d_severity := s |}
     (deficiencies (diagnose (Labels.as_reading row)))
  <-> Labels.phosphorus_mg_kg row < 25 /\
      s = if decide (Labels.phosphorus_mg_kg row < 15) then "Critical" else "Low".
Proof.
  rewrite diagnose_deficiencies.
  destruct (as_reading_get row) as (-> & -> & -> & ->).
  rewrite !in_app_iff, !nutrient_flag_in. split.
  - intros [[_ [=]] | [[H [= E]] | [[_ [=]] | H]]]; [tauto |].
    apply ph_flag_in in H. cbn in H. destruct H; discriminate.
  - intros [H ->]. right. left. split; [exact H | reflexivity].
Qed.

Lemma diagnose_potassium_flag row s :
  In {| nutrient := "Potassium"; value := Labels.potassium_mg_kg row; d_severity := s |}
     (deficiencies (diagnose (Labels.as_reading row)))
  <-> Labels.potassium_mg_kg row < 35 /\
      s = if decide (Labels.potassium_mg_kg row < 25) then "Critical" else "Low".
Proof.
  rewrite diagnose_deficiencies.
  destruct (as_reading_get row) as (-> & -> & -> & ->).
  rewrite !in_app_iff, !nutrient_flag_in. split.
  - intros [[_ [=]] | [[_ [=]] | [[H [= E]] | H]]]; [tauto |].
    apply ph_flag_in in H. cbn in H. destruct H; discriminate.
  - intros [H ->]. right. right. left. split; [exact H | reflexivity].
Qed.

Lemma astype_int_one b : Labels.astype_int b = 1%Z <-> b = true.
Proof. destruct b; cbn; split; intros; solve [reflexivity | discriminate]. Qed.

Lemma diagnose_ph_flag row :
  (exists d, In d (deficiencies (diagnose (Labels.as_reading row)))
             /\ d_severity d = "Imbalanced")
  <-> Labels.ph row < 5.5 \/ 8.0 < Labels.ph row.
Proof.
  rewrite diagnose_deficiencies.
  destruct (as_reading_get row) as (-> & -> & -> & ->).
  split.
  - intros [d [Hin Hd]]. rewrite !in_app_iff, !nutrient_flag_in in Hin.
    destruct Hin as [[_ ->] | [[_ ->] | [[_ ->] | Hin]]];
      try (cbn in Hd; case_decide; discriminate).
    unfold DiagnosisSpec.ph_flag in Hin.
    repeat case_decide; tauto.
  - intros Hph. unfold DiagnosisSpec.ph_flag.
    destruct (decide (Labels.ph row < 5.5)) as [Hlo | Hlo].
    + eexists. rewrite !in_app_iff. split; [do 3 right; left; reflexivity |].
      reflexivity.
    + destruct (decide (8.0 < Labels.ph row)) as [Hhi | Hhi]; [| tauto].
      eexists. rewrite !in_app_iff. split; [do 3 right; left; reflexivity |].
      reflexivity.
Qed.

(** X9: the training labels agree with the live diagnosis of the same
    four values.  Each of the flags N_deficient, P_deficient, K_deficient
    and pH_imbalanced is 1 exactly when [diagnose] raises the matching
    flag; and for a positive nutrient value that is not exactly on its
    low threshold, the severity label is the severity that [diagnose]
    reports. *)
Theorem labels_agree_with_diagnosis (row : Labels.soil_values) :
  let l := Labels.label_row row in
  let dx := deficiencies (diagnose (Labels.as_reading row)) in
  let n := Labels.nitrogen_mg_kg row in
  let p := Labels.phosphorus_mg_kg row in
  let k := Labels.potassium_mg_kg row in
  (Labels.N_deficient l = 1%Z <->
   exists s, In {| nutrient := "Nitrogen"; value := n; d_severity := s |} dx) /\
  (Labels.P_deficient l = 1%Z <->
   exists s, In {| nutrient := "Phosphorus"; value := p; d_severity := s |} dx) /\
  (Labels.K_deficient l = 1%Z <->
   exists s, In {| nutrient := "Potassium"; value := k; d_severity := s |} dx) /\
  (Labels.pH_imbalanced l = 1%Z <->
   exists d, In d dx /\ d_severity d = "Imbalanced") /\
  (forall s, 0 < n -> ~ n == 40 ->
     In {| nutrient := "Nitrogen"; value := n; d_severity := s |} dx ->
     Labels.N_severity l = Some s) /\
  (forall s, 0 < p -> ~ p == 15 ->
     In {| nutrient := "Phosphorus"; value := p; d_severity := s |} dx ->
     Labels.P_severity l = Some s) /\
  (forall s, 0 < k -> ~ k == 25 ->
     In {| nutrient := "Potassium"; value := k; d_severity := s |} dx ->
     Labels.K_severity l = Some s).
Proof.
  intros l dx n p k. subst l dx n p k.
  unfold Labels.label_row.
  cbn [Labels.N_deficient Labels.P_deficient Labels.K_deficient
       Labels.pH_imbalanced Labels.N_severity Labels.P_severity
       Labels.K_severity low moderate adequate
       DEFICIENCY_THRESHOLDS.nitrogen DEFICIENCY_THRESHOLDS.phosphorus
       DEFICIENCY_THRESHOLDS.potassium].
  rewrite !astype_int_one.
  rewrite !pd_cut_severity by lra.
  setoid_rewrite diagnose_nitrogen_flag.
  setoid_rewrite diagnose_phosphorus_flag.
  setoid_rewrite diagnose_potassium_flag.
  rewrite diagnose_ph_flag.
  unfold Py.gt, DEFICIENCY_THRESHOLDS.ph_low, DEFICIENCY_THRESHOLDS.ph_high.
  rewrite !lt_spec, orb_true_iff, !lt_spec.
  repeat split; try tauto;
    try (intros H; eexists; split; [exact H | reflexivity]);
    try (intros [s [H _]]; exact H);
    intros s Hpos Hne [Hlt ->];
    repeat case_decide; solve [reflexivity | exfalso; lra].
Qed.

Lemma labels_agree_with_diagnosis_witness :
  Labels.N_severity (Labels.label_row row_n50) = Some "Low".
Proof.
  apply (labels_agree_with_diagnosis row_n50).
  - reflexivity.
  - discriminate.
  - apply diagnose_nitrogen_flag. split; reflexivity.
Defined.

(** X10: on a threshold the two disagree.  At exactly the low threshold
    (N = 40) the label is "Critical" and the diagnosis says "Low"; at
    exactly the moderate threshold (N = 60) the flag N_deficient is 0
    although the severity label is "Low"; a value of 0 or less gets no
    severity label although the diagnosis says "Critical". *)
Theorem labels_boundaries (row : Labels.soil_values) :
  let l := Labels.label_row row in
  let dx := deficiencies (diagnose (Labels.as_reading row)) in
  let n := Labels.nitrogen_mg_kg row in
  (n == 40 ->
   Labels.N_severity l = Some "Critical" /\
   In {| nutrient := "Nitrogen"; value := n; d_severity := "Low" |} dx) /\
  (n == 60 ->
   Labels.N_deficient l = 0%Z /\ Labels.N_severity l = Some "Low") /\
  (n <= 0 ->
   Labels.N_severity l = None /\
   In {| nutrient := "Nitrogen"; value := n; d_severity := "Critical" |} dx).
Proof.
  intros l dx n. subst l dx n.
  unfold Labels.label_row.
  cbn [Labels.N_deficient Labels.N_severity low moderate adequate
       DEFICIENCY_THRESHOLDS.nitrogen].
  rewrite !pd_cut_severity by lra.
  rewrite !diagnose_nitrogen_flag.
  repeat split; try lra;
    repeat case_decide; try solve [reflexivity | exfalso; lra].
  unfold Labels.astype_int. case_cmp; [exfalso; lra | reflexivity].
Qed.

Lemma labels_boundaries_witness :
  Labels.N_severity (Labels.label_row row_n40) = Some "Critical" /\
  In {| nutrient := "Nitrogen"; value := 40; d_severity := "Low" |}
     (deficiencies (diagnose (Labels.as_reading row_n40))).
Proof.
  apply (labels_boundaries row_n40). reflexivity.
Defined.

(** ** Advice of the soil analyzer *)

Lemma predict_recommendations saved_model (r : gmap string Q) :
  SoilAnalyzer.recommendations (SoilAnalyzer.predict saved_model r) =
    match predict_warnings r with
    | [] => [SoilAnalyzer.all_good]
    | _ :: _ => predict_warnings r
    end.
Proof.
  unfold SoilAnalyzer.predict, predict_warnings, Py.gt.
  cbn [SoilAnalyzer.recommendations].
  generalize (get r "nitrogen_mg_kg" 0) (get r "phosphorus_mg_kg" 0)
    (get r "potassium_mg_kg" 0) (get r "ph" 7) (get r "organic_matter_pct" 3).
  intros n p k ph om.
  repeat (case_cmp; cbn [app]); repeat case_decide;
    solve [reflexivity | exfalso; lra].
Qed.

Lemma get_ph_default (r : gmap string Q) : get r "ph" 7 == get r "ph" 7.0.
Proof. unfold get. now destruct (r !! "ph"). Qed.

(** X11: the advice of [predict] is never empty and has at most five
    lines; it is the single all-good line exactly when N >= 40, P >= 20,
    K >= 30, pH in [5.5, 8.0] and organic matter >= 2 (missing fields
    read as 0, 0, 0, 7 and 3).  Its thresholds are looser than those of
    [diagnose]: a reading that [diagnose] finds without any deficiency
    gets the all-good line unless its organic matter is low, and a
    reading with the all-good line is never diagnosed "critical". *)
Theorem predict_advice (saved_model : list Q -> Q) (r : gmap string Q) :
  let out := SoilAnalyzer.predict saved_model r in
  SoilAnalyzer.recommendations out <> [] /\
  (length (SoilAnalyzer.recommendations out) <= 5)%nat /\
  (SoilAnalyzer.recommendations out = [SoilAnalyzer.all_good] <->
   40 <= get r "nitrogen_mg_kg" 0 /\ 20 <= get r "phosphorus_mg_kg" 0 /\
   30 <= get r "potassium_mg_kg" 0 /\
   5.5 <= get r "ph" 7 /\ get r "ph" 7 <= 8.0 /\
   2.0 <= get r "organic_matter_pct" 3) /\
  (severity (diagnose r) = "none" -> 2.0 <= get r "organic_matter_pct" 3 ->
   SoilAnalyzer.recommendations out = [SoilAnalyzer.all_good]) /\
  (SoilAnalyzer.recommendations out = [SoilAnalyzer.all_good] ->
   severity (diagnose r) <> "critical").
Proof.
  intros out. subst out.
  rewrite predict_recommendations, diagnose_severity.
  unfold predict_warnings, DiagnosisSpec.overall.
  pose proof (get_ph_default r) as Hph. revert Hph.
  generalize (get r "nitrogen_mg_kg" 0) (get r "phosphorus_mg_kg" 0)
    (get r "potassium_mg_kg" 0) (get r "ph" 7) (get r "ph" 7.0)
    (get r "organic_matter_pct" 3).
  intros n p k ph ph' om Hph.
  unfold SoilAnalyzer.low_nitrogen, SoilAnalyzer.low_phosphorus,
    SoilAnalyzer.low_potassium, SoilAnalyzer.acidic_soil,
    SoilAnalyzer.alkaline_soil, SoilAnalyzer.low_organic_matter,
    SoilAnalyzer.all_good.
  destruct (decide (n < 40)), (decide (p < 20)), (decide (k < 30)),
    (decide (ph < 5.5)), (decide (8.0 < ph)), (decide (om < 2.0));
    try (exfalso; lra); cbn [app length];
    (split; [discriminate |]);
    (split; [lia |]);
    (split; [split; [first [solve [intros [=]] | intros _; repeat split; lra]
                    | intros; solve [reflexivity | exfalso; lra]] |]);
    (split; [intros Hs Hom;
             repeat case_decide;
             solve [reflexivity | discriminate | exfalso; lra | exfalso; tauto]
            | intros Hall;
              repeat case_decide;
              solve [discriminate | exfalso; lra]]).
Qed.

Lemma predict_advice_witness :
  SoilAnalyzer.recommendations (SoilAnalyzer.predict (fun _ => 72) reading_no_ph)
  = [SoilAnalyzer.all_good].
Proof.
  apply (predict_advice (fun _ => 72) reading_no_ph);
    [reflexivity | discriminate].
Defined.

(** ** Crop suitability score and the recommended crop *)

Lemma string_eqb_spec s t : String.eqb s t = true <-> s = t.
Proof. apply String.eqb_eq. Qed.

(** One [if]/[elif] step of the score and one plain [if] step. *)
Lemma tier2_step (a c : bool) (s full part : Z) :
  (0 <= part < full)%Z ->
  let r := if a then (s + full)%Z else if c then (s + part)%Z else s in
  (s <= r <= s + full)%Z /\ (r = (s + full)%Z <-> a = true).
Proof.
  intros H. destruct a, c; cbn; split; try lia;
    split; intros; solve [reflexivity | discriminate | lia].
Qed.

Lemma tier1_step (a : bool) (s full : Z) :
  (0 < full)%Z ->
  let r := if a then (s + full)%Z else s in
  (s <= r <= s + full)%Z /\ (r = (s + full)%Z <-> a = true).
Proof.
  intros H. destruct a; cbn; split; try lia;
    split; intros; solve [reflexivity | discriminate | lia].
Qed.

(** X12: the suitability score of a crop lies between 0 and 110, and it
    is 110 exactly when the crop fits the soil row in every respect: N,
    P, K, pH and temperature inside the crop's ranges and the season
    matching (or the crop being Annual or Year-round). *)
Theorem crop_score_range (soil_row : CropRecommender.soil_row) (crop : crop_row) :
  (0 <= CropRecommender.score_of soil_row crop <= 110)%Z /\
  (CropRecommender.score_of soil_row crop = 110%Z
   <-> CropRecommender.fits soil_row crop).
Proof.
  unfold CropRecommender.score_of, CropRecommender.crop_score,
    CropRecommender.fits.
  generalize (default "Kharif" (CropRecommender.season soil_row)).
  intros season. cbv zeta.
  repeat match goal with
         | |- context [Py.lt ?a ?b] => generalize (Py.lt a b); intros ?
         end.
  rewrite <- !le_spec, <- !String.eqb_eq, <- !andb_true_iff, <- !orb_true_iff,
    orb_assoc.
  repeat match goal with
         | |- context [Py.le ?a ?b && Py.le ?c ?d] =>
             generalize (Py.le a b && Py.le c d); intros ?
         end.
  match goal with
  | |- context [(?x || ?y || ?z)%bool] => generalize (x || y || z)%bool; intros ?
  end.
  match goal with
  | |- context [if ?a then (0 + 25)%Z else if ?c then _ else _] =>
      pose proof (tier2_step a c 0 25 10 ltac:(lia)) as H1; cbv zeta in H1;
      revert H1; generalize (if a then (0 + 25)%Z else if c then (0 + 10)%Z else 0%Z)
  end.
  intros s1 [R1 E1].
  match goal with
  | |- context [if ?a then (s1 + 20)%Z else if ?c then _ else _] =>
      pose proof (tier2_step a c s1 20 8 ltac:(lia)) as H2; cbv zeta in H2;
      revert H2; generalize (if a then (s1 + 20)%Z else if c then (s1 + 8)%Z else s1)
  end.
  intros s2 [R2 E2].
  match goal with
  | |- context [if ?a then (s2 + 20)%Z else if ?c then _ else _] =>
      pose proof (tier2_step a c s2 20 8 ltac:(lia)) as H3; cbv zeta in H3;
      revert H3; generalize (if a then (s2 + 20)%Z else if c then (s2 + 8)%Z else s2)
  end.
  intros s3 [R3 E3].
  match goal with
  | |- context [if ?a then (s3 + 20)%Z else if ?c then _ else _] =>
      pose proof (tier2_step a c s3 20 8 ltac:(lia)) as H4; cbv zeta in H4;
      revert H4; generalize (if a then (s3 + 20)%Z else if c then (s3 + 8)%Z else s3)
  end.
  intros s4 [R4 E4].
  match goal with
  | |- context [if ?a then (s4 + 15)%Z else s4] =>
      pose proof (tier1_step a s4 15 ltac:(lia)) as H5; cbv zeta in H5;
      revert H5; generalize (if a then (s4 + 15)%Z else s4)
  end.
  intros s5 [R5 E5].
  match goal with
  | |- context [if ?a then (s5 + 10)%Z else s5] =>
      pose proof (tier1_step a s5 10 ltac:(lia)) as H6; cbv zeta in H6;
      revert H6; generalize (if a then (s5 + 10)%Z else s5)
  end.
  intros s6 [R6 E6].
  split; [lia |].
  rewrite <- E1, <- E2, <- E3, <- E4, <- E5, <- E6. lia.
Qed.

(** The head of the sorted list, one element at a time. *)
Lemma sort_by_score_head x l :
  hd_error (CropRecommender.sort_by_score (x :: l)) =
    match hd_error (CropRecommender.sort_by_score l) with
    | None => Some x
    | Some h => if (h.2 <=? x.2)%Z then Some x else Some h
    end.
Proof.
  cbn [CropRecommender.sort_by_score fold_right].
  fold (CropRecommender.sort_by_score l).
  destruct (CropRecommender.sort_by_score l) as [| h s]; [reflexivity |].
  cbn [CropRecommender.insert_by_score hd_error].
  destruct (Z.leb_spec (- x.2) (- h.2)), (Z.leb_spec h.2 x.2);
    solve [reflexivity | lia].
Qed.

(** The head of the sorted list is the first element of highest score. *)
Lemma sort_by_score_first_best (l : list (string * Z)) :
  match hd_error (CropRecommender.sort_by_score l) with
  | None => l = []
  | Some h =>
      exists pre post,
        l = (pre ++ h :: post)%list /\
        (forall y, In y l -> (y.2 <= h.2)%Z) /\
        (forall y, In y pre -> (y.2 < h.2)%Z)
  end.
Proof.
  induction l as [| x l IH]; [reflexivity |].
  rewrite sort_by_score_head.
  destruct (hd_error (CropRecommender.sort_by_score l)) as [h |].
  - destruct IH as (pre & post & -> & Hmax & Hpre).
    destruct (Z.leb_spec h.2 x.2) as [Hle | Hlt].
    + exists [], (pre ++ h :: post)%list. split; [reflexivity |].
      split; [| intros y []].
      intros y [<- | Hy]; [lia |]. specialize (Hmax y Hy). lia.
    + exists (x :: pre), post. split; [reflexivity |].
      split.
      * intros y [<- | Hy]; [lia | now apply Hmax].
      * intros y [<- | Hy]; [lia | now apply Hpre].
  - subst l. exists [], []. split; [reflexivity |].
    split; [| intros y []].
    intros y [<- | []]. lia.
Qed.

(** X13: for a soil row the recommended crop is the first crop of the
    table, in table order, whose suitability score is the highest;
    labelling raises [IndexError] exactly when the crop table is empty. *)
Theorem recommended_crop_first_best
    (crop_db : list crop_row) (soil_row : CropRecommender.soil_row) :
  (crop_db = [] <->
   CropRecommender.label_row crop_db soil_row = Raise "IndexError") /\
  (forall record,
      CropRecommender.label_row crop_db soil_row = Ok record ->
      exists pre best post,
        crop_db = (pre ++ best :: post)%list /\
        CropRecommender.recommended_crop record = crop_name best /\
        (forall c, In c crop_db ->
                   (CropRecommender.score_of soil_row c
                    <= CropRecommender.score_of soil_row best)%Z) /\
        (forall c, In c pre ->
                   (CropRecommender.score_of soil_row c
                    < CropRecommender.score_of soil_row best)%Z)).
Proof.
  unfold CropRecommender.label_row. cbv zeta.
  fold (CropRecommender.score_of soil_row).
  set (g := fun c => (crop_name c, CropRecommender.score_of soil_row c)).
  change (map _ crop_db) with (map g crop_db).
  pose proof (sort_by_score_first_best (map g crop_db)) as Hbest.
  destruct (CropRecommender.sort_by_score (map g crop_db)) as [| [name sc] s];
    cbn [hd_error] in Hbest.
  - apply map_eq_nil in Hbest. split; [tauto |]. intros record [=].
  - destruct Hbest as (pre & post & Hl & Hmax & Hpre).
    split.
    + split; [| discriminate].
      intros ->. cbn in Hl. destruct (app_cons_not_nil _ _ _ Hl).
    + intros record [= <-]. cbn [CropRecommender.recommended_crop].
      apply map_eq_app in Hl as (pre' & rest & -> & <- & Hrest).
      apply map_eq_cons in Hrest as (best & post' & -> & Hb & <-).
      unfold g in Hb. injection Hb as <- <-.
      exists pre', best, post'. split; [reflexivity |].
      split; [reflexivity |]. split.
      * intros c Hc. apply (Hmax (g c)). now apply in_map.
      * intros c Hc. apply (Hpre (g c)). now apply in_map.
Qed.

Lemma recommended_crop_first_best_witness :
  exists pre best post,
    generate_crop_database = (pre ++ best :: post)%list /\
    crop_name best = "Rice" /\
    (forall c, In c generate_crop_database ->
               (CropRecommender.score_of soil_row_paddy c
                <= CropRecommender.score_of soil_row_paddy best)%Z).
Proof.
  destruct (proj2 (recommended_crop_first_best generate_crop_database soil_row_paddy)
              {| CropRecommender.features := soil_row_paddy;
                 CropRecommender.season_encoded := 0;
                 CropRecommender.recommended_crop := "Rice" |})
    as (pre & best & post & Hdb & Hname & Hmax & _).
  - vm_compute. reflexivity.
  - exists pre, best, post. cbn in Hname. split; [exact Hdb |].
    split; [now symmetry | exact Hmax].
Defined.

(** ** The crop reference table *)

(** With a crop table that is not empty a soil row gets its record: the
    row itself with a crop of the table. *)
Lemma label_row_ok crop_db (row : CropRecommender.soil_row) :
  crop_db <> [] ->
  exists record,
    CropRecommender.label_row crop_db row = Ok record /\
    CropRecommender.features record = row /\
    In (CropRecommender.recommended_crop record) (map crop_name crop_db).
Proof.
  intros Hdb. unfold CropRecommender.label_row. cbv zeta.
  match goal with
  | |- context [CropRecommender.sort_by_score ?l] =>
      pose proof (sort_by_score_first_best l) as Hb;
      destruct (CropRecommender.sort_by_score l) as [| [name sc] s]
  end; cbn [hd_error] in Hb.
  - apply map_eq_nil in Hb. contradiction.
  - destruct Hb as (pre & post & Hl & _).
    eexists. split; [reflexivity |]. split; [reflexivity |].
    cbn [CropRecommender.recommended_crop].
    apply (f_equal (map fst)) in Hl.
    rewrite map_map, map_app in Hl. cbn [map fst] in Hl.
    change (map (fun c : crop_row => crop_name c) crop_db)
      with (map crop_name crop_db) in Hl.
    rewrite Hl, in_app_iff. right. now left.
Qed.

Lemma label_rows_ok (soil_df : list CropRecommender.soil_row) crop_db :
  crop_db <> [] ->
  exists records,
    CropRecommender.label_rows soil_df crop_db = Ok records /\
    map CropRecommender.features records = soil_df /\
    Forall (fun r => In (CropRecommender.recommended_crop r) (map crop_name crop_db))
           records.
Proof.
  intros Hdb. induction soil_df as [| row rest IH]; cbn.
  - exists []. repeat split. constructor.
  - destruct IH as (records & -> & Hrows & Hall).
    destruct (label_row_ok crop_db row Hdb) as (record & -> & Hf & Hin).
    exists (record :: records). split; [reflexivity |].
    split; [cbn; now rewrite Hf, Hrows | now constructor].
Qed.

(** X14: for a cleaned soil table with at least one row: with a crop
    table that is not empty the labelling returns one record per soil
    row, in the order of the rows and each with its row's values, and
    every recommended crop is a crop of the table; with an empty crop
    table it raises [IndexError]. *)
Theorem crop_dataset_total (soil_df : list CropRecommender.soil_row) crop_db :
  soil_df <> [] ->
  (crop_db <> [] ->
   exists records,
     CropRecommender.create_crop_recommendation_dataset soil_df crop_db = Ok records /\
     length records = length soil_df /\
     map CropRecommender.features records = soil_df /\
     Forall (fun r => In (CropRecommender.recommended_crop r) (map crop_name crop_db))
            records) /\
  (crop_db = [] ->
   CropRecommender.create_crop_recommendation_dataset soil_df crop_db
   = Raise "IndexError").
Proof.
  intros Hs. destruct soil_df as [| row rest]; [congruence |].
  unfold CropRecommender.create_crop_recommendation_dataset. split.
  - intros Hdb.
    destruct (label_rows_ok (row :: rest) crop_db Hdb) as (records & E & Hrows & Hall).
    exists records. split; [exact E |].
    split; [now rewrite <- Hrows, length_map |]. split; assumption.
  - intros ->. reflexivity.
Qed.

Lemma crop_dataset_total_witness :
  exists records,
    CropRecommender.create_crop_recommendation_dataset
      [soil_row_paddy; soil_row_paddy] generate_crop_database = Ok records /\
    length records = 2%nat.
Proof.
  destruct (proj1 (crop_dataset_total [soil_row_paddy; soil_row_paddy]
                     generate_crop_database ltac:(discriminate)))
    as (records & E & Hlen & _); [discriminate |].
  exists records. split; assumption.
Defined.

(** X15: the crop reference table has 40 crops with distinct names; in
    each row every minimum is at most its maximum, the water requirement
    and the expected yield are positive, and the season is Kharif, Rabi,
    Annual or Year-round (no crop is listed for Zaid). *)
Theorem crop_database_well_formed :
  length generate_crop_database = 40%nat /\
  NoDup (map crop_name generate_crop_database) /\
  Forall crop_well_formed generate_crop_database.
Proof.
  split; [reflexivity |]. split.
  - apply (bool_decide_unpack _). vm_compute. exact I.
  - unfold generate_crop_database.
    repeat (apply Forall_cons; split;
            [unfold crop_well_formed; cbn;
             repeat split; try (vm_compute; solve [discriminate | reflexivity]);
             tauto |]).
    apply Forall_nil_2.
Qed.

(** ** Simulated yield *)

Lemma round2_near x : Qabs (Py.round x 2 - x) <= 1#200.
Proof.
  unfold Py.round. change (inject_Z (10 ^ Z.of_nat 2)) with 100.
  pose proof (rint_near (x * 100)) as H.
  apply Qabs_Qle_condition in H. apply Qabs_Qle_condition.
  set (r := inject_Z (Py.rint (x * 100))) in *.
  assert (r / 100 == r * (1#100)) as -> by (field; discriminate).
  split; lra.
Qed.

Lemma mul_bound x X y Y :
  0 <= x <= X -> 0 <= y <= Y -> 0 <= x * y <= X * Y.
Proof.
  intros [Hx HX] [Hy HY]. split; [now apply Qmult_le_0_compat |].
  apply Qle_trans with (X * y).
  - apply Qmult_le_compat_r; assumption.
  - rewrite !(Qmult_comm X). apply Qmult_le_compat_r; lra.
Qed.

Lemma Qmult_le_l_nonneg c x y : 0 <= c -> x <= y -> c * x <= c * y.
Proof.
  intros Hc Hxy. rewrite !(Qmult_comm c). now apply Qmult_le_compat_r.
Qed.

Lemma clip_monotone x y lo hi : x <= y -> Py.clip x lo hi <= Py.clip y lo hi.
Proof.
  intros H. unfold Py.clip. now apply Q.min_le_compat_r, Q.max_le_compat_r.
Qed.

(** X16: for a row with a water requirement other than 0, the weather
    factor lies in [0.3, 1.3] and the
    simulated yield is at least 0.1; for a health score in [0, 100], a
    non-negative expected yield and a noise factor in [0.85, 1.15] the
    yield is at most max(0.1, 299/140 times the expected yield) + 0.005,
    and it does not decrease when the health score rises. *)
Theorem simulated_yield_bounds (row : YieldPredictor.merged_row) (noise : Q) :
  ~ YieldPredictor.water_requirement_mm row == 0 ->
  let out := YieldPredictor.yield_columns row noise in
  0.3 <= YieldPredictor.weather_factor out <= 1.3 /\
  0.1 <= YieldPredictor.actual_yield out /\
  (0 <= YieldPredictor.health_score row <= 100 ->
   0 <= YieldPredictor.expected_yield_tons_per_ha row ->
   0.85 <= noise <= 1.15 ->
   YieldPredictor.actual_yield out
   <= Qmax (YieldPredictor.expected_yield_tons_per_ha row * (299 # 140)) 0.1
      + (1 # 200)) /\
  (forall health',
      YieldPredictor.health_score row <= health' ->
      0 <= YieldPredictor.expected_yield_tons_per_ha row -> 0 <= noise ->
      YieldPredictor.actual_yield out
      <= YieldPredictor.actual_yield
           (YieldPredictor.yield_columns
              {| YieldPredictor.health_score := health';
                 YieldPredictor.temperature_c_weather :=
                   YieldPredictor.temperature_c_weather row;
                 YieldPredictor.rainfall_mm := YieldPredictor.rainfall_mm row;
                 YieldPredictor.water_requirement_mm :=
                   YieldPredictor.water_requirement_mm row;
                 YieldPredictor.expected_yield_tons_per_ha :=
                   YieldPredictor.expected_yield_tons_per_ha row |}
              noise)).
Proof.
  intros _ out. subst out. unfold YieldPredictor.yield_columns.
  cbn [YieldPredictor.weather_factor YieldPredictor.actual_yield
       YieldPredictor.health_score YieldPredictor.temperature_c_weather
       YieldPredictor.rainfall_mm YieldPredictor.water_requirement_mm
       YieldPredictor.expected_yield_tons_per_ha].
  set (wf := Py.clip _ 0.3 1.3).
  assert (0.3 <= wf <= 1.3) as Hwf by (apply clip_range; lra).
  set (e := YieldPredictor.expected_yield_tons_per_ha row).
  set (h := YieldPredictor.health_score row).
  split; [exact Hwf |]. split; [| split].
  - apply (round_lower 2 10); [reflexivity | apply Q.le_max_r].
  - intros Hh He Hu.
    pose proof (round2_near (Qmax (e * (h / 70) * wf * noise) 0.1)) as Hr.
    apply Qabs_Qle_condition in Hr.
    assert (e * (h / 70) * wf * noise <= e * (299 # 140)) as Hb.
    { assert (h / 70 == h * (1 # 70)) as -> by (field; discriminate).
      destruct (mul_bound e e (h * (1 # 70)) (10 # 7)) as [H1 H2]; [lra | lra |].
      destruct (mul_bound _ _ wf 1.3 (conj H1 H2)) as [H3 H4]; [lra |].
      destruct (mul_bound _ _ noise 1.15 (conj H3 H4)) as [H5 H6]; [lra |].
      lra. }
    assert (Qmax (e * (h / 70) * wf * noise) 0.1 <= Qmax (e * (299 # 140)) 0.1)
      by now apply Q.max_le_compat_r.
    lra.
  - intros h' Hh He Hu.
    apply round_monotone, Q.max_le_compat_r.
    assert (e * (h / 70) * wf * noise == e * wf * noise * (1 # 70) * h) as ->
        by (field; discriminate).
    assert (e * (h' / 70) * wf * noise == e * wf * noise * (1 # 70) * h') as ->
        by (field; discriminate).
    destruct (mul_bound e e wf wf) as [H1 _]; [lra | lra |].
    destruct (mul_bound (e * wf) (e * wf) noise noise) as [H2 _]; [lra | lra |].
    apply Qmult_le_l_nonneg; [lra | exact Hh].
Qed.

Lemma simulated_yield_bounds_witness :
  ~ YieldPredictor.water_requirement_mm row_rice_yield == 0 /\
  0.1 <= YieldPredictor.actual_yield (YieldPredictor.yield_columns row_rice_yield 1) /\
  YieldPredictor.actual_yield (YieldPredictor.yield_columns row_rice_yield 1)
  <= Qmax (YieldPredictor.expected_yield_tons_per_ha row_rice_yield * (299 # 140)) 0.1
     + (1 # 200).
Proof.
  assert (~ YieldPredictor.water_requirement_mm row_rice_yield == 0) as Hw
      by (unfold row_rice_yield; cbn [YieldPredictor.water_requirement_mm]; lra).
  split; [exact Hw |].
  pose proof (simulated_yield_bounds row_rice_yield 1 Hw) as H.
  cbv zeta in H. destruct H as (_ & Hlo & Hhi & _).
  split; [exact Hlo |].
  apply Hhi;
    unfold row_rice_yield;
    cbn [YieldPredictor.health_score YieldPredictor.expected_yield_tons_per_ha];
    lra.
Defined.

(** ** Zone schedule of the irrigation dashboard *)

Lemma col_max_ge (x : Q) l y : In y (x :: l) -> y <= fold_right Qmax x l.
Proof.
  induction l as [| z l IH]; cbn.
  - intros [<- | []]. apply Qle_refl.
  - intros [<- | [<- | Hy]].
    + eapply Qle_trans; [apply IH; now left | apply Q.le_max_r].
    + apply Q.le_max_l.
    + eapply Qle_trans; [apply IH; now right | apply Q.le_max_r].
Qed.

(** X17: for a zone with at least one row the entry is produced, with
    the crop and the soil type of the first row; priority, frequency and
    the irrigation flag always go together (High with Daily, Medium with
    "Every 2 days", Low with "Every 3-4 days", and Low exactly when no
    irrigation is needed); the reported average need is at least 15 in
    a High zone, between 5 and 15 in a Medium zone and at most 5 in a
    Low zone; and the reported maximum need is not below the rounded
    need of any of the last 30 rows. *)
Theorem zone_entry_consistent (zone_df : list IrrigationDashboard.zone_row) :
  zone_df <> [] ->
  exists s,
    IrrigationDashboard.zone_entry zone_df = Ok s /\
    (exists first rest,
        zone_df = first :: rest /\
        IrrigationDashboard.s_crop s = IrrigationDashboard.crop first /\
        IrrigationDashboard.s_soil_type s = IrrigationDashboard.soil_type first) /\
    (IrrigationDashboard.priority s = "High"
     <-> IrrigationDashboard.recommended_frequency s = "Daily") /\
    (IrrigationDashboard.priority s = "Medium"
     <-> IrrigationDashboard.recommended_frequency s = "Every 2 days") /\
    (IrrigationDashboard.priority s = "Low"
     <-> IrrigationDashboard.recommended_frequency s = "Every 3-4 days") /\
    (IrrigationDashboard.priority s = "Low"
     <-> IrrigationDashboard.needs_irrigation s = false) /\
    (IrrigationDashboard.priority s = "High"
     -> 15 <= IrrigationDashboard.avg_need_mm s) /\
    (IrrigationDashboard.priority s = "Medium"
     -> 5 <= IrrigationDashboard.avg_need_mm s <= 15) /\
    (IrrigationDashboard.priority s = "Low"
     -> IrrigationDashboard.avg_need_mm s <= 5) /\
    (forall row, In row (IrrigationDashboard.tail 30 zone_df) ->
       Py.round (IrrigationDashboard.predicted_need_mm row) 1
       <= IrrigationDashboard.max_need_mm s).
Proof.
  intros Hne. destruct zone_df as [| first rest]; [congruence |].
  unfold IrrigationDashboard.zone_entry. cbv zeta.
  eexists. split; [reflexivity |].
  cbn [IrrigationDashboard.priority IrrigationDashboard.recommended_frequency
       IrrigationDashboard.needs_irrigation IrrigationDashboard.avg_need_mm
       IrrigationDashboard.max_need_mm IrrigationDashboard.s_crop
       IrrigationDashboard.s_soil_type].
  split; [exists first, rest; repeat split |].
  set (recent := IrrigationDashboard.tail 30 (first :: rest)).
  set (need := IrrigationDashboard.mean
                 (map IrrigationDashboard.predicted_need_mm recent)).
  assert (Py.round 5 1 == 5 /\ Py.round 15 1 == 15) as [H5 H15]
      by (split; vm_compute; reflexivity).
  assert (forall row, In row recent ->
            Py.round (IrrigationDashboard.predicted_need_mm row) 1
            <= Py.round (IrrigationDashboard.col_max
                           (map IrrigationDashboard.predicted_need_mm recent)) 1)
    as Hmax.
  { intros row Hrow. apply round_monotone.
    apply (in_map IrrigationDashboard.predicted_need_mm) in Hrow.
    unfold IrrigationDashboard.col_max.
    destruct (map IrrigationDashboard.predicted_need_mm recent) as [| x l];
      [destruct Hrow | now apply col_max_ge]. }
  unfold Py.gt.
  destruct (Py.lt 15 need) eqn:E15; [apply lt_spec in E15 | apply lt_false in E15];
    (destruct (Py.lt 5 need) eqn:E5; [apply lt_spec in E5 | apply lt_false in E5]);
    try (exfalso; lra);
    refine (conj _ (conj _ (conj _ (conj _ (conj _ (conj _ (conj _ Hmax)))))));
    try (split; solve [reflexivity | discriminate]);
    try discriminate.
  - intros _. apply (round_lower 1 150); [reflexivity | lra].
  - intros _. split.
    + apply (round_lower 1 50); [reflexivity | lra].
    + rewrite <- H15. apply round_monotone. exact E15.
  - intros _. rewrite <- H5. apply round_monotone. exact E5.
Qed.

Lemma zone_entry_consistent_witness :
  exists s,
    IrrigationDashboard.zone_entry zone_dry = Ok s /\
    (IrrigationDashboard.priority s = "High"
     <-> IrrigationDashboard.recommended_frequency s = "Daily").
Proof.
  destruct (zone_entry_consistent zone_dry) as (s & E & _ & Hp & _);
    [discriminate |].
  exists s. split; [exact E | exact Hp].
Defined.

(** ** Evapotranspiration estimate: saturation and humidity *)

Section EtoMore.

Local Open Scope R_scope.

Lemma eto_rint_monotone x y : x <= y -> (Eto.rint x <= Eto.rint y)%Z.
Proof.
  intros Hxy.
  destruct (Z_le_gt_dec (Eto.rint x) (Eto.rint y)) as [Hle | Hgt]; [exact Hle |].
  exfalso.
  destruct (eto_rint_near x) as [Hx _]. destruct (eto_rint_near y) as [Hy _].
  apply Rabs_bound_inv in Hx, Hy.
  assert (Eto.rint y + 1 <= Eto.rint x)%Z as Hz by lia.
  apply IZR_le in Hz. rewrite plus_IZR in Hz.
  assert (x = y) as Heq by lra.
  rewrite Heq in Hgt. lia.
Qed.

Lemma eto_round_monotone x y : x <= y -> Eto.round x 2 <= Eto.round y 2.
Proof.
  intros Hxy. unfold Eto.round.
  replace (10 ^ 2) with 100 by (simpl; lra).
  assert (IZR (Eto.rint (x * 100)) <= IZR (Eto.rint (y * 100))) as H
      by (apply IZR_le, eto_rint_monotone; lra).
  lra.
Qed.

Lemma eto_clip_monotone x y : x <= y -> Eto.clip x 0 15 <= Eto.clip y 0 15.
Proof.
  intros Hxy. rewrite !eto_clip_cases.
  repeat match goal with
         | |- context [Rlt_dec ?a ?b] => destruct (Rlt_dec a b)
         end; lra.
Qed.

(** X18: for a temperature of at least -17.8 and a wind speed of at
    least -100 the estimate does not increase when the humidity rises,
    and it is 0 once the humidity reaches 100. *)
Theorem estimate_eto_humidity (T H H' S W : R) :
  -17.8 <= T -> -100 <= W -> H <= H' ->
  Eto.estimate_eto T H' S W <= Eto.estimate_eto T H S W /\
  (100 <= H -> Eto.estimate_eto T H S W = 0).
Proof.
  intros HT HW HH.
  assert (0 <= sqrt (Rabs (S + 1))) as Hs by apply sqrt_pos.
  set (r := sqrt (Rabs (S + 1))) in *.
  assert (0 <= 0.0023 * (T + 17.8) * r) as HA.
  { apply Rmult_le_pos; [lra | exact Hs]. }
  split.
  - unfold Eto.estimate_eto. fold r.
    apply eto_round_monotone, eto_clip_monotone.
    set (A := 0.0023 * (T + 17.8) * r) in *.
    apply Rmult_le_compat_r; [lra |].
    apply Rmult_le_compat_l; [exact HA | lra].
  - intros H100. unfold Eto.estimate_eto. fold r.
    set (A := 0.0023 * (T + 17.8) * r) in *.
    assert (A * (1 - H / 100) * (1 + 0.01 * W) <= 0) as Hle.
    { assert (0 <= A * (H / 100 - 1)) by (apply Rmult_le_pos; lra).
      assert (0 <= A * (H / 100 - 1) * (1 + 0.01 * W))
        by (apply Rmult_le_pos; lra).
      lra. }
    rewrite eto_clip_cases.
    destruct (Rlt_dec _ 0) as [Hlt | Hge].
    + unfold Eto.round. rewrite (eto_rint_value _ 0); [lra |].
      rewrite Rabs_right; lra.
    + assert (A * (1 - H / 100) * (1 + 0.01 * W) = 0) as -> by lra.
      destruct (Rlt_dec 15 0); [lra |].
      unfold Eto.round. rewrite (eto_rint_value _ 0); [lra |].
      rewrite Rabs_right; lra.
Qed.

Lemma estimate_eto_humidity_witness :
  Eto.estimate_eto 30 100 250 12 = 0.
Proof.
  apply (estimate_eto_humidity 30 100 100 250 12); lra.
Defined.

End EtoMore.

(** * Further properties of the simulators *)

Section SimulatorRelations.

Context {G : Type} `{Numpy G}.

Lemma insert_sorted_sorted x l :
  StronglySorted Z.le l -> StronglySorted Z.le (insert_sorted x l).
Proof.
  induction 1 as [| y l Hl IH Hy]; cbn.
  - repeat constructor.
  - destruct (Z.leb_spec x y) as [Hxy | Hxy].
    + constructor; [now constructor |].
      constructor; [exact Hxy |].
      eapply Forall_impl; [exact Hy |]. cbn. intros z Hz. lia.
    + constructor; [exact IH |].
      assert (forall z, In z (insert_sorted x l) -> z = x \/ In z l) as Hin.
      { clear. induction l as [| w l IH]; cbn.
        - intros z [<- | []]. now left.
        - intros z. destruct (x <=? w)%Z; cbn.
          + intros [<- | [<- | Hz]]; auto.
          + intros [<- | Hz]; [auto |]. destruct (IH z Hz); auto. }
      apply Forall_forall. intros z Hz. apply list_elem_of_In in Hz.
      destruct (Hin z Hz) as [-> | Hz']; [lia |].
      rewrite Forall_forall in Hy. apply Hy. now apply list_elem_of_In.
Qed.

Lemma sort_sorted l : StronglySorted Z.le (sort l).
Proof.
  induction l as [| x l IH]; cbn; [constructor |].
  now apply insert_sorted_sorted.
Qed.

Lemma mapM_rel {A B} (P : A -> Prop) (R : A -> B -> Prop)
    (f : A -> M G B) l g :
  (forall x g, P x -> exists b g', f x g = Ok (b, g') /\ R x b) ->
  Forall P l ->
  exists bs g', mapM f l g = Ok (bs, g') /\ Forall2 R l bs.
Proof.
  intros Hf Hl. revert g.
  induction Hl as [| x l Hx Hl IH]; intros g; cbn [mapM].
  - exists [], g. split; [reflexivity | constructor].
  - destruct (Hf x g Hx) as [b [g1 [E1 Hb]]].
    destruct (IH g1) as [bs [g2 [E2 Hbs]]].
    erewrite bind_ok by exact E1. erewrite bind_ok by exact E2.
    exists (b :: bs), g2. split; [reflexivity | now constructor].
Qed.

Lemma mask_rows_rel {A} (R : A -> gmap string cell -> Prop) col
    (mask : list bool) xs rs :
  (forall x r, R x r -> R x (<[col := NaN]> r)) ->
  length mask = length rs ->
  Forall2 R xs rs ->
  Forall2 R xs
    (zip_with (fun (b : bool) r => if b then <[col := NaN]> r else r) mask rs).
Proof.
  intros HR Hlen Hrs. revert mask Hlen.
  induction Hrs as [| x r xs rs Hr Hrs IH]; intros mask Hlen.
  - destruct mask; cbn; constructor.
  - destruct mask as [| b mask]; [discriminate Hlen |].
    injection Hlen as Hlen. cbn.
    constructor; [destruct b; auto | now apply IH].
Qed.

Lemma inject_missing_rel {A} (R : A -> gmap string cell -> Prop)
    n rate df col g xs :
  col ∈ columns df ->
  (forall x r, R x r -> R x (<[col := NaN]> r)) ->
  length (rows df) = n ->
  Forall2 R xs (rows df) ->
  exists df' g',
    inject_missing n rate df col g = Ok (df', g') /\
    columns df' = columns df /\
    Forall2 R xs (rows df').
Proof.
  intros Hcol HR Hlen Hrows. subst n.
  unfold inject_missing. rewrite bind_call.
  unfold lift, loc_set_nan. rewrite (bool_decide_eq_true_2 _ Hcol).
  eexists _, _. split; [reflexivity |]. cbn [columns rows].
  split; [reflexivity |].
  apply mask_rows_rel; try assumption.
  now rewrite length_map, np_random_length.
Qed.

Lemma inject_all_rel {A} (R : A -> gmap string cell -> Prop)
    n rate cols df g xs :
  Forall (fun col => col ∈ columns df /\
                     forall x r, R x r -> R x (<[col := NaN]> r)) cols ->
  length xs = n ->
  Forall2 R xs (rows df) ->
  exists df' g',
    foldM (inject_missing n rate) cols df g = Ok (df', g') /\
    columns df' = columns df /\
    Forall2 R xs (rows df').
Proof.
  revert df g.
  induction cols as [| col cols IH]; intros df g Hcols Hlen Hrows; cbn [foldM].
  - now exists df, g.
  - apply Forall_cons in Hcols as [[Hcol HR] Hcols].
    assert (length (rows df) = n) as Hlen'
        by (rewrite <- Hlen; symmetry; eapply Forall2_length; eassumption).
    destruct (inject_missing_rel R n rate df col g xs Hcol HR Hlen' Hrows)
      as [df1 [g1 [E [Hc Hrows1]]]].
    erewrite bind_ok by exact E.
    destruct (IH df1 g1) as [df2 [g2 [E2 [Hc2 Hrows2]]]]; try assumption.
    + now rewrite Hc.
    + exists df2, g2. split; [exact E2 |]. split; [congruence | exact Hrows2].
Qed.

Lemma zip_fst_same {A B} (l : list A) (k : list B) :
  length l = length k -> map fst (zip l k) = l.
Proof.
  revert k. induction l as [| x l IH]; intros [| y k]; cbn; try easy.
  intros [= Hlen]. now rewrite IH.
Qed.

Lemma zip_snd_same {A B} (l : list A) (k : list B) :
  length l = length k -> map snd (zip l k) = k.
Proof.
  revert k. induction l as [| x l IH]; intros [| y k]; cbn; try easy.
  intros [= Hlen]. now rewrite IH.
Qed.

Lemma Forall2_drop_left {A B} (P : B -> Prop) (l : list A) (k : list B) :
  Forall2 (fun _ b => P b) l k -> Forall P k.
Proof. induction 1; constructor; auto. Qed.

Lemma getitem_Ok_In {A} (d : list (string * A)) key v :
  getitem d key = Ok v -> In (key, v) d.
Proof.
  induction d as [| [k w] d IH]; cbn; [discriminate |].
  destruct (String.eqb_spec k key) as [-> | Hne].
  - intros [= ->]. now left.
  - intros Hg. right. now apply IH.
Qed.

(** The shape shared by the soil and the water simulator: random
    instants, sorted; one key drawn per instant; one record per pair;
    then the blanking of some columns. *)
Lemma table_rel (R : Z * string -> gmap string cell -> Prop)
    (keys : list string) (p : option (list Q))
    (record : Z * string -> M G (gmap string cell))
    (COLS : list string) (rate : Q) (cols : list string) n g :
  (0 < n)%nat ->
  keys <> [] ->
  (forall ts key g, In key keys ->
     exists r g', record (ts, key) g = Ok (r, g') /\ R (ts, key) r) ->
  Forall (fun col => col ∈ COLS /\
                     forall x r, R x r -> R x (<[col := NaN]> r)) cols ->
  exists df g' hours chosen,
    (timestamps ← repeatM n (call (np_randint 0 (365 * 2 * 24)));
     chosen ← call (np_choice keys p n);
     records ← mapM record (zip (sort timestamps) chosen);
     foldM (inject_missing n rate) cols (pd_DataFrame COLS records)) g
    = Ok (df, g') /\
    columns df = COLS /\
    StronglySorted Z.le hours /\
    length hours = n /\ length chosen = n /\
    Forall (fun key => In key keys) chosen /\
    Forall2 R (zip hours chosen) (rows df).
Proof.
  intros Hn Hkeys Hrec Hcols.
  destruct (repeatM_call n (np_randint 0 (365 * 2 * 24)) g) as [ts [g1 [E1 Hts]]].
  erewrite bind_ok by exact E1. rewrite bind_call.
  set (chosen := (np_choice keys p n g1).1).
  set (g2 := (np_choice keys p n g1).2).
  assert (length chosen = n) as Hzl by now apply np_choice_length.
  assert (Forall (fun z => In z keys) chosen) as Hze.
  { apply Forall_forall. intros z Hz. apply list_elem_of_In in Hz.
    exact (np_choice_elem _ _ _ _ _ Hz). }
  destruct (mapM_rel (fun tz => In tz.2 keys) R record (zip (sort ts) chosen) g2)
    as [records [g3 [E3 Hrows]]].
  { intros [t z] g0 Hz. now apply Hrec. }
  { exact (zip_Forall_snd (fun z => In z keys) _ _ Hze). }
  erewrite bind_ok by exact E3.
  assert (length (zip (sort ts) chosen) = n) as Hzip
      by (rewrite zip_length_same; rewrite sort_length; congruence).
  assert (columns (pd_DataFrame COLS records) = COLS) as Hc0.
  { apply Forall2_length in Hrows. rewrite Hzip in Hrows.
    destruct records; [cbn in Hrows; lia | reflexivity]. }
  destruct (inject_all_rel R n rate cols
              (pd_DataFrame COLS records) g3 (zip (sort ts) chosen))
    as [df [g4 [E4 [Hc Hdf]]]]; try assumption.
  { now rewrite Hc0. }
  exists df, g4, (sort ts), chosen.
  split; [exact E4 |]. split; [congruence |].
  split; [apply sort_sorted |].
  split; [now rewrite sort_length |]. split; [assumption |].
  split; assumption.
Qed.

(** *** One record *)

Lemma max_lower a b : a <= Py.max a b.
Proof. rewrite max_spec. apply Q.le_max_l. Qed.

Lemma water_quality_grade_in s :
  In (water_quality_grade s) ["A"; "B"; "C"; "D"; "F"].
Proof.
  unfold water_quality_grade.
  repeat match goal with
         | |- context [(?a >=? ?b)%Z] => destruct (a >=? b)%Z
         end; cbn; tauto.
Qed.

(** Read a key of a dict literal. *)
Ltac read_key :=
  repeat (rewrite lookup_insert_ne by discriminate);
  rewrite lookup_insert_eq.

Ltac floor_cell := eexists; split; [read_key; reflexivity | apply max_lower].

Lemma generate_soil_record_rows ts zone g :
  In zone (map fst ZONE_PROFILES) ->
  exists r g',
    generate_soil_record (ts, zone) g = Ok (r, g') /\
    soil_row_from (ts, zone) r /\ soil_row_floors r.
Proof.
  intros Hz. destruct (getitem_in ZONE_PROFILES zone Hz) as [profile Hp].
  unfold generate_soil_record.
  erewrite bind_ok by (unfold lift; rewrite Hp; reflexivity).
  cbv zeta. repeat (rewrite bind_call; cbv beta).
  eexists _, _. split; [reflexivity |]. split.
  - unfold soil_row_from. cbn [fst snd].
    split; [read_key; reflexivity |]. split; [read_key; reflexivity |].
    exists profile. split; [now apply getitem_Ok_In | read_key; reflexivity].
  - unfold soil_row_floors.
    split; [right; floor_cell |]. split; [right; floor_cell | floor_cell].
Qed.

Ltac floor_rounded a :=
  eexists; split;
  [ read_key; reflexivity
  | apply (round_lower _ a); [reflexivity | apply max_lower] ].

Lemma generate_water_record_rows ts source g :
  In source ["Borewell"; "River"; "Canal"; "Rainwater"] ->
  exists r g',
    generate_water_record (ts, source) g = Ok (r, g') /\
    water_row_from (ts, source) r /\ water_row_floors r /\ water_row_graded r.
Proof.
  intros Hz. destruct (getitem_in source_factors source Hz) as [f Hf].
  unfold generate_water_record.
  erewrite bind_ok by (unfold lift; rewrite Hf; reflexivity).
  cbv zeta. repeat (rewrite bind_call; cbv beta).
  eexists _, _. split; [reflexivity |]. split; [| split].
  - unfold water_row_from. cbn [fst snd].
    split; [read_key; reflexivity |]. split; [read_key; reflexivity |].
    split; [exact Hz |].
    eexists. split; [apply water_quality_grade_in | read_key; reflexivity].
  - unfold water_row_floors.
    split; [floor_rounded 100%Z |].
    split; [right; floor_rounded 10%Z |].
    split; [floor_rounded 100%Z |].
    split; [floor_rounded 10%Z |].
    split; [floor_rounded 10%Z | floor_rounded 50%Z].
  - unfold water_row_graded. do 5 eexists.
    split; [read_key; reflexivity |].
    split; [read_key; reflexivity |].
    split; [read_key; reflexivity |].
    split; [read_key; reflexivity |].
    split; right; read_key; reflexivity.
Qed.

Lemma generate_weather_record_rows ts g :
  exists r g',
    generate_weather_record ts g = Ok (r, g') /\
    r !! "timestamp" = Some (Str (strftime ts)) /\ weather_row_bounded r.
Proof.
  unfold generate_weather_record.
  cbv zeta. repeat (rewrite bind_call; cbv beta).
  eexists _, _. split; [reflexivity |].
  split; [read_key; reflexivity |].
  unfold weather_row_bounded.
  split.
  { eexists. split; [read_key; reflexivity |].
    apply (round_range _ 150%Z 1000%Z);
      [reflexivity | reflexivity | apply clip_range; lra]. }
  split.
  { eexists. split; [read_key; reflexivity |].
    apply (round_lower _ 0%Z); [reflexivity |].
    match goal with |- context [if ?b then _ else _] => destruct b end;
      [apply Qle_refl | apply max_lower]. }
  split; [floor_rounded 0%Z |]. split; [floor_rounded 0%Z |].
  eexists. split; [read_key; reflexivity | lia].
Qed.

(** *** Blanking a cell keeps what the rows state *)

Lemma cell_at_least_insert_ne r col key c lo :
  col <> key -> cell_at_least r key lo -> cell_at_least (<[col := c]> r) key lo.
Proof.
  intros Hne [q [Hq Hr]]. exists q. split; [| exact Hr].
  now rewrite lookup_insert_ne.
Qed.

Ltac keep_cell :=
  first [ apply cell_at_least_insert_ne; [discriminate | assumption]
        | apply cell_within_insert_ne; [discriminate | assumption]
        | rewrite lookup_insert_ne by discriminate; assumption ].

Ltac keep_or_blank H :=
  first [ left; apply cell_missing_insert
        | destruct H;
          [ left; apply cell_missing_insert_ne; [discriminate | assumption]
          | right; keep_cell ] ].

Lemma soil_row_from_nan col hz r :
  In col ["nitrogen_mg_kg"; "phosphorus_mg_kg"; "ec_mscm"] ->
  soil_row_from hz r -> soil_row_from hz (<[col := NaN]> r).
Proof.
  intros Hcol [Ht [Hz [p [Hp Hs]]]]. unfold soil_row_from.
  destruct Hcol as [<- | [<- | [<- | []]]];
    (split; [keep_cell |]); (split; [keep_cell |]);
    exists p; (split; [exact Hp | keep_cell]).
Qed.

Lemma soil_row_floors_nan col r :
  In col ["nitrogen_mg_kg"; "phosphorus_mg_kg"; "ec_mscm"] ->
  soil_row_floors r -> soil_row_floors (<[col := NaN]> r).
Proof.
  intros Hcol [Hn [Hp Hk]]. unfold soil_row_floors.
  destruct Hcol as [<- | [<- | [<- | []]]];
    (split; [keep_or_blank Hn |]); (split; [keep_or_blank Hp | keep_cell]).
Qed.

Lemma water_row_from_nan col hs r :
  In col ["turbidity_ntu"; "dissolved_oxygen_mg_l"] ->
  water_row_from hs r -> water_row_from hs (<[col := NaN]> r).
Proof.
  intros Hcol [Ht [Hs [Hin [grade [Hg Hq]]]]]. unfold water_row_from.
  destruct Hcol as [<- | [<- | []]];
    (split; [keep_cell |]); (split; [keep_cell |]); (split; [exact Hin |]);
    exists grade; (split; [exact Hg | keep_cell]).
Qed.

Lemma water_row_floors_nan col r :
  In col ["turbidity_ntu"; "dissolved_oxygen_mg_l"] ->
  water_row_floors r -> water_row_floors (<[col := NaN]> r).
Proof.
  intros Hcol [Htds [Hturb [Hh [Hcl [Hso Hno]]]]]. unfold water_row_floors.
  destruct Hcol as [<- | [<- | []]];
    (split; [keep_cell |]); (split; [keep_or_blank Hturb |]);
    (split; [keep_cell |]); (split; [keep_cell |]);
    (split; keep_cell).
Qed.

Lemma water_row_graded_nan col r :
  In col ["turbidity_ntu"; "dissolved_oxygen_mg_l"] ->
  water_row_graded r -> water_row_graded (<[col := NaN]> r).
Proof.
  intros Hcol [ph [tds [turb [d [no [Hg [Hph [Htds [Hno [Hturb Hdo]]]]]]]]]].
  exists ph, tds, turb, d, no.
  destruct Hcol as [<- | [<- | []]];
    (split; [keep_cell |]); (split; [keep_cell |]);
    (split; [keep_cell |]); (split; [keep_cell |]);
    (split; [keep_or_blank Hturb | keep_or_blank Hdo]).
Qed.

(** *** The tables *)

Lemma generate_soil_data_rows n g :
  (0 < n)%nat ->
  exists df g' hours zones,
    generate_soil_data n g = Ok (df, g') /\
    columns df = SOIL_COLUMNS /\
    StronglySorted Z.le hours /\
    length hours = n /\ length zones = n /\
    Forall (fun key => In key (map fst ZONE_PROFILES)) zones /\
    Forall2 soil_row_facts (zip hours zones) (rows df).
Proof.
  intros Hn. unfold generate_soil_data. cbv zeta.
  apply table_rel; [exact Hn | discriminate | |].
  - intros ts zone g0 Hz. now apply generate_soil_record_rows.
  - repeat (apply Forall_cons; split;
            [split; [apply list_elem_of_In; cbn; tauto
                    | intros x r [H1 H2]; split;
                      [apply soil_row_from_nan | apply soil_row_floors_nan];
                      solve [assumption | cbn; tauto]] |]).
    apply Forall_nil_2.
Qed.

Lemma generate_water_data_rows n g :
  (0 < n)%nat ->
  exists df g' hours sources,
    generate_water_data n g = Ok (df, g') /\
    columns df = WATER_COLUMNS /\
    StronglySorted Z.le hours /\
    length hours = n /\ length sources = n /\
    Forall (fun key => In key ["Borewell"; "River"; "Canal"; "Rainwater"]) sources /\
    Forall2 water_row_facts (zip hours sources) (rows df).
Proof.
  intros Hn. unfold generate_water_data. cbv zeta.
  apply table_rel; [exact Hn | discriminate | |].
  - intros ts source g0 Hz. now apply generate_water_record_rows.
  - repeat (apply Forall_cons; split;
            [split; [apply list_elem_of_In; cbn; tauto
                    | intros x r [H1 [H2 H3]]; split; [| split];
                      [apply water_row_from_nan | apply water_row_floors_nan
                      | apply water_row_graded_nan];
                      solve [assumption | cbn; tauto]] |]).
    apply Forall_nil_2.
Qed.

End SimulatorRelations.

Section WeatherTable.

Context {G : Type} `{Numpy G}.

Lemma regular_hours_sorted (s : Z) a n :
  (0 <= s)%Z ->
  StronglySorted Z.le (map (fun i => (Z.of_nat i * s)%Z) (seq a n)).
Proof.
  intros Hs. revert a. induction n as [| n IH]; intros a; cbn; constructor.
  - apply IH.
  - apply Forall_forall. intros h Hh. apply list_elem_of_In in Hh.
    apply in_map_iff in Hh as [i [<- Hi]]. apply in_seq in Hi. nia.
Qed.

Lemma regular_hours_within n :
  Forall within_two_years
    (map (fun i => (Z.of_nat i * (365 * 2 * 24 / Z.of_nat n))%Z) (seq 0 n)).
Proof.
  apply Forall_forall. intros h Hh. apply list_elem_of_In in Hh.
  apply in_map_iff in Hh as [i [<- Hi]]. apply in_seq in Hi.
  unfold within_two_years.
  assert (0 < Z.of_nat n)%Z as Hn by lia.
  pose proof (Z.mul_div_le (365 * 2 * 24) (Z.of_nat n) Hn) as Hle.
  assert (0 <= 365 * 2 * 24 / Z.of_nat n)%Z as Hs by (apply Z.div_pos; lia).
  set (s := (365 * 2 * 24 / Z.of_nat n)%Z) in *.
  split; [nia |].
  assert (Z.of_nat i * s <= Z.of_nat n * s - s)%Z by nia.
  destruct (Z.eq_dec s 0%Z) as [Hs0 | Hs0]; lia.
Qed.

Lemma generate_weather_data_rows n g :
  exists df g',
    generate_weather_data n g = Ok (df, g') /\
    Forall2 (fun h r => r !! "timestamp" = Some (Str (strftime h)) /\
                        weather_row_bounded r)
      (map (fun i => (Z.of_nat i * (365 * 2 * 24 / Z.of_nat n))%Z) (seq 0 n))
      (rows df).
Proof.
  unfold generate_weather_data. cbv zeta.
  set (hours := map _ (seq 0 n)).
  destruct (mapM_rel (fun _ => True)
              (fun h r => r !! "timestamp" = Some (Str (strftime h)) /\
                          weather_row_bounded r)
              generate_weather_record hours g)
    as [records [g1 [E Hrows]]].
  { intros h g0 _. apply generate_weather_record_rows. }
  { apply Forall_forall. intros; exact I. }
  erewrite bind_ok by exact E.
  eexists _, _. split; [reflexivity | exact Hrows].
Qed.

End WeatherTable.

Lemma Forall2_weaken {A B} (P Q : A -> B -> Prop) l k :
  (forall a b, P a b -> Q a b) -> Forall2 P l k -> Forall2 Q l k.
Proof. intros HPQ. induction 1; constructor; auto. Qed.

Lemma Forall2_right {A B} (P : A -> B -> Prop) (Q : B -> Prop) l k :
  (forall a b, P a b -> Q b) -> Forall2 P l k -> Forall Q k.
Proof. intros HPQ. induction 1; constructor; eauto. Qed.

(** ** The soil table *)

(** X19: whatever the random draws, the soil table of n > 0 records has
    the eleven columns of the record, and its rows come in chronological
    order: row i is stamped with the i-th of n instants in non-decreasing
    order, names a zone of ZONE_PROFILES and carries the soil type of
    that zone's profile. *)
Theorem soil_rows_chronological
    (G : Type) (H : Numpy G) (n : nat) (g : G) :
  (0 < n)%nat ->
  exists df g' hours zones,
    generate_soil_data n g = Ok (df, g') /\
    columns df = SOIL_COLUMNS /\
    StronglySorted Z.le hours /\
    length hours = n /\ length zones = n /\
    Forall2 soil_row_from (zip hours zones) (rows df).
Proof.
  intros Hn.
  destruct (generate_soil_data_rows n g Hn)
    as (df & g' & hours & zones & E & Hc & Hs & Hh & Hz & _ & Hrows).
  exists df, g', hours, zones. repeat (split; [assumption |]).
  eapply Forall2_weaken; [| exact Hrows]. now intros hz r [Hfrom _].
Qed.

Lemma soil_rows_chronological_witness :
  exists df g' hours zones,
    generate_soil_data (H := flat_numpy (1#2)) 1 tt = Ok (df, g') /\
    columns df = SOIL_COLUMNS /\
    StronglySorted Z.le hours /\
    length hours = 1%nat /\ length zones = 1%nat /\
    Forall2 (soil_row_from (H := flat_numpy (1#2))) (zip hours zones) (rows df).
Proof.
  apply (soil_rows_chronological unit (flat_numpy (1#2)) 1 tt). lia.
Defined.

(** X20: in every row of a generated soil table potassium_mg_kg is a
    number of at least 5 (it is never blanked), nitrogen_mg_kg is the
    missing-value marker or at least 5, and phosphorus_mg_kg is the
    missing-value marker or at least 2. *)
Theorem soil_rows_floors
    (G : Type) (H : Numpy G) (n : nat) (g : G) :
  (0 < n)%nat ->
  exists df g',
    generate_soil_data n g = Ok (df, g') /\
    length (rows df) = n /\
    Forall soil_row_floors (rows df).
Proof.
  intros Hn.
  destruct (generate_soil_data_rows n g Hn)
    as (df & g' & hours & zones & E & Hc & Hs & Hh & Hz & _ & Hrows).
  exists df, g'. split; [exact E |]. split.
  - apply Forall2_length in Hrows. rewrite <- Hrows.
    rewrite zip_length_same; congruence.
  - eapply Forall2_right; [| exact Hrows]. now intros hz r [_ Hfl].
Qed.

Lemma soil_rows_floors_witness :
  exists df g',
    generate_soil_data (H := flat_numpy (1#2)) 1 tt = Ok (df, g') /\
    length (rows df) = 1%nat /\
    Forall soil_row_floors (rows df).
Proof.
  apply (soil_rows_floors unit (flat_numpy (1#2)) 1 tt). lia.
Defined.

(** ** The water table *)

(** X21: the water table of n > 0 records has the twelve columns of the
    record and chronological rows: row i is stamped with the i-th of n
    instants in non-decreasing order, its source_type is one of Borewell,
    River, Canal and Rainwater, and its quality_grade is one of A, B, C,
    D and F, never missing. *)
Theorem water_rows_chronological
    (G : Type) (H : Numpy G) (n : nat) (g : G) :
  (0 < n)%nat ->
  exists df g' hours sources,
    generate_water_data n g = Ok (df, g') /\
    columns df = WATER_COLUMNS /\
    StronglySorted Z.le hours /\
    length hours = n /\ length sources = n /\
    Forall2 water_row_from (zip hours sources) (rows df).
Proof.
  intros Hn.
  destruct (generate_water_data_rows n g Hn)
    as (df & g' & hours & sources & E & Hc & Hs & Hh & Hz & _ & Hrows).
  exists df, g', hours, sources. repeat (split; [assumption |]).
  eapply Forall2_weaken; [| exact Hrows]. now intros hz r [Hfrom _].
Qed.

Lemma water_rows_chronological_witness :
  exists df g' hours sources,
    generate_water_data (H := flat_numpy (1#2)) 1 tt = Ok (df, g') /\
    columns df = WATER_COLUMNS /\
    StronglySorted Z.le hours /\
    length hours = 1%nat /\ length sources = 1%nat /\
    Forall2 (water_row_from (H := flat_numpy (1#2))) (zip hours sources) (rows df).
Proof.
  apply (water_rows_chronological unit (flat_numpy (1#2)) 1 tt). lia.
Defined.

(** X22: in every row of a generated water table tds_ppm and
    hardness_mg_l are at least 10, chloride_mg_l and sulfate_mg_l at
    least 1, nitrate_mg_l at least 0.5, and turbidity_ntu is the
    missing-value marker or at least 0.1: rounding for the table does
    not take a value below its floor. *)
Theorem water_rows_floors
    (G : Type) (H : Numpy G) (n : nat) (g : G) :
  (0 < n)%nat ->
  exists df g',
    generate_water_data n g = Ok (df, g') /\
    length (rows df) = n /\
    Forall water_row_floors (rows df).
Proof.
  intros Hn.
  destruct (generate_water_data_rows n g Hn)
    as (df & g' & hours & sources & E & Hc & Hs & Hh & Hz & _ & Hrows).
  exists df, g'. split; [exact E |]. split.
  - apply Forall2_length in Hrows. rewrite <- Hrows.
    rewrite zip_length_same; congruence.
  - eapply Forall2_right; [| exact Hrows]. now intros hz r (_ & Hfl & _).
Qed.

Lemma water_rows_floors_witness :
  exists df g',
    generate_water_data (H := flat_numpy (1#2)) 1 tt = Ok (df, g') /\
    length (rows df) = 1%nat /\
    Forall water_row_floors (rows df).
Proof.
  apply (water_rows_floors unit (flat_numpy (1#2)) 1 tt). lia.
Defined.

(** X23: the quality_grade of every row of a generated water table is
    the grade of the rubric on five measurements taken before rounding:
    the ph, tds_ppm and nitrate_mg_l cells are their roundings, and the
    turbidity_ntu and dissolved_oxygen_mg_l cells are their roundings
    or were blanked afterwards, which leaves the grade as it was. *)
Theorem water_rows_graded
    (G : Type) (H : Numpy G) (n : nat) (g : G) :
  (0 < n)%nat ->
  exists df g',
    generate_water_data n g = Ok (df, g') /\
    length (rows df) = n /\
    Forall water_row_graded (rows df).
Proof.
  intros Hn.
  destruct (generate_water_data_rows n g Hn)
    as (df & g' & hours & sources & E & Hc & Hs & Hh & Hz & _ & Hrows).
  exists df, g'. split; [exact E |]. split.
  - apply Forall2_length in Hrows. rewrite <- Hrows.
    rewrite zip_length_same; congruence.
  - eapply Forall2_right; [| exact Hrows]. now intros hz r (_ & _ & Hgr).
Qed.

Lemma water_rows_graded_witness :
  exists df g',
    generate_water_data (H := flat_numpy (1#2)) 1 tt = Ok (df, g') /\
    length (rows df) = 1%nat /\
    Forall water_row_graded (rows df).
Proof.
  apply (water_rows_graded unit (flat_numpy (1#2)) 1 tt). lia.
Defined.

(** ** The weather table *)

(** X24: for every number of records, zero included, and whatever the
    random draws, the weather simulator returns a table of that many
    rows, and in each row humidity_pct lies in [15, 100], rainfall_mm,
    wind_speed_kmh and solar_radiation_wm2 are not negative, and
    uv_index is a whole number from 0 to 12. *)
Theorem weather_rows_bounded
    (G : Type) (H : Numpy G) (n : nat) (g : G) :
  exists df g',
    generate_weather_data n g = Ok (df, g') /\
    length (rows df) = n /\
    Forall weather_row_bounded (rows df).
Proof.
  destruct (generate_weather_data_rows n g) as (df & g' & E & Hrows).
  exists df, g'. split; [exact E |]. split.
  - apply Forall2_length in Hrows. rewrite <- Hrows.
    now rewrite length_map, length_seq.
  - eapply Forall2_right; [| exact Hrows]. now intros h r [_ Hb].
Qed.

(** X25: the rows of the weather table are stamped at regular steps of
    17520 div n hours from the start date: the instants are in
    non-decreasing order and none leaves the two years. *)
Theorem weather_timestamps_regular
    (G : Type) (H : Numpy G) (n : nat) (g : G) :
  exists df g' hours,
    generate_weather_data n g = Ok (df, g') /\
    hours = map (fun i => (Z.of_nat i * (17520 / Z.of_nat n))%Z) (seq 0 n) /\
    StronglySorted Z.le hours /\
    Forall within_two_years hours /\
    Forall2 (fun h r => r !! "timestamp" = Some (Str (strftime h)))
            hours (rows df).
Proof.
  destruct (generate_weather_data_rows n g) as (df & g' & E & Hrows).
  exists df, g', (map (fun i => (Z.of_nat i * (17520 / Z.of_nat n))%Z) (seq 0 n)).
  split; [exact E |]. split; [reflexivity |].
  split; [apply regular_hours_sorted, Z_div_nonneg_nonneg; lia |].
  split; [exact (regular_hours_within n) |].
  eapply Forall2_weaken; [| exact Hrows]. now intros h r [Ht _].
Qed.

(** X26: when more records are asked for than the two years have hours
    (17520), the step between two rows is 0 hours: every row of the
    weather table carries the timestamp of the start date. *)
Theorem weather_timestamps_collapse
    (G : Type) (H : Numpy G) (n : nat) (g : G) :
  (17520 < Z.of_nat n)%Z ->
  exists df g',
    generate_weather_data n g = Ok (df, g') /\
    length (rows df) = n /\
    Forall (fun r => r !! "timestamp" = Some (Str (strftime 0))) (rows df).
Proof.
  intros Hn.
  destruct (generate_weather_data_rows n g) as (df & g' & E & Hrows).
  exists df, g'. split; [exact E |]. split.
  - apply Forall2_length in Hrows. rewrite <- Hrows.
    now rewrite length_map, length_seq.
  - change (365 * 2 * 24)%Z with 17520%Z in Hrows.
    rewrite Z.div_small in Hrows by lia.
    remember (seq 0 n) as l eqn:Hl. clear Hl.
    remember (rows df) as rs eqn:Hr. clear Hr E.
    revert rs Hrows. induction l as [| i l IH]; intros rs Hrows;
      inversion Hrows as [| h r hs rs' [Ht _] Hrest]; subst; constructor.
    + now rewrite Z.mul_0_r in Ht.
    + now apply IH.
Qed.

Lemma weather_timestamps_collapse_witness :
  exists df g',
    generate_weather_data (H := flat_numpy 0) (Z.to_nat 17521) tt = Ok (df, g') /\
    length (rows df) = Z.to_nat 17521 /\
    Forall (fun r => r !! "timestamp"
                     = Some (Str (strftime (Numpy := flat_numpy 0) 0))) (rows df).
Proof.
  apply (weather_timestamps_collapse unit (flat_numpy 0) (Z.to_nat 17521) tt). lia.
Defined.

(** ** The soil table and the irrigation data set *)

(** X27: every soil type that the soil simulator writes is a key of the
    field-capacity table of the irrigation data set: on a generated row
    the fill value 35 for unknown soil types is never used, and the field
    capacity lies between 20 and 60. *)
Theorem generated_soil_types_have_capacity
    (G : Type) (H : Numpy G) (n : nat) (g : G) :
  (0 < n)%nat ->
  exists df g',
    generate_soil_data n g = Ok (df, g') /\
    Forall (fun r => exists s fc,
                r !! "soil_type" = Some (Str s) /\
                field_capacity !! s = Some fc /\
                map_fillna field_capacity 35 s = fc /\
                20 <= fc <= 60)
           (rows df).
Proof.
  intros Hn.
  destruct (generate_soil_data_rows n g Hn)
    as (df & g' & hours & zones & E & _ & _ & _ & _ & _ & Hrows).
  exists df, g'. split; [exact E |].
  eapply Forall2_right; [| exact Hrows].
  intros hz r [(_ & _ & p & Hp & Hs) _].
  exists (p_soil_type p).
  assert (exists fc, field_capacity !! p_soil_type p = Some fc /\ 20 <= fc <= 60)
    as [fc [Hfc Hb]].
  { clear -Hp. unfold ZONE_PROFILES in Hp. cbn [In] in Hp.
    repeat (destruct Hp as [[= _ <-] | Hp];
            [cbn [p_soil_type]; eexists; split;
             [vm_compute; reflexivity | split; discriminate] |]).
    destruct Hp. }
  exists fc. split; [exact Hs |]. split; [exact Hfc |]. split; [| exact Hb].
  unfold map_fillna. now rewrite Hfc.
Qed.

Lemma generated_soil_types_have_capacity_witness :
  exists df g',
    generate_soil_data (H := flat_numpy (1#2)) 1 tt = Ok (df, g') /\
    Forall (fun r => exists s fc,
                r !! "soil_type" = Some (Str s) /\
                field_capacity !! s = Some fc /\
                map_fillna field_capacity 35 s = fc /\
                20 <= fc <= 60)
           (rows df).
Proof.
  apply (generated_soil_types_have_capacity unit (flat_numpy (1#2)) 1 tt). lia.
Defined.
